(** * iosocks: the client (isocks.c) and server (osocks.c) connection handlers

    A shallow embedding of the two event-driven daemons.  Every libev
    callback of the C sources becomes a function from a connection control
    block and the answers of the operating system during that one callback
    (an [oracle]) to an [outcome]: the updated block together with the
    observable actions, or the destruction of the block.

    Bytes are [Byte.byte]; the [ssize_t] counters are [Z]; the fixed
    [uint8_t buf[BUF_SIZE]] arrays are byte lists whose length is kept by
    the well-formedness predicate of each module. *)

From Stdlib Require Import ZArith NArith List Lia Bool.
From Stdlib Require Import Init.Byte.
From Stdlib Require Strings.Byte.
From Stdlib Require Strings.String.
Import String.StringSyntax.
Delimit Scope string_scope with string.
Import ListNotations.
Local Open Scope Z_scope.

(** ** Constants of both translation units *)

Definition BUF_SIZE : Z := 8192.
Definition MAGIC : Z := 0x526f6e61.

(** The [after] argument of [ev_timer_init (w_timer, closewait_cb, 1.0, 0)],
    in milliseconds. *)
Definition LINGER_MS : Z := 1000.

(** ** Bytes *)

Definition u8 (b : byte) : Z := Z.of_N (Byte.to_N b).

Definition byte_of_Z (z : Z) : byte :=
  match Byte.of_N (Z.to_N (z mod 256)) with
  | Some b => b
  | None => x00
  end.

Definition byte_eqb (a b : byte) : bool := Byte.eqb a b.

(** ** Buffers: [memcpy], [bzero], single stores and loads

    [memcpy buf off src] is [memcpy (buf + off, src, length src)].  The C
    code never writes past the end of an array on the paths modelled here;
    the list version would grow the list there. *)

Definition sub (buf : list byte) (off n : nat) : list byte :=
  firstn n (skipn off buf).

Definition memcpy (buf : list byte) (off : nat) (src : list byte) : list byte :=
  firstn off buf ++ src ++ skipn (off + length src) buf.

Definition bzero (buf : list byte) (n : nat) : list byte :=
  memcpy buf 0 (repeat x00 n).

Definition peek (buf : list byte) (i : nat) : byte := nth i buf x00.

Definition poke (buf : list byte) (i : nat) (b : byte) : list byte :=
  memcpy buf i [b].

(** The bytes of a C string held in an array: everything before the first
    NUL.  [strcpy] copies them and the terminator. *)
Fixpoint cstr (l : list byte) : list byte :=
  match l with
  | [] => []
  | b :: r => if byte_eqb b x00 then [] else b :: cstr r
  end.

Definition strcpy (buf : list byte) (off : nat) (s : list byte) : list byte :=
  memcpy buf off (cstr s ++ [x00]).

(** [*((uint32_t * ) p) = htonl (v)] and [ntohl ( *((uint32_t * ) p))]: the
    four bytes in network order, whatever the host order is. *)
Definition be32 (v : Z) : list byte :=
  [ byte_of_Z (Z.shiftr v 24); byte_of_Z (Z.shiftr v 16);
    byte_of_Z (Z.shiftr v 8); byte_of_Z v ].

Definition load_be32 (buf : list byte) (off : nat) : Z :=
  Z.lor (Z.shiftl (u8 (peek buf off)) 24)
    (Z.lor (Z.shiftl (u8 (peek buf (off + 1))) 16)
       (Z.lor (Z.shiftl (u8 (peek buf (off + 2))) 8)
          (u8 (peek buf (off + 3))))).

(** [ntohs ( *(uint16_t * ) p)] *)
Definition load_be16 (buf : list byte) (off : nat) : Z :=
  Z.lor (Z.shiftl (u8 (peek buf off)) 8) (u8 (peek buf (off + 1))).

(** [sprintf (port, "%u", v)]: the decimal digits of an unsigned value, most
    significant first.  A 32-bit value has at most ten digits. *)
Definition digit (d : Z) : byte := byte_of_Z (48 + d).

Fixpoint utoa_loop (fuel : nat) (v : Z) (acc : list byte) : list byte :=
  match fuel with
  | O => acc
  | S f =>
      let acc' := digit (v mod 10) :: acc in
      if v / 10 =? 0 then acc' else utoa_loop f (v / 10) acc'
  end.

Definition utoa (v : Z) : list byte := utoa_loop 10 v [].

(** [inet_ntop (AF_INET, p, host, INET_ADDRSTRLEN)]: dotted decimal. *)
Definition inet_ntop4 (a : list byte) : list byte :=
  utoa (u8 (peek a 0)) ++ ["."%byte] ++ utoa (u8 (peek a 1)) ++ ["."%byte]
    ++ utoa (u8 (peek a 2)) ++ ["."%byte] ++ utoa (u8 (peek a 3)).

(** ** What the operating system answers during one callback *)

Inductive recv_result :=
| RecvFail                       (* recv returned -1 *)
| RecvData (data : list byte).   (* the bytes delivered; none at end of file *)

(** [recv (fd, buf, BUF_SIZE, 0)]: the return value and the buffer after it.
    The kernel delivers at most [BUF_SIZE] bytes. *)
Definition recv (r : recv_result) (buf : list byte) : Z * list byte :=
  match r with
  | RecvFail => (-1, buf)
  | RecvData d =>
      let d' := firstn (Z.to_nat BUF_SIZE) d in
      (Z.of_nat (length d'), memcpy buf 0 d')
  end.

Inductive send_result :=
| SendFail (again : bool)   (* -1; [again] when errno is EAGAIN or EWOULDBLOCK *)
| SendRoom (room : N).      (* free space of the socket's send queue *)

(** [send (fd, p, len, MSG_NOSIGNAL)]: the return value. *)
Definition send (r : send_result) (len : Z) : Z :=
  match r with
  | SendFail _ => -1
  | SendRoom room => Z.min (Z.of_N room) (Z.max 0 len)
  end.

Definition errno_again (r : send_result) : bool :=
  match r with
  | SendFail again => again
  | SendRoom _ => false
  end.

Record oracle := {
  recv_res : recv_result;   (* the one recv of the callback *)
  send_res : send_result;   (* the one send of the callback *)
  rand_index : Z;           (* the unsigned int read from /dev/urandom *)
  rand_iv : list byte;      (* the 236 bytes read from /dev/urandom *)
  socket_res : Z;           (* socket (): a descriptor, or -1 *)
  mem_new_ok : bool;        (* mem_new () returned a block *)
  so_error : Z;             (* getsockopt (SO_ERROR) *)
  gai_ok : bool;            (* getaddrinfo_a () / gai_error () returned 0 *)
  gai_res : list Z;         (* the address families of the resolved candidates *)
  key_stack : list byte     (* the uninitialised [uint8_t key[64]] *)
}.

(** ** Observable actions of a callback *)

Inductive action :=
| Send (fd : Z) (data : list byte)   (* the bytes the kernel accepted *)
| Close (fd : Z)
| Connect (fd : Z)
| Resolve (host port : list byte)    (* getaddrinfo_a *)
| TimerStart (after_ms : Z)          (* ev_timer_start of closewait_cb *)
| TimerStop
| FreeTimer
| FreeGai
| FreeConn.

(** The bytes that went out: the first [n] bytes of the region handed to
    [send], nothing when it failed. *)
Definition sent (fd : Z) (region : list byte) (n : Z) : list action :=
  if n <? 0 then [] else [Send fd (firstn (Z.to_nat n) region)].

(** All the bytes a list of actions put on descriptor [fd], in order. *)
Definition sent_on (fd : Z) (fx : list action) : list byte :=
  flat_map
    (fun a =>
       match a with
       | Send fd' data => if fd' =? fd then data else []
       | _ => []
       end) fx.

(** ** Collaborators: MD5, the stream cipher and the C library's IPv6 printer

    [md5.h], [encrypt.h] and [inet_ntop (AF_INET6, ...)] are used through
    narrow interfaces; the handlers are written over any implementation
    that respects the sizes the C prototypes fix: [md5] writes 16 bytes,
    the cipher works in place, and an IPv6 presentation string fits
    [INET6_ADDRSTRLEN] with its terminator. *)

Class Collaborators := {
  md5 : list byte -> list byte;
  enc_evp_t : Type;
  enc_init : list byte -> enc_evp_t;
  io_encrypt : enc_evp_t -> list byte -> list byte * enc_evp_t;
  io_decrypt : enc_evp_t -> list byte -> list byte * enc_evp_t;
  inet_ntop6 : list byte -> list byte;
  md5_length : forall m, length (md5 m) = 16%nat;
  io_encrypt_length : forall s m, length (fst (io_encrypt s m)) = length m;
  io_decrypt_length : forall s m, length (fst (io_decrypt s m)) = length m;
  inet_ntop6_length : forall a, (length (inet_ntop6 a) < 46)%nat
}.

(** In-place use of the cipher on the first [n] bytes of a buffer. *)
Definition encrypt_in_place `{Collaborators} (s : enc_evp_t) (buf : list byte)
  (n : nat) : list byte * enc_evp_t :=
  let (out, s') := io_encrypt s (sub buf 0 n) in (memcpy buf 0 out, s').

Definition decrypt_in_place `{Collaborators} (s : enc_evp_t) (buf : list byte)
  (n : nat) : list byte * enc_evp_t :=
  let (out, s') := io_decrypt s (sub buf 0 n) in (memcpy buf 0 out, s').

(** ** Key setup in [main], the same in both programs

    [key_len = strlen (key); if (key_len > 256) { key[257] = 0; key_len = 256; }]
    The key is the C string of the configuration, without its terminator. *)

Record server_t := {
  family : Z;
  key : list byte;
  key_len : nat
}.

Definition setup_server (fam : Z) (k : list byte) : server_t :=
  if (256 <? length k)%nat
  then {| family := fam; key := poke k 257 x00; key_len := 256 |}
  else {| family := fam; key := k; key_len := length k |}.

(** The loop of [main] over the configured servers. *)
Definition setup_servers (conf : list (Z * list byte)) : list server_t :=
  map (fun entry => setup_server (fst entry) (snd entry)) conf.

Definition no_server : server_t := {| family := 0; key := []; key_len := 0 |}.

(** The pre-shared key bytes a handler hashes:
    [memcpy (buf + 236, servers[i].key, servers[i].key_len)]. *)
Definition psk (s : server_t) : list byte := firstn (key_len s) (key s).

(** The four [md5] calls on the local [key] array. *)
Definition md5_chain `{Collaborators} (seed : list byte) (key0 : list byte)
  : list byte :=
  let k := memcpy key0 0 (md5 seed) in
  let k := memcpy k 16 (md5 (sub k 0 16)) in
  let k := memcpy k 32 (md5 (sub k 0 32)) in
  let k := memcpy k 48 (md5 (sub k 0 48)) in
  k.

(** The key derivation in the words of the specification:
    k[0..16] = MD5 (R || P), k[16..32] = MD5 (k[0..16]),
    k[32..48] = MD5 (k[0..32]), k[48..64] = MD5 (k[0..48]). *)
Definition kdf_spec `{Collaborators} (R P : list byte) : list byte :=
  let k0 := md5 (R ++ P) in
  let k1 := md5 k0 in
  let k2 := md5 (k0 ++ k1) in
  let k3 := md5 (k0 ++ k1 ++ k2) in
  k0 ++ k1 ++ k2 ++ k3.

(** * The command line, the same in both [main] functions

    [conf_t] comes from conf.h; [main] uses its [server_num], the
    [address], [port] and [key] of each [server] entry and the [address]
    and [port] of [local].  A [char *] that is NULL is [None]; entries of
    the [server] array that the list does not hold are zero. *)

Module Main.

Record endpoint_t := {
  address : option String.string;
  port : option String.string;
  key : option String.string
}.

Definition null_endpoint : endpoint_t :=
  {| address := None; port := None; key := None |}.

Record local_t := {
  local_address : option String.string;
  local_port : option String.string
}.

Record conf_t := {
  server_num : Z;
  server : list endpoint_t;
  local : local_t
}.

(** [bzero (&conf, sizeof (conf_t))], or the zero-initialised global. *)
Definition zero_conf : conf_t :=
  {| server_num := 0; server := [];
     local := {| local_address := None; local_port := None |} |}.

(** [conf.server_num = 1; conf.server[0].f = argv[i + 1];] *)
Definition set_server0 (f : endpoint_t -> endpoint_t) (cf : conf_t) : conf_t :=
  {| server_num := 1;
     server := f (hd null_endpoint (server cf)) :: tl (server cf);
     local := local cf |}.

Definition set_address (v : String.string) (s : endpoint_t) : endpoint_t :=
  {| address := Some v; port := port s; key := key s |}.

Definition set_port (v : String.string) (s : endpoint_t) : endpoint_t :=
  {| address := address s; port := Some v; key := key s |}.

Definition set_key (v : String.string) (s : endpoint_t) : endpoint_t :=
  {| address := address s; port := port s; key := Some v |}.

Definition set_local (l : local_t) (cf : conf_t) : conf_t :=
  {| server_num := server_num cf; server := server cf; local := l |}.

(** What [main] wrote before it returned. *)
Inductive output :=
| Usage                                  (* help () *)
| InvalidOption (arg : String.string)    (* "Invalid option: %s" on stderr *)
| Nothing.

Inductive result (A : Type) :=
| Return (code : Z) (out : output)
| Continue (a : A).

Arguments Return {A} code out.
Arguments Continue {A} a.

(** The loop over [argv], from [argv[i]] on; [i + 2 > argc] holds when no
    argument follows. *)
Fixpoint parse_args (args : list String.string) (cf : conf_t)
  (conf_file : option String.string)
  : result (conf_t * option String.string) :=
  match args with
  | [] => Continue (cf, conf_file)
  | a :: rest =>
      if String.eqb a "-h"%string || String.eqb a "--help"%string then
        Return 0 Usage
      else if String.eqb a "-c"%string then
        match rest with
        | [] => Return 1 (InvalidOption a)
        | v :: rest' => parse_args rest' cf (Some v)
        end
      else if String.eqb a "-s"%string then
        match rest with
        | [] => Return 1 (InvalidOption a)
        | v :: rest' =>
            parse_args rest' (set_server0 (set_address v) cf) conf_file
        end
      else if String.eqb a "-p"%string then
        match rest with
        | [] => Return 1 (InvalidOption a)
        | v :: rest' =>
            parse_args rest' (set_server0 (set_port v) cf) conf_file
        end
      else if String.eqb a "-b"%string then
        match rest with
        | [] => Return 1 (InvalidOption a)
        | v :: rest' =>
            parse_args rest'
              (set_local {| local_address := Some v;
                            local_port := local_port (local cf) |} cf)
              conf_file
        end
      else if String.eqb a "-l"%string then
        match rest with
        | [] => Return 1 (InvalidOption a)
        | v :: rest' =>
            parse_args rest'
              (set_local {| local_address := local_address (local cf);
                            local_port := Some v |} cf)
              conf_file
        end
      else if String.eqb a "-k"%string then
        match rest with
        | [] => Return 1 (InvalidOption a)
        | v :: rest' =>
            parse_args rest' (set_server0 (set_key v) cf) conf_file
        end
      else Return 1 (InvalidOption a)
  end.

Definition default (d : String.string) (v : option String.string)
  : option String.string :=
  match v with None => Some d | Some _ => v end.

(** The loop over the first [n] servers: the defaults of address and port,
    and the test of the key, which ends the program. *)
Fixpoint check_servers (n : nat) (l : list endpoint_t)
  : option (list endpoint_t) :=
  match n with
  | O => Some l
  | S n' =>
      let s := hd null_endpoint l in
      match key s with
      | None => None
      | Some _ =>
          match check_servers n' (tl l) with
          | None => None
          | Some r =>
              Some ({| address := default "0.0.0.0"%string (address s);
                       port := default "1205"%string (port s);
                       key := key s |} :: r)
          end
      end
  end.

Section WithConfFile.

(** [read_conf] of conf.h: the configuration it leaves in [conf], or
    [None] when it does not return 0. *)
Variable read_conf : String.string -> conf_t -> option conf_t.

(** [main] up to the table of servers. *)
Definition configure (args : list String.string) : result conf_t :=
  match parse_args args zero_conf None with
  | Return code out => Return code out
  | Continue (cf, conf_file) =>
      let loaded :=
        match conf_file with
        | Some f => read_conf f cf
        | None => Some cf
        end in
      match loaded with
      | None => Return 1 Nothing
      | Some cf =>
          if server_num cf =? 0 then Return 1 Usage
          else
            match check_servers (Z.to_nat (server_num cf)) (server cf) with
            | None => Return 1 Usage
            | Some servers =>
                Continue
                  {| server_num := server_num cf; server := servers;
                     local :=
                       {| local_address :=
                            default "127.0.0.1"%string
                              (local_address (local cf));
                          local_port :=
                            default "1080"%string (local_port (local cf)) |}
                  |}
            end
      end
  end.

End WithConfFile.

(** A command line made of options with their values. *)
Definition takes_value (o : String.string) : bool :=
  existsb (String.eqb o)
    ["-c"%string; "-s"%string; "-p"%string; "-b"%string; "-l"%string;
     "-k"%string].

Definition words (pairs : list (String.string * String.string))
  : list String.string :=
  flat_map (fun p => [fst p; snd p]) pairs.

(** The value of the last occurrence of option [o]. *)
Definition last_value (o : String.string)
  (pairs : list (String.string * String.string)) (init : option String.string)
  : option String.string :=
  fold_left (fun acc p => if String.eqb (fst p) o then Some (snd p) else acc)
    pairs init.

(** Whether one of [-s], [-p], [-k] occurs. *)
Definition names_server (pairs : list (String.string * String.string)) : bool :=
  existsb
    (fun p =>
       String.eqb (fst p) "-s"%string || String.eqb (fst p) "-p"%string
       || String.eqb (fst p) "-k"%string) pairs.

(** What the loop leaves of [cf] after the options [pairs]: the last value
    of each option, and one server as soon as one of its options occurs. *)
Definition after_options (pairs : list (String.string * String.string))
  (cf : conf_t) : conf_t :=
  let s := hd null_endpoint (server cf) in
  {| server_num := if names_server pairs then 1 else server_num cf;
     server :=
       if names_server pairs then
         {| address := last_value "-s"%string pairs (address s);
            port := last_value "-p"%string pairs (port s);
            key := last_value "-k"%string pairs (key s) |} :: tl (server cf)
       else server cf;
     local :=
       {| local_address :=
            last_value "-b"%string pairs (local_address (local cf));
          local_port :=
            last_value "-l"%string pairs (local_port (local cf)) |} |}.

End Main.

(** * The client, isocks.c *)

Module Client.

Inductive state_t :=
| CLOSED | NEGO_RCVD | NEGO_ERR | NEGO_SENT | CMD_RCVD | CMD_ERR
| CONNECTED | REQ_SENT | REP_RCVD | REQ_ERR | ESTAB | CLOSE_WAIT.

Definition is_estab (s : state_t) : bool :=
  match s with ESTAB => true | _ => false end.

(** The callback installed in [w_remote_write] by [ev_io_init]. *)
Inductive remote_write_handler := NoHandler | ConnectCb | RemoteWriteCb.

Section WithCollaborators.
Context `{Collaborators}.

(** [conn_t].  A watcher is reduced to whether it is active. *)
Record conn_t := {
  w_local_read : bool;
  w_local_write : bool;
  w_remote_read : bool;
  w_remote_write : bool;
  w_remote_write_cb : remote_write_handler;
  rx_bytes : Z;
  tx_bytes : Z;
  rx_offset : Z;
  tx_offset : Z;
  sock_local : Z;
  sock_remote : Z;
  state : state_t;
  enc_evp : enc_evp_t;
  rx_buf : list byte;
  tx_buf : list byte
}.

Definition set_w_local_read (v : bool) (c : conn_t) : conn_t :=
  {| w_local_read := v; w_local_write := w_local_write c;
     w_remote_read := w_remote_read c; w_remote_write := w_remote_write c;
     w_remote_write_cb := w_remote_write_cb c;
     rx_bytes := rx_bytes c; tx_bytes := tx_bytes c;
     rx_offset := rx_offset c; tx_offset := tx_offset c;
     sock_local := sock_local c; sock_remote := sock_remote c;
     state := state c; enc_evp := enc_evp c;
     rx_buf := rx_buf c; tx_buf := tx_buf c |}.

Definition set_w_local_write (v : bool) (c : conn_t) : conn_t :=
  {| w_local_read := w_local_read c; w_local_write := v;
     w_remote_read := w_remote_read c; w_remote_write := w_remote_write c;
     w_remote_write_cb := w_remote_write_cb c;
     rx_bytes := rx_bytes c; tx_bytes := tx_bytes c;
     rx_offset := rx_offset c; tx_offset := tx_offset c;
     sock_local := sock_local c; sock_remote := sock_remote c;
     state := state c; enc_evp := enc_evp c;
     rx_buf := rx_buf c; tx_buf := tx_buf c |}.

Definition set_w_remote_read (v : bool) (c : conn_t) : conn_t :=
  {| w_local_read := w_local_read c; w_local_write := w_local_write c;
     w_remote_read := v; w_remote_write := w_remote_write c;
     w_remote_write_cb := w_remote_write_cb c;
     rx_bytes := rx_bytes c; tx_bytes := tx_bytes c;
     rx_offset := rx_offset c; tx_offset := tx_offset c;
     sock_local := sock_local c; sock_remote := sock_remote c;
     state := state c; enc_evp := enc_evp c;
     rx_buf := rx_buf c; tx_buf := tx_buf c |}.

Definition set_w_remote_write (v : bool) (c : conn_t) : conn_t :=
  {| w_local_read := w_local_read c; w_local_write := w_local_write c;
     w_remote_read := w_remote_read c; w_remote_write := v;
     w_remote_write_cb := w_remote_write_cb c;
     rx_bytes := rx_bytes c; tx_bytes := tx_bytes c;
     rx_offset := rx_offset c; tx_offset := tx_offset c;
     sock_local := sock_local c; sock_remote := sock_remote c;
     state := state c; enc_evp := enc_evp c;
     rx_buf := rx_buf c; tx_buf := tx_buf c |}.

Definition set_w_remote_write_cb (v : remote_write_handler) (c : conn_t)
  : conn_t :=
  {| w_local_read := w_local_read c; w_local_write := w_local_write c;
     w_remote_read := w_remote_read c; w_remote_write := w_remote_write c;
     w_remote_write_cb := v;
     rx_bytes := rx_bytes c; tx_bytes := tx_bytes c;
     rx_offset := rx_offset c; tx_offset := tx_offset c;
     sock_local := sock_local c; sock_remote := sock_remote c;
     state := state c; enc_evp := enc_evp c;
     rx_buf := rx_buf c; tx_buf := tx_buf c |}.

Definition set_rx_bytes (v : Z) (c : conn_t) : conn_t :=
  {| w_local_read := w_local_read c; w_local_write := w_local_write c;
     w_remote_read := w_remote_read c; w_remote_write := w_remote_write c;
     w_remote_write_cb := w_remote_write_cb c;
     rx_bytes := v; tx_bytes := tx_bytes c;
     rx_offset := rx_offset c; tx_offset := tx_offset c;
     sock_local := sock_local c; sock_remote := sock_remote c;
     state := state c; enc_evp := enc_evp c;
     rx_buf := rx_buf c; tx_buf := tx_buf c |}.

Definition set_tx_bytes (v : Z) (c : conn_t) : conn_t :=
  {| w_local_read := w_local_read c; w_local_write := w_local_write c;
     w_remote_read := w_remote_read c; w_remote_write := w_remote_write c;
     w_remote_write_cb := w_remote_write_cb c;
     rx_bytes := rx_bytes c; tx_bytes := v;
     rx_offset := rx_offset c; tx_offset := tx_offset c;
     sock_local := sock_local c; sock_remote := sock_remote c;
     state := state c; enc_evp := enc_evp c;
     rx_buf := rx_buf c; tx_buf := tx_buf c |}.

Definition set_rx_offset (v : Z) (c : conn_t) : conn_t :=
  {| w_local_read := w_local_read c; w_local_write := w_local_write c;
     w_remote_read := w_remote_read c; w_remote_write := w_remote_write c;
     w_remote_write_cb := w_remote_write_cb c;
     rx_bytes := rx_bytes c; tx_bytes := tx_bytes c;
     rx_offset := v; tx_offset := tx_offset c;
     sock_local := sock_local c; sock_remote := sock_remote c;
     state := state c; enc_evp := enc_evp c;
     rx_buf := rx_buf c; tx_buf := tx_buf c |}.

Definition set_tx_offset (v : Z) (c : conn_t) : conn_t :=
  {| w_local_read := w_local_read c; w_local_write := w_local_write c;
     w_remote_read := w_remote_read c; w_remote_write := w_remote_write c;
     w_remote_write_cb := w_remote_write_cb c;
     rx_bytes := rx_bytes c; tx_bytes := tx_bytes c;
     rx_offset := rx_offset c; tx_offset := v;
     sock_local := sock_local c; sock_remote := sock_remote c;
     state := state c; enc_evp := enc_evp c;
     rx_buf := rx_buf c; tx_buf := tx_buf c |}.

Definition set_sock_remote (v : Z) (c : conn_t) : conn_t :=
  {| w_local_read := w_local_read c; w_local_write := w_local_write c;
     w_remote_read := w_remote_read c; w_remote_write := w_remote_write c;
     w_remote_write_cb := w_remote_write_cb c;
     rx_bytes := rx_bytes c; tx_bytes := tx_bytes c;
     rx_offset := rx_offset c; tx_offset := tx_offset c;
     sock_local := sock_local c; sock_remote := v;
     state := state c; enc_evp := enc_evp c;
     rx_buf := rx_buf c; tx_buf := tx_buf c |}.

Definition set_state (v : state_t) (c : conn_t) : conn_t :=
  {| w_local_read := w_local_read c; w_local_write := w_local_write c;
     w_remote_read := w_remote_read c; w_remote_write := w_remote_write c;
     w_remote_write_cb := w_remote_write_cb c;
     rx_bytes := rx_bytes c; tx_bytes := tx_bytes c;
     rx_offset := rx_offset c; tx_offset := tx_offset c;
     sock_local := sock_local c; sock_remote := sock_remote c;
     state := v; enc_evp := enc_evp c;
     rx_buf := rx_buf c; tx_buf := tx_buf c |}.

Definition set_enc_evp (v : enc_evp_t) (c : conn_t) : conn_t :=
  {| w_local_read := w_local_read c; w_local_write := w_local_write c;
     w_remote_read := w_remote_read c; w_remote_write := w_remote_write c;
     w_remote_write_cb := w_remote_write_cb c;
     rx_bytes := rx_bytes c; tx_bytes := tx_bytes c;
     rx_offset := rx_offset c; tx_offset := tx_offset c;
     sock_local := sock_local c; sock_remote := sock_remote c;
     state := state c; enc_evp := v;
     rx_buf := rx_buf c; tx_buf := tx_buf c |}.

Definition set_rx_buf (v : list byte) (c : conn_t) : conn_t :=
  {| w_local_read := w_local_read c; w_local_write := w_local_write c;
     w_remote_read := w_remote_read c; w_remote_write := w_remote_write c;
     w_remote_write_cb := w_remote_write_cb c;
     rx_bytes := rx_bytes c; tx_bytes := tx_bytes c;
     rx_offset := rx_offset c; tx_offset := tx_offset c;
     sock_local := sock_local c; sock_remote := sock_remote c;
     state := state c; enc_evp := enc_evp c;
     rx_buf := v; tx_buf := tx_buf c |}.

Definition set_tx_buf (v : list byte) (c : conn_t) : conn_t :=
  {| w_local_read := w_local_read c; w_local_write := w_local_write c;
     w_remote_read := w_remote_read c; w_remote_write := w_remote_write c;
     w_remote_write_cb := w_remote_write_cb c;
     rx_bytes := rx_bytes c; tx_bytes := tx_bytes c;
     rx_offset := rx_offset c; tx_offset := tx_offset c;
     sock_local := sock_local c; sock_remote := sock_remote c;
     state := state c; enc_evp := enc_evp c;
     rx_buf := rx_buf c; tx_buf := v |}.

(** The block of [accept_cb]: the descriptor stored, no watcher registered. *)
Definition set_sock_local_blank (fd : Z) (c : conn_t) : conn_t :=
  {| w_local_read := false; w_local_write := false;
     w_remote_read := false; w_remote_write := false;
     w_remote_write_cb := NoHandler;
     rx_bytes := rx_bytes c; tx_bytes := tx_bytes c;
     rx_offset := rx_offset c; tx_offset := tx_offset c;
     sock_local := fd; sock_remote := sock_remote c;
     state := state c; enc_evp := enc_evp c;
     rx_buf := rx_buf c; tx_buf := tx_buf c |}.

Inductive outcome :=
| Live (c : conn_t) (fx : list action)   (* the callback returned *)
| Gone (fx : list action)                (* the block was released *)
| Abort.                                 (* an assert failed *)

(** [cleanup]: the four [ev_io_stop], both [close], [mem_delete]. *)
Definition cleanup (c : conn_t) (fx : list action) : outcome :=
  Gone (fx ++ [Close (sock_local c); Close (sock_remote c); FreeConn]).

(** The [close (conn->sock_local); mem_delete (conn); return;] exits. *)
Definition drop (c : conn_t) (fx : list action) : outcome :=
  Gone (fx ++ [Close (sock_local c); FreeConn]).

(** The block a callback leaves, [d] when it left none. *)
Definition block_of (d : conn_t) (o : outcome) : conn_t :=
  match o with Live c _ => c | _ => d end.

Definition is_live (o : outcome) : bool :=
  match o with Live _ _ => true | _ => false end.

(** The method scan of the greeting:
    [for (i = 0; i < nmethods; i++) if (rx_buf[2 + i] == 0x00) break;]
    with [left] the number of iterations still to run; the result is [i]
    after the loop. *)
Fixpoint scan_methods (buf : list byte) (i left : nat) : nat :=
  match left with
  | O => i
  | S left' =>
      if byte_eqb (peek buf (2 + i)) x00 then i
      else scan_methods buf (S i) left'
  end.

(** The [error] variable of the greeting. *)
Definition nego_error (rx : list byte) : Z :=
  let error := if byte_eqb (peek rx 0) x05 then 0 else 1 in
  let nmethods := Z.to_nat (u8 (peek rx 1)) in
  let i := scan_methods rx 0 nmethods in
  if (nmethods <=? i)%nat then 2 else error.

(** The [error] variable of the command request, together with the [host]
    and [port] arrays.  The arrays are not written when the address type is
    unknown; nothing reads them then. *)
Definition parse_request (rx : list byte) : Z * list byte * list byte :=
  let error := if byte_eqb (peek rx 0) x05 then 0 else 1 in
  let error := if byte_eqb (peek rx 1) x01 then error else 2 in
  if byte_eqb (peek rx 3) x01 then
    (error, inet_ntop4 (sub rx 4 4), utoa (load_be16 rx 8))
  else if byte_eqb (peek rx 3) x03 then
    let n := Z.to_nat (u8 (peek rx 4)) in
    (error, sub rx 5 n, utoa (load_be16 rx (n + 5)))
  else if byte_eqb (peek rx 3) x04 then
    (error, inet_ntop6 (sub rx 4 16), utoa (load_be16 rx 20))
  else
    (3, [], []).

(** [index %= conf.server_num] on the [unsigned int] read from the random
    source. *)
Definition select_server (index : Z) (server_num : Z) : Z :=
  index mod server_num.

(** The key of the connection: [rx_buf] after [rand_bytes] and the [memcpy]
    of the pre-shared key, then the four [md5] calls. *)
Definition request_key (rx : list byte) (iv : list byte) (srv : server_t)
  (key0 : list byte) : list byte * list byte :=
  let rx := memcpy rx 0 (firstn 236 iv) in
  let rx := memcpy rx 236 (psk srv) in
  (rx, md5_chain (sub rx 0 (236 + key_len srv)) key0).

(** The 512 bytes of the request before [io_encrypt]. *)
Definition request_plain (tx rx host port : list byte) : list byte :=
  let tx := memcpy tx 276 (sub rx 0 236) in
  let tx := bzero tx 276 in
  let tx := memcpy tx 0 (be32 MAGIC) in
  let tx := strcpy tx 4 host in
  let tx := strcpy tx 261 port in
  tx.

(** The SOCKS5 reply of the error branch: [bzero (tx_buf, 10)] and the four
    stores. *)
Definition rep_code (error : Z) : byte :=
  if error =? 2 then x07 else if error =? 3 then x08 else x01.

Definition error_reply (tx : list byte) (error : Z) : list byte :=
  let tx := bzero tx 10 in
  let tx := poke tx 0 x05 in
  let tx := poke tx 1 (rep_code error) in
  let tx := poke tx 2 x00 in
  let tx := poke tx 3 x01 in
  tx.

Definition local_read_cb (servers : list server_t) (e : oracle) (c : conn_t)
  : outcome :=
  let c := if is_estab (state c) then c else set_w_local_read false c in
  match state c with
  | CLOSED =>
      let (n, rx) := recv (recv_res e) (bzero (rx_buf c) 257) in
      let c := set_rx_buf rx c in
      if n <=? 0 then drop c []
      else
        let error := nego_error rx in
        let tx := poke (poke (tx_buf c) 0 x05) 1 x00 in
        let c := set_state NEGO_RCVD (set_tx_bytes 2 (set_tx_buf tx c)) in
        let c :=
          if error =? 0 then c
          else set_tx_buf (poke tx 1 xff) (set_state NEGO_ERR c) in
        Live (set_w_local_write true c) []
  | NEGO_SENT =>
      let (n, rx) := recv (recv_res e) (bzero (rx_buf c) 263) in
      let c := set_rx_buf rx c in
      if n <=? 0 then drop c []
      else
        let '(error, host, port) := parse_request rx in
        if error =? 0 then
          let index :=
            select_server (rand_index e) (Z.of_nat (length servers)) in
          let srv := nth (Z.to_nat index) servers no_server in
          let (rx, key) := request_key rx (rand_iv e) srv (key_stack e) in
          let c := set_rx_buf rx c in
          let c := set_enc_evp (enc_init key) c in
          let tx := request_plain (tx_buf c) rx host port in
          let (tx, enc) := encrypt_in_place (enc_evp c) tx 276 in
          let c := set_tx_bytes 512 (set_enc_evp enc (set_tx_buf tx c)) in
          let c := set_sock_remote (socket_res e) c in
          if sock_remote c <? 0 then drop c []
          else
            let c := set_w_remote_write_cb ConnectCb c in
            let c := set_w_remote_write true c in
            let c := set_state CMD_RCVD c in
            Live c [Connect (sock_remote c)]
        else
          let c := set_tx_buf (error_reply (tx_buf c) error) c in
          let c := set_state CMD_ERR (set_tx_bytes 10 c) in
          Live (set_w_local_write true c) []
  | ESTAB =>
      let (n, tx) := recv (recv_res e) (tx_buf c) in
      let c := set_tx_buf tx (set_tx_bytes n c) in
      if tx_bytes c <=? 0 then cleanup c []
      else
        let (tx, enc) :=
          encrypt_in_place (enc_evp c) (tx_buf c) (Z.to_nat (tx_bytes c)) in
        let c := set_enc_evp enc (set_tx_buf tx c) in
        let n := send (send_res e) (tx_bytes c) in
        let fx :=
          sent (sock_remote c) (sub (tx_buf c) 0 (Z.to_nat (tx_bytes c))) n in
        if n <? 0 then
          if errno_again (send_res e) then
            let c := set_tx_offset 0 c in
            Live (set_w_local_read false (set_w_remote_write true c)) fx
          else cleanup c fx
        else if n <? tx_bytes c then
          let c := set_tx_bytes (tx_bytes c - n) (set_tx_offset n c) in
          Live (set_w_local_read false (set_w_remote_write true c)) fx
        else Live c fx
  | _ => Abort
  end.

(** The tail shared by the handshake branches of [local_write_cb] that end
    the connection: enter [CLOSE_WAIT] and start the one-shot timer. *)
Definition close_wait (e : oracle) (c : conn_t) (fx : list action) : outcome :=
  let c := set_state CLOSE_WAIT c in
  if mem_new_ok e then Live c (fx ++ [TimerStart LINGER_MS])
  else drop c fx.

Definition local_write_cb (e : oracle) (c : conn_t) : outcome :=
  let c := if is_estab (state c) then c else set_w_local_write false c in
  match state c with
  | NEGO_RCVD | NEGO_ERR =>
      let n := send (send_res e) (tx_bytes c) in
      let fx :=
        sent (sock_local c) (sub (tx_buf c) 0 (Z.to_nat (tx_bytes c))) n in
      if negb (n =? tx_bytes c) then drop c fx
      else
        match state c with
        | NEGO_RCVD =>
            Live (set_w_local_read true (set_state NEGO_SENT c)) fx
        | _ => close_wait e c fx
        end
  | CMD_ERR | REQ_ERR | REP_RCVD =>
      let n := send (send_res e) (tx_bytes c) in
      let fx :=
        sent (sock_local c) (sub (tx_buf c) 0 (Z.to_nat (tx_bytes c))) n in
      if negb (n =? tx_bytes c) then drop c fx
      else
        match state c with
        | REP_RCVD =>
            let c := set_state ESTAB c in
            Live (set_w_remote_read true (set_w_local_read true c)) fx
        | _ => close_wait e c fx
        end
  | ESTAB =>
      if negb (0 <? rx_bytes c) then Abort
      else
        let n := send (send_res e) (rx_bytes c) in
        let fx :=
          sent (sock_local c)
            (sub (rx_buf c) (Z.to_nat (rx_offset c)) (Z.to_nat (rx_bytes c)))
            n in
        if n <? 0 then
          if errno_again (send_res e) then Live c fx else cleanup c fx
        else if n <? rx_bytes c then
          Live (set_rx_bytes (rx_bytes c - n)
                  (set_rx_offset (rx_offset c + n) c)) fx
        else Live (set_w_local_write false (set_w_remote_read true c)) fx
  | _ => Abort
  end.

(** The SOCKS5 reply prepared once the server has answered: success, or
    [rep = 0x05] when the four bytes are not the magic. *)
Definition reply_frame (tx : list byte) (rep : byte) : list byte :=
  let tx := bzero tx 10 in
  let tx := poke tx 0 x05 in
  let tx := poke tx 1 rep in
  let tx := poke tx 2 x00 in
  let tx := poke tx 3 x01 in
  tx.

Definition remote_read_cb (e : oracle) (c : conn_t) : outcome :=
  let c := if is_estab (state c) then c else set_w_remote_read false c in
  match state c with
  | REQ_SENT =>
      let (n, rx) := recv (recv_res e) (rx_buf c) in
      let c := set_rx_buf rx c in
      if negb (n =? 4) then cleanup c []
      else
        let (rx, enc) := decrypt_in_place (enc_evp c) (rx_buf c) 4 in
        let c := set_enc_evp enc (set_rx_buf rx c) in
        let c := set_tx_buf (reply_frame (tx_buf c) x00) c in
        let c := set_state REP_RCVD (set_tx_bytes 10 c) in
        let magic := load_be32 (rx_buf c) 0 in
        let c :=
          if magic =? MAGIC then c
          else set_tx_buf (poke (tx_buf c) 1 x05) (set_state REQ_ERR c) in
        Live (set_w_local_write true c) []
  | ESTAB =>
      let (n, rx) := recv (recv_res e) (rx_buf c) in
      let c := set_rx_buf rx (set_rx_bytes n c) in
      if rx_bytes c <=? 0 then cleanup c []
      else
        let (rx, enc) :=
          decrypt_in_place (enc_evp c) (rx_buf c) (Z.to_nat (rx_bytes c)) in
        let c := set_enc_evp enc (set_rx_buf rx c) in
        let n := send (send_res e) (rx_bytes c) in
        let fx :=
          sent (sock_local c) (sub (rx_buf c) 0 (Z.to_nat (rx_bytes c))) n in
        if n <? 0 then
          if errno_again (send_res e) then
            let c := set_rx_offset 0 c in
            Live (set_w_remote_read false (set_w_local_write true c)) fx
          else cleanup c fx
        else if n <? rx_bytes c then
          let c := set_rx_bytes (rx_bytes c - n) (set_rx_offset n c) in
          Live (set_w_remote_read false (set_w_local_write true c)) fx
        else Live c fx
  | _ => Abort
  end.

Definition remote_write_cb (e : oracle) (c : conn_t) : outcome :=
  let c := if is_estab (state c) then c else set_w_remote_write false c in
  match state c with
  | CONNECTED =>
      let n := send (send_res e) (tx_bytes c) in
      let fx :=
        sent (sock_remote c) (sub (tx_buf c) 0 (Z.to_nat (tx_bytes c))) n in
      if negb (n =? tx_bytes c) then cleanup c fx
      else Live (set_w_remote_read true (set_state REQ_SENT c)) fx
  | ESTAB =>
      if negb (0 <? tx_bytes c) then Abort
      else
        let n := send (send_res e) (tx_bytes c) in
        let fx :=
          sent (sock_remote c)
            (sub (tx_buf c) (Z.to_nat (tx_offset c)) (Z.to_nat (tx_bytes c)))
            n in
        if n <? 0 then
          if errno_again (send_res e) then Live c fx else cleanup c fx
        else if n <? tx_bytes c then
          Live (set_tx_bytes (tx_bytes c - n)
                  (set_tx_offset (tx_offset c + n) c)) fx
        else Live (set_w_remote_write false (set_w_local_read true c)) fx
  | _ => Abort
  end.

Definition connect_cb (e : oracle) (c : conn_t) : outcome :=
  match state c with
  | CMD_RCVD =>
      let c := set_w_remote_write false c in
      if so_error e =? 0 then
        let c := set_state CONNECTED c in
        let c := set_w_remote_write_cb RemoteWriteCb c in
        Live (set_w_remote_write true c) []
      else
        let c := set_tx_buf (reply_frame (tx_buf c) x05) c in
        let c := set_state REQ_ERR (set_tx_bytes 10 c) in
        Live (set_w_local_write true c) [Close (sock_remote c)]
  | _ => Abort
  end.

Definition closewait_cb (c : conn_t) : outcome :=
  match state c with
  | CLOSE_WAIT => Gone [TimerStop; Close (sock_local c); FreeTimer; FreeConn]
  | _ => Abort
  end.

(** [accept_cb] on the block [blank] that [mem_new] returned, with [fd]
    the result of [accept].  No watcher of a new block is registered with
    the loop until it is started. *)
Definition accept_cb (fd : Z) (blank : conn_t) : outcome :=
  let c := set_sock_local_blank fd blank in
  if sock_local c <? 0 then Gone [FreeConn]
  else Live (set_w_local_read true (set_state CLOSED c)) [].

(** The request frame in the words of the specification: a field of [n]
    bytes holding a NUL-terminated string, and the first 276 bytes of the
    frame, magic in network order, host field, port field. *)
Definition field (n : nat) (s : list byte) : list byte :=
  cstr s ++ repeat x00 (n - length (cstr s)).

Definition frame_head_spec (host port : list byte) : list byte :=
  [x52; x6f; x6e; x61] ++ field 257 host ++ field 15 port.

(** The address types the request parser knows. *)
Definition atyp_known (b : byte) : bool :=
  byte_eqb b x01 || byte_eqb b x03 || byte_eqb b x04.

(** The ten bytes of a SOCKS5 reply with the given [REP]. *)
Definition socks_reply (rep : byte) : list byte :=
  [x05; rep; x00; x01; x00; x00; x00; x00; x00; x00].

(** ** The loop's view of one connection

    A callback runs only for a watcher that is active; the timer callback
    only once [ev_timer_start] has run.  [w_remote_write] calls the
    function its last [ev_io_init] installed. *)

Inductive event :=
| LocalReadable | LocalWritable | RemoteReadable | RemoteWritable
| TimerExpired.

Definition starts_timer (fx : list action) : bool :=
  existsb (fun a => match a with TimerStart _ => true | _ => false end) fx.

Definition dispatch (servers : list server_t) (ev : event) (e : oracle)
  (timer : bool) (c : conn_t) : option outcome :=
  match ev with
  | LocalReadable =>
      if w_local_read c then Some (local_read_cb servers e c) else None
  | LocalWritable =>
      if w_local_write c then Some (local_write_cb e c) else None
  | RemoteReadable =>
      if w_remote_read c then Some (remote_read_cb e c) else None
  | RemoteWritable =>
      if w_remote_write c then
        match w_remote_write_cb c with
        | ConnectCb => Some (connect_cb e c)
        | RemoteWriteCb => Some (remote_write_cb e c)
        | NoHandler => None
        end
      else None
  | TimerExpired => if timer then Some (closewait_cb c) else None
  end.

Inductive run_result :=
| Running (c : conn_t) (timer : bool) (fx : list action)
| Finished (fx : list action)   (* the block was released *)
| Failed.                       (* an assert failed, or no such event *)

(** A sequence of events on one connection, with all actions in order. *)
Fixpoint run (servers : list server_t) (evs : list (event * oracle))
  (c : conn_t) (timer : bool) (acc : list action) : run_result :=
  match evs with
  | [] => Running c timer acc
  | (ev, e) :: rest =>
      match dispatch servers ev e timer c with
      | Some (Live c' fx) =>
          run servers rest c' (timer || starts_timer fx) (acc ++ fx)
      | Some (Gone fx) =>
          match rest with [] => Finished (acc ++ fx) | _ => Failed end
      | Some Abort | None => Failed
      end
  end.

(** The blocks the loop can hold: accepted, then moved by callbacks. *)
Inductive reachable (servers : list server_t) : conn_t -> bool -> Prop :=
| reach_accept fd blank c fx :
    accept_cb fd blank = Live c fx -> reachable servers c false
| reach_step c timer ev e c' fx :
    reachable servers c timer ->
    dispatch servers ev e timer c = Some (Live c' fx) ->
    reachable servers c' (timer || starts_timer fx).

(** Both buffers have the size of their arrays. *)
Definition wf (c : conn_t) : Prop :=
  length (rx_buf c) = Z.to_nat BUF_SIZE /\
  length (tx_buf c) = Z.to_nat BUF_SIZE.

(** Half-duplex interlock of the two pipes. *)
Definition interlock (c : conn_t) : Prop :=
  w_local_read c = negb (w_remote_write c) /\
  w_remote_read c = negb (w_local_write c).

(** The bounds of invariant 1 of the data model, as a decidable test. *)
Definition bounds (c : conn_t) : bool :=
  (0 <=? rx_offset c) && (0 <=? tx_offset c)
  && (rx_bytes c + rx_offset c <=? BUF_SIZE)
  && (tx_bytes c + tx_offset c <=? BUF_SIZE).

(** The bounds of one pipe while its writer is armed. *)
Definition pending_ok (armed : bool) (offset bytes : Z) : Prop :=
  armed = true -> 0 <= offset /\ 0 < bytes /\ bytes + offset <= BUF_SIZE.

Definition drain_bounds (c : conn_t) : Prop :=
  pending_ok (w_remote_write c) (tx_offset c) (tx_bytes c) /\
  pending_ok (w_local_write c) (rx_offset c) (rx_bytes c).

(** Which watchers are active. *)
Definition watchers (c : conn_t) : bool * bool * bool * bool :=
  (w_local_read c, w_local_write c, w_remote_read c, w_remote_write c).

(** What holds of every block between two callbacks: during the handshake
    one watcher is active, the one the state waits for; in the relay phase
    the pipes are interlocked and a pending buffer is within bounds. *)
Definition inv (c : conn_t) : Prop :=
  match state c with
  | CLOSED | NEGO_SENT => watchers c = (true, false, false, false)
  | NEGO_RCVD | NEGO_ERR | CMD_ERR | REQ_ERR =>
      watchers c = (false, true, false, false)
  | REP_RCVD =>
      watchers c = (false, true, false, false)
      /\ w_remote_write_cb c = RemoteWriteCb
  | CMD_RCVD =>
      watchers c = (false, false, false, true)
      /\ w_remote_write_cb c = ConnectCb
  | CONNECTED =>
      watchers c = (false, false, false, true)
      /\ w_remote_write_cb c = RemoteWriteCb
  | REQ_SENT =>
      watchers c = (false, false, true, false)
      /\ w_remote_write_cb c = RemoteWriteCb
  | ESTAB =>
      interlock c /\ drain_bounds c /\ w_remote_write_cb c = RemoteWriteCb
  | CLOSE_WAIT => watchers c = (false, false, false, false)
  end.

(** The region a drain handler of the relay hands to [send]. *)
Definition tx_pending (c : conn_t) : list byte :=
  sub (tx_buf c) (Z.to_nat (tx_offset c)) (Z.to_nat (tx_bytes c)).

Definition rx_pending (c : conn_t) : list byte :=
  sub (rx_buf c) (Z.to_nat (rx_offset c)) (Z.to_nat (rx_bytes c)).

(** The number of active watchers. *)
Definition active (c : conn_t) : nat :=
  (if w_local_read c then 1 else 0) + (if w_local_write c then 1 else 0)
  + (if w_remote_read c then 1 else 0) + (if w_remote_write c then 1 else 0).

End WithCollaborators.
End Client.

(** * The server, osocks.c *)

Module Server.

Inductive state_t :=
| CLOSED | REQ_RCVD | REQ_ERR | CONNECTED | ESTAB | CLOSE_WAIT.

Definition is_estab (s : state_t) : bool :=
  match s with ESTAB => true | _ => false end.

Inductive remote_write_handler := NoHandler | ConnectCb | RemoteWriteCb.

(** [gai_t]: the query strings and the candidates not tried yet, each
    reduced to its address family. *)
Record gai_t := {
  gai_host : list byte;
  gai_port : list byte;
  res : list Z
}.

(** The sizes of [char host[264]] and [char port[8]] in [gai_t]. *)
Definition GAI_HOST_SIZE : nat := 264.
Definition GAI_PORT_SIZE : nat := 8.

(** Whether [strcpy (dst, s)] stays inside an array [dst] of [size] bytes:
    the bytes of [s] and the terminator. *)
Definition strcpy_fits (size : nat) (s : list byte) : bool :=
  (length s <? size)%nat.

Section WithCollaborators.
Context `{Collaborators}.

Record conn_t := {
  w_local_read : bool;
  w_local_write : bool;
  w_remote_read : bool;
  w_remote_write : bool;
  w_remote_write_cb : remote_write_handler;
  rx_bytes : Z;
  tx_bytes : Z;
  rx_offset : Z;
  tx_offset : Z;
  gai : gai_t;
  server_index : Z;
  sock_local : Z;
  sock_remote : Z;
  state : state_t;
  enc_evp : enc_evp_t;
  rx_buf : list byte;
  tx_buf : list byte
}.

Definition set_w_local_read (v : bool) (c : conn_t) : conn_t :=
  {| w_local_read := v; w_local_write := w_local_write c;
     w_remote_read := w_remote_read c; w_remote_write := w_remote_write c;
     w_remote_write_cb := w_remote_write_cb c; rx_bytes := rx_bytes c;
     tx_bytes := tx_bytes c; rx_offset := rx_offset c;
     tx_offset := tx_offset c; gai := gai c; server_index := server_index c;
     sock_local := sock_local c; sock_remote := sock_remote c;
     state := state c; enc_evp := enc_evp c; rx_buf := rx_buf c;
     tx_buf := tx_buf c |}.

Definition set_w_local_write (v : bool) (c : conn_t) : conn_t :=
  {| w_local_read := w_local_read c; w_local_write := v;
     w_remote_read := w_remote_read c; w_remote_write := w_remote_write c;
     w_remote_write_cb := w_remote_write_cb c; rx_bytes := rx_bytes c;
     tx_bytes := tx_bytes c; rx_offset := rx_offset c;
     tx_offset := tx_offset c; gai := gai c; server_index := server_index c;
     sock_local := sock_local c; sock_remote := sock_remote c;
     state := state c; enc_evp := enc_evp c; rx_buf := rx_buf c;
     tx_buf := tx_buf c |}.

Definition set_w_remote_read (v : bool) (c : conn_t) : conn_t :=
  {| w_local_read := w_local_read c; w_local_write := w_local_write c;
     w_remote_read := v; w_remote_write := w_remote_write c;
     w_remote_write_cb := w_remote_write_cb c; rx_bytes := rx_bytes c;
     tx_bytes := tx_bytes c; rx_offset := rx_offset c;
     tx_offset := tx_offset c; gai := gai c; server_index := server_index c;
     sock_local := sock_local c; sock_remote := sock_remote c;
     state := state c; enc_evp := enc_evp c; rx_buf := rx_buf c;
     tx_buf := tx_buf c |}.

Definition set_w_remote_write (v : bool) (c : conn_t) : conn_t :=
  {| w_local_read := w_local_read c; w_local_write := w_local_write c;
     w_remote_read := w_remote_read c; w_remote_write := v;
     w_remote_write_cb := w_remote_write_cb c; rx_bytes := rx_bytes c;
     tx_bytes := tx_bytes c; rx_offset := rx_offset c;
     tx_offset := tx_offset c; gai := gai c; server_index := server_index c;
     sock_local := sock_local c; sock_remote := sock_remote c;
     state := state c; enc_evp := enc_evp c; rx_buf := rx_buf c;
     tx_buf := tx_buf c |}.

Definition set_w_remote_write_cb (v : remote_write_handler) (c : conn_t) : conn_t :=
  {| w_local_read := w_local_read c; w_local_write := w_local_write c;
     w_remote_read := w_remote_read c; w_remote_write := w_remote_write c;
     w_remote_write_cb := v; rx_bytes := rx_bytes c; tx_bytes := tx_bytes c;
     rx_offset := rx_offset c; tx_offset := tx_offset c; gai := gai c;
     server_index := server_index c; sock_local := sock_local c;
     sock_remote := sock_remote c; state := state c; enc_evp := enc_evp c;
     rx_buf := rx_buf c; tx_buf := tx_buf c |}.

Definition set_rx_bytes (v : Z) (c : conn_t) : conn_t :=
  {| w_local_read := w_local_read c; w_local_write := w_local_write c;
     w_remote_read := w_remote_read c; w_remote_write := w_remote_write c;
     w_remote_write_cb := w_remote_write_cb c; rx_bytes := v;
     tx_bytes := tx_bytes c; rx_offset := rx_offset c;
     tx_offset := tx_offset c; gai := gai c; server_index := server_index c;
     sock_local := sock_local c; sock_remote := sock_remote c;
     state := state c; enc_evp := enc_evp c; rx_buf := rx_buf c;
     tx_buf := tx_buf c |}.

Definition set_tx_bytes (v : Z) (c : conn_t) : conn_t :=
  {| w_local_read := w_local_read c; w_local_write := w_local_write c;
     w_remote_read := w_remote_read c; w_remote_write := w_remote_write c;
     w_remote_write_cb := w_remote_write_cb c; rx_bytes := rx_bytes c;
     tx_bytes := v; rx_offset := rx_offset c; tx_offset := tx_offset c;
     gai := gai c; server_index := server_index c;
     sock_local := sock_local c; sock_remote := sock_remote c;
     state := state c; enc_evp := enc_evp c; rx_buf := rx_buf c;
     tx_buf := tx_buf c |}.

Definition set_rx_offset (v : Z) (c : conn_t) : conn_t :=
  {| w_local_read := w_local_read c; w_local_write := w_local_write c;
     w_remote_read := w_remote_read c; w_remote_write := w_remote_write c;
     w_remote_write_cb := w_remote_write_cb c; rx_bytes := rx_bytes c;
     tx_bytes := tx_bytes c; rx_offset := v; tx_offset := tx_offset c;
     gai := gai c; server_index := server_index c;
     sock_local := sock_local c; sock_remote := sock_remote c;
     state := state c; enc_evp := enc_evp c; rx_buf := rx_buf c;
     tx_buf := tx_buf c |}.

Definition set_tx_offset (v : Z) (c : conn_t) : conn_t :=
  {| w_local_read := w_local_read c; w_local_write := w_local_write c;
     w_remote_read := w_remote_read c; w_remote_write := w_remote_write c;
     w_remote_write_cb := w_remote_write_cb c; rx_bytes := rx_bytes c;
     tx_bytes := tx_bytes c; rx_offset := rx_offset c; tx_offset := v;
     gai := gai c; server_index := server_index c;
     sock_local := sock_local c; sock_remote := sock_remote c;
     state := state c; enc_evp := enc_evp c; rx_buf := rx_buf c;
     tx_buf := tx_buf c |}.

Definition set_gai (v : gai_t) (c : conn_t) : conn_t :=
  {| w_local_read := w_local_read c; w_local_write := w_local_write c;
     w_remote_read := w_remote_read c; w_remote_write := w_remote_write c;
     w_remote_write_cb := w_remote_write_cb c; rx_bytes := rx_bytes c;
     tx_bytes := tx_bytes c; rx_offset := rx_offset c;
     tx_offset := tx_offset c; gai := v; server_index := server_index c;
     sock_local := sock_local c; sock_remote := sock_remote c;
     state := state c; enc_evp := enc_evp c; rx_buf := rx_buf c;
     tx_buf := tx_buf c |}.

Definition set_sock_remote (v : Z) (c : conn_t) : conn_t :=
  {| w_local_read := w_local_read c; w_local_write := w_local_write c;
     w_remote_read := w_remote_read c; w_remote_write := w_remote_write c;
     w_remote_write_cb := w_remote_write_cb c; rx_bytes := rx_bytes c;
     tx_bytes := tx_bytes c; rx_offset := rx_offset c;
     tx_offset := tx_offset c; gai := gai c; server_index := server_index c;
     sock_local := sock_local c; sock_remote := v; state := state c;
     enc_evp := enc_evp c; rx_buf := rx_buf c; tx_buf := tx_buf c |}.

Definition set_state (v : state_t) (c : conn_t) : conn_t :=
  {| w_local_read := w_local_read c; w_local_write := w_local_write c;
     w_remote_read := w_remote_read c; w_remote_write := w_remote_write c;
     w_remote_write_cb := w_remote_write_cb c; rx_bytes := rx_bytes c;
     tx_bytes := tx_bytes c; rx_offset := rx_offset c;
     tx_offset := tx_offset c; gai := gai c; server_index := server_index c;
     sock_local := sock_local c; sock_remote := sock_remote c; state := v;
     enc_evp := enc_evp c; rx_buf := rx_buf c; tx_buf := tx_buf c |}.

Definition set_enc_evp (v : enc_evp_t) (c : conn_t) : conn_t :=
  {| w_local_read := w_local_read c; w_local_write := w_local_write c;
     w_remote_read := w_remote_read c; w_remote_write := w_remote_write c;
     w_remote_write_cb := w_remote_write_cb c; rx_bytes := rx_bytes c;
     tx_bytes := tx_bytes c; rx_offset := rx_offset c;
     tx_offset := tx_offset c; gai := gai c; server_index := server_index c;
     sock_local := sock_local c; sock_remote := sock_remote c;
     state := state c; enc_evp := v; rx_buf := rx_buf c;
     tx_buf := tx_buf c |}.

Definition set_rx_buf (v : list byte) (c : conn_t) : conn_t :=
  {| w_local_read := w_local_read c; w_local_write := w_local_write c;
     w_remote_read := w_remote_read c; w_remote_write := w_remote_write c;
     w_remote_write_cb := w_remote_write_cb c; rx_bytes := rx_bytes c;
     tx_bytes := tx_bytes c; rx_offset := rx_offset c;
     tx_offset := tx_offset c; gai := gai c; server_index := server_index c;
     sock_local := sock_local c; sock_remote := sock_remote c;
     state := state c; enc_evp := enc_evp c; rx_buf := v;
     tx_buf := tx_buf c |}.

Definition set_tx_buf (v : list byte) (c : conn_t) : conn_t :=
  {| w_local_read := w_local_read c; w_local_write := w_local_write c;
     w_remote_read := w_remote_read c; w_remote_write := w_remote_write c;
     w_remote_write_cb := w_remote_write_cb c; rx_bytes := rx_bytes c;
     tx_bytes := tx_bytes c; rx_offset := rx_offset c;
     tx_offset := tx_offset c; gai := gai c; server_index := server_index c;
     sock_local := sock_local c; sock_remote := sock_remote c;
     state := state c; enc_evp := enc_evp c; rx_buf := rx_buf c;
     tx_buf := v |}.

(** The block of [accept_cb]: descriptor and listener index stored, no watcher
    registered. *)
Definition set_accepted (fd idx : Z) (c : conn_t) : conn_t :=
  {| w_local_read := false; w_local_write := false; w_remote_read := false;
     w_remote_write := false; w_remote_write_cb := NoHandler;
     rx_bytes := rx_bytes c; tx_bytes := tx_bytes c;
     rx_offset := rx_offset c; tx_offset := tx_offset c; gai := gai c;
     server_index := idx; sock_local := fd; sock_remote := sock_remote c;
     state := state c; enc_evp := enc_evp c; rx_buf := rx_buf c;
     tx_buf := tx_buf c |}.

Inductive outcome :=
| Live (c : conn_t) (fx : list action)   (* the callback returned *)
| Gone (fx : list action)                (* the block was released *)
| Abort                                  (* an assert failed *)
| Overrun.   (* a store past the end of an array: undefined from there on *)

Definition cleanup (c : conn_t) (fx : list action) : outcome :=
  Gone (fx ++ [Close (sock_local c); Close (sock_remote c); FreeConn]).

Definition drop (c : conn_t) (fx : list action) : outcome :=
  Gone (fx ++ [Close (sock_local c); FreeConn]).

(** The block a callback leaves, [d] when it left none. *)
Definition block_of (d : conn_t) (o : outcome) : conn_t :=
  match o with Live c _ => c | _ => d end.

(** The exits that also release the resolution block. *)
Definition drop_gai (c : conn_t) (fx : list action) : outcome :=
  Gone (fx ++ [Close (sock_local c); FreeGai; FreeConn]).

(** The key of the connection: the last 236 bytes of the request and the
    pre-shared key of the listener copied to [tx_buf], then the four [md5]
    calls. *)
Definition request_key (tx rx : list byte) (srv : server_t) (key0 : list byte)
  : list byte * list byte :=
  let tx := memcpy tx 0 (sub rx 276 236) in
  let tx := memcpy tx 236 (psk srv) in
  (tx, md5_chain (sub tx 0 (236 + key_len srv)) key0).

(** [local_read_cb].  In [CLOSED] the host and port strings of the request
    are copied with [strcpy] into the [host] and [port] arrays of the
    [gai_t] block just allocated; a string that does not fit its array
    with its terminator is written past the end of it. *)
Definition local_read_cb (servers : list server_t) (e : oracle) (c : conn_t)
  : outcome :=
  let c := if is_estab (state c) then c else set_w_local_read false c in
  match state c with
  | CLOSED =>
      let (n, rx) := recv (recv_res e) (rx_buf c) in
      let c := set_rx_buf rx c in
      if negb (n =? 512) then drop c []
      else
        let srv := nth (Z.to_nat (server_index c)) servers no_server in
        let (tx, key) := request_key (tx_buf c) (rx_buf c) srv (key_stack e) in
        let c := set_enc_evp (enc_init key) (set_tx_buf tx c) in
        let (rx, enc) := decrypt_in_place (enc_evp c) (rx_buf c) 276 in
        let c := set_enc_evp enc (set_rx_buf rx c) in
        let magic := load_be32 (rx_buf c) 0 in
        let c := set_rx_buf (poke (poke (rx_buf c) 260 x00) 275 x00) c in
        let host := cstr (skipn 4 (rx_buf c)) in
        let port := cstr (skipn 261 (rx_buf c)) in
        if negb (magic =? MAGIC) then drop c []
        else if negb (mem_new_ok e) then drop c []
        else if negb (strcpy_fits GAI_HOST_SIZE host
                      && strcpy_fits GAI_PORT_SIZE port) then Overrun
        else
          let c :=
            set_gai {| gai_host := host; gai_port := port; res := [] |} c in
          if negb (gai_ok e) then drop c []
          else Live c [Resolve host port]
  | ESTAB =>
      let (n, tx) := recv (recv_res e) (tx_buf c) in
      let c := set_tx_buf tx (set_tx_bytes n c) in
      if tx_bytes c <=? 0 then cleanup c []
      else
        let (tx, enc) :=
          decrypt_in_place (enc_evp c) (tx_buf c) (Z.to_nat (tx_bytes c)) in
        let c := set_enc_evp enc (set_tx_buf tx c) in
        let n := send (send_res e) (tx_bytes c) in
        let fx :=
          sent (sock_remote c) (sub (tx_buf c) 0 (Z.to_nat (tx_bytes c))) n in
        if n <? 0 then
          if errno_again (send_res e) then
            let c := set_tx_offset 0 c in
            Live (set_w_local_read false (set_w_remote_write true c)) fx
          else cleanup c fx
        else if n <? tx_bytes c then
          let c := set_tx_bytes (tx_bytes c - n) (set_tx_offset n c) in
          Live (set_w_local_read false (set_w_remote_write true c)) fx
        else Live c fx
  | _ => Abort
  end.

Definition local_write_cb (e : oracle) (c : conn_t) : outcome :=
  let c := if is_estab (state c) then c else set_w_local_write false c in
  match state c with
  | REQ_ERR | CONNECTED =>
      let n := send (send_res e) (tx_bytes c) in
      let fx :=
        sent (sock_local c) (sub (tx_buf c) 0 (Z.to_nat (tx_bytes c))) n in
      if negb (n =? tx_bytes c) then drop_gai c fx
      else
        match state c with
        | CONNECTED =>
            let c := set_state ESTAB c in
            let c := set_w_remote_read false c in
            let c := set_w_remote_write false c in
            let c := set_w_remote_write_cb RemoteWriteCb c in
            Live (set_w_remote_read true (set_w_local_read true c)) fx
        | _ =>
            let c := set_state CLOSE_WAIT c in
            if mem_new_ok e then Live c (fx ++ [TimerStart LINGER_MS])
            else drop_gai c fx
        end
  | ESTAB =>
      if negb (0 <? rx_bytes c) then Abort
      else
        let n := send (send_res e) (rx_bytes c) in
        let fx :=
          sent (sock_local c)
            (sub (rx_buf c) (Z.to_nat (rx_offset c)) (Z.to_nat (rx_bytes c)))
            n in
        if n <? 0 then
          if errno_again (send_res e) then Live c fx else cleanup c fx
        else if n <? rx_bytes c then
          Live (set_rx_bytes (rx_bytes c - n)
                  (set_rx_offset (rx_offset c + n) c)) fx
        else Live (set_w_local_write false (set_w_remote_read true c)) fx
  | _ => Abort
  end.

Definition remote_read_cb (e : oracle) (c : conn_t) : outcome :=
  match state c with
  | ESTAB =>
      let (n, rx) := recv (recv_res e) (rx_buf c) in
      let c := set_rx_buf rx (set_rx_bytes n c) in
      if rx_bytes c <=? 0 then cleanup c []
      else
        let (rx, enc) :=
          encrypt_in_place (enc_evp c) (rx_buf c) (Z.to_nat (rx_bytes c)) in
        let c := set_enc_evp enc (set_rx_buf rx c) in
        let n := send (send_res e) (rx_bytes c) in
        let fx :=
          sent (sock_local c) (sub (rx_buf c) 0 (Z.to_nat (rx_bytes c))) n in
        if n <? 0 then
          if errno_again (send_res e) then
            let c := set_rx_offset 0 c in
            Live (set_w_remote_read false (set_w_local_write true c)) fx
          else cleanup c fx
        else if n <? rx_bytes c then
          let c := set_rx_bytes (rx_bytes c - n) (set_rx_offset n c) in
          Live (set_w_remote_read false (set_w_local_write true c)) fx
        else Live c fx
  | _ => Abort
  end.

Definition remote_write_cb (e : oracle) (c : conn_t) : outcome :=
  match state c with
  | ESTAB =>
      if negb (0 <? tx_bytes c) then Abort
      else
        let n := send (send_res e) (tx_bytes c) in
        let fx :=
          sent (sock_remote c)
            (sub (tx_buf c) (Z.to_nat (tx_offset c)) (Z.to_nat (tx_bytes c)))
            n in
        if n <? 0 then
          if errno_again (send_res e) then Live c fx else cleanup c fx
        else if n <? tx_bytes c then
          Live (set_tx_bytes (tx_bytes c - n)
                  (set_tx_offset (tx_offset c + n) c)) fx
        else Live (set_w_remote_write false (set_w_local_read true c)) fx
  | _ => Abort
  end.

(** The four-byte reply: [tx_bytes = 4] and [io_encrypt] in place. *)
Definition seal_reply (c : conn_t) : conn_t :=
  let c := set_tx_bytes 4 c in
  let (tx, enc) := encrypt_in_place (enc_evp c) (tx_buf c) 4 in
  set_enc_evp enc (set_tx_buf tx c).

(** [resolv_cb], the SIGUSR1 handler; [gai_ok e] is [gai_error () == 0] and
    [gai_res e] the list in [ar_result]. *)
Definition resolv_cb (e : oracle) (c : conn_t) : outcome :=
  if negb (gai_ok e) then
    let c := set_tx_buf (bzero (tx_buf c) 4) c in
    let c := seal_reply c in
    let c := set_state REQ_ERR c in
    Live (set_w_local_write true c) [FreeGai]
  else
    let g := gai c in
    let c :=
      set_gai {| gai_host := gai_host g; gai_port := gai_port g;
                 res := gai_res e |} c in
    let c := set_sock_remote (socket_res e) c in
    if sock_remote c <? 0 then drop_gai c []
    else
      let c := set_w_remote_write_cb ConnectCb c in
      let c := set_w_remote_write true c in
      let c := set_state REQ_RCVD c in
      Live c [Connect (sock_remote c)].

Definition connect_cb (e : oracle) (c : conn_t) : outcome :=
  match state c with
  | REQ_RCVD =>
      let c := set_w_remote_write false c in
      if so_error e =? 0 then
        let c := set_tx_buf (memcpy (tx_buf c) 0 (be32 MAGIC)) c in
        let c := set_state CONNECTED c in
        let c := seal_reply c in
        Live (set_w_local_write true (set_w_remote_write false c)) [FreeGai]
      else
        let fx := [Close (sock_remote c)] in
        let g := gai c in
        let c :=
          set_gai {| gai_host := gai_host g; gai_port := gai_port g;
                     res := tl (res g) |} c in
        match res (gai c) with
        | _ :: _ =>
            let c := set_sock_remote (socket_res e) c in
            if sock_remote c <? 0 then drop_gai c fx
            else
              let c := set_w_remote_write_cb ConnectCb c in
              let c := set_w_remote_write true c in
              Live c (fx ++ [Connect (sock_remote c)])
        | [] =>
            let fx := fx ++ [Close (sock_remote c)] in
            let c := set_tx_buf (memcpy (tx_buf c) 0 (be32 0)) c in
            let c := set_state REQ_ERR c in
            let c := seal_reply c in
            Live (set_w_local_write true (set_w_remote_write false c))
              (fx ++ [FreeGai])
        end
  | _ => Abort
  end.

Definition closewait_cb (c : conn_t) : outcome :=
  match state c with
  | CLOSE_WAIT => Gone [TimerStop; Close (sock_local c); FreeTimer; FreeConn]
  | _ => Abort
  end.

(** [accept_cb] on the listener of index [idx]. *)
Definition accept_cb (fd idx : Z) (blank : conn_t) : outcome :=
  let c := set_accepted fd idx blank in
  if sock_local c <? 0 then Gone [FreeConn]
  else Live (set_w_local_read true (set_state CLOSED c)) [].

(** ** The loop's view of one connection

    As for the client, with one more event: the signal of the resolver,
    which is delivered once after [getaddrinfo_a] was started. *)

Inductive event :=
| LocalReadable | LocalWritable | RemoteReadable | RemoteWritable
| Resolved | TimerExpired.

Definition starts_timer (fx : list action) : bool :=
  existsb (fun a => match a with TimerStart _ => true | _ => false end) fx.

Definition starts_resolver (fx : list action) : bool :=
  existsb (fun a => match a with Resolve _ _ => true | _ => false end) fx.

Definition dispatch (servers : list server_t) (ev : event) (e : oracle)
  (timer resolving : bool) (c : conn_t) : option outcome :=
  match ev with
  | LocalReadable =>
      if w_local_read c then Some (local_read_cb servers e c) else None
  | LocalWritable =>
      if w_local_write c then Some (local_write_cb e c) else None
  | RemoteReadable =>
      if w_remote_read c then Some (remote_read_cb e c) else None
  | RemoteWritable =>
      if w_remote_write c then
        match w_remote_write_cb c with
        | ConnectCb => Some (connect_cb e c)
        | RemoteWriteCb => Some (remote_write_cb e c)
        | NoHandler => None
        end
      else None
  | Resolved => if resolving then Some (resolv_cb e c) else None
  | TimerExpired => if timer then Some (closewait_cb c) else None
  end.

Inductive run_result :=
| Running (c : conn_t) (timer resolving : bool) (fx : list action)
| Finished (fx : list action)   (* the block was released *)
| Failed.   (* an assert failed, an array was overrun, or no such event *)

Fixpoint run (servers : list server_t) (evs : list (event * oracle))
  (c : conn_t) (timer resolving : bool) (acc : list action) : run_result :=
  match evs with
  | [] => Running c timer resolving acc
  | (ev, e) :: rest =>
      match dispatch servers ev e timer resolving c with
      | Some (Live c' fx) =>
          let resolving' :=
            match ev with
            | Resolved => false
            | _ => resolving || starts_resolver fx
            end in
          run servers rest c' (timer || starts_timer fx) resolving'
            (acc ++ fx)
      | Some (Gone fx) =>
          match rest with [] => Finished (acc ++ fx) | _ => Failed end
      | Some Abort | Some Overrun | None => Failed
      end
  end.

(** Whether the block was released, and the actions in order. *)
Definition trace (r : run_result) : option (bool * list action) :=
  match r with
  | Running _ _ _ fx => Some (false, fx)
  | Finished fx => Some (true, fx)
  | Failed => None
  end.

Definition wf (c : conn_t) : Prop :=
  length (rx_buf c) = Z.to_nat BUF_SIZE /\
  length (tx_buf c) = Z.to_nat BUF_SIZE.

(** The blocks the loop can hold, with the pending timer and the pending
    resolver signal. *)
Inductive reachable (servers : list server_t)
  : conn_t -> bool -> bool -> Prop :=
| reach_accept fd idx blank c fx :
    accept_cb fd idx blank = Live c fx -> reachable servers c false false
| reach_step c timer resolving ev e c' fx :
    reachable servers c timer resolving ->
    dispatch servers ev e timer resolving c = Some (Live c' fx) ->
    reachable servers c' (timer || starts_timer fx)
      match ev with
      | Resolved => false
      | _ => resolving || starts_resolver fx
      end.

Definition interlock (c : conn_t) : Prop :=
  w_local_read c = negb (w_remote_write c) /\
  w_remote_read c = negb (w_local_write c).

Definition pending_ok (armed : bool) (offset bytes : Z) : Prop :=
  armed = true -> 0 <= offset /\ 0 < bytes /\ bytes + offset <= BUF_SIZE.

Definition drain_bounds (c : conn_t) : Prop :=
  pending_ok (w_remote_write c) (tx_offset c) (tx_bytes c) /\
  pending_ok (w_local_write c) (rx_offset c) (rx_bytes c).

Definition watchers (c : conn_t) : bool * bool * bool * bool :=
  (w_local_read c, w_local_write c, w_remote_read c, w_remote_write c).

(** What holds of every block between two callbacks. *)
Definition inv (c : conn_t) (timer resolving : bool) : Prop :=
  match state c with
  | CLOSED =>
      watchers c = (negb resolving, false, false, false) /\ timer = false
  | REQ_RCVD =>
      watchers c = (false, false, false, true)
      /\ w_remote_write_cb c = ConnectCb
      /\ timer = false /\ resolving = false
  | REQ_ERR | CONNECTED =>
      watchers c = (false, true, false, false)
      /\ timer = false /\ resolving = false
  | ESTAB =>
      interlock c /\ drain_bounds c /\ w_remote_write_cb c = RemoteWriteCb
      /\ timer = false /\ resolving = false
  | CLOSE_WAIT =>
      watchers c = (false, false, false, false)
      /\ timer = true /\ resolving = false
  end.

Definition tx_pending (c : conn_t) : list byte :=
  sub (tx_buf c) (Z.to_nat (tx_offset c)) (Z.to_nat (tx_bytes c)).

Definition rx_pending (c : conn_t) : list byte :=
  sub (rx_buf c) (Z.to_nat (rx_offset c)) (Z.to_nat (rx_bytes c)).

(** The actions of [connect_cb] over the candidates of the resolver when
    every connection attempt fails: [fd] is the socket of the attempt that
    just failed, [es] the answers of the system in the callbacks that go on
    to a next candidate; the callback after them finds no candidate left. *)
Fixpoint retry_trace (fd : Z) (es : list oracle) : list action :=
  match es with
  | [] => [Close fd; Close fd; FreeGai]
  | e :: es' =>
      Close fd :: Connect (socket_res e) :: retry_trace (socket_res e) es'
  end.

End WithCollaborators.
End Server.

(** * Server selection as a counting problem

    [preimages n i] is the number of values [v] of an [unsigned int]
    (32 bits) that [index %= n] sends to [i]. *)

Definition UINT_RANGE : N := 4294967296.

Definition preimages_below (bound : N) (n i : Z) : Z :=
  N.recursion 0
    (fun v acc =>
       if Client.select_server (Z.of_N v) n =? i then acc + 1 else acc)
    bound.

Definition preimages (n i : Z) : Z := preimages_below UINT_RANGE n i.

(** * Stand-ins for the collaborators

    Small executable implementations of the interfaces, so that the
    handlers can be run on concrete connections: a 16-byte checksum for
    [md5], a repeating-key xor stream for the cipher (its state is the key
    and the position in the stream), two hexadecimal digits per byte for
    [inet_ntop (AF_INET6)]. *)

Module Standin.

Definition checksum (m : list byte) : Z :=
  fold_left (fun a b => (31 * a + u8 b + 1) mod 65521) m 7.

Definition digest (m : list byte) : list byte :=
  map (fun j => byte_of_Z (checksum m * (Z.of_nat j + 3) + Z.of_nat j))
    (seq 0 16).

Definition cipher_state : Type := list byte * N.

Definition init (key : list byte) : cipher_state := (key, 0%N).

Definition stream_byte (key : list byte) (pos : N) : byte :=
  peek key (N.to_nat (pos mod N.of_nat (length key))).

Definition xor_byte (a b : byte) : byte := byte_of_Z (Z.lxor (u8 a) (u8 b)).

Fixpoint crypt_from (key : list byte) (pos : N) (m : list byte) : list byte :=
  match m with
  | [] => []
  | b :: r => xor_byte b (stream_byte key pos) :: crypt_from key (N.succ pos) r
  end.

Definition crypt (s : cipher_state) (m : list byte)
  : list byte * cipher_state :=
  (crypt_from (fst s) (snd s) m, (fst s, (snd s + N.of_nat (length m))%N)).

Definition hex_digit (d : Z) : byte :=
  if d <? 10 then byte_of_Z (48 + d) else byte_of_Z (87 + d).

Definition ntop6 (a : list byte) : list byte :=
  firstn 45
    (flat_map (fun b => [hex_digit (u8 b / 16); hex_digit (u8 b mod 16)]) a).

Definition collaborators : Collaborators.
Proof.
  refine {| md5 := digest; enc_evp_t := cipher_state; enc_init := init;
            io_encrypt := crypt; io_decrypt := crypt; inet_ntop6 := ntop6 |}.
  - abstract (intro m; unfold digest;
              rewrite length_map, length_seq; reflexivity).
  - abstract (intros s m; unfold crypt; cbn [fst]; generalize (snd s);
              induction m as [| b r IH]; intro pos;
              cbn [crypt_from length];
              [reflexivity | rewrite IH; reflexivity]).
  - abstract (intros s m; unfold crypt; cbn [fst]; generalize (snd s);
              induction m as [| b r IH]; intro pos;
              cbn [crypt_from length];
              [reflexivity | rewrite IH; reflexivity]).
  - abstract (intro a; unfold ntop6;
              apply Nat.le_lt_trans with (m := 45%nat);
              [apply firstn_le_length | lia]).
Defined.

End Standin.

(** ** Concrete data used to run the handlers *)

Module Sample.

Definition zeros : list byte := repeat x00 (Z.to_nat BUF_SIZE).

Definition iv : list byte := repeat "A"%byte 236.

Definition secret : list byte := ["k"%byte; "e"%byte; "y"%byte].

Definition stack : list byte := repeat xcc 64.

(** Two configured servers. *)
Definition conf : list (Z * list byte) := [(2, secret); (10, ["x"%byte])].

Definition servers : list server_t := setup_servers conf.

(** An oracle that delivers [d] to [recv] and has [room] bytes of room for
    [send]; every other call succeeds. *)
Definition io (d : list byte) (room : N) : oracle :=
  {| recv_res := RecvData d; send_res := SendRoom room; rand_index := 7;
     rand_iv := iv; socket_res := 9; mem_new_ok := true; so_error := 0;
     gai_ok := true; gai_res := [2]; key_stack := stack |}.

(** The same with [send] failing. *)
Definition io_fail (d : list byte) (again : bool) : oracle :=
  {| recv_res := RecvData d; send_res := SendFail again; rand_index := 7;
     rand_iv := iv; socket_res := 9; mem_new_ok := true; so_error := 0;
     gai_ok := true; gai_res := [2]; key_stack := stack |}.

Definition quiet : oracle := io [] 65536.

(** An oracle for which the connection attempt failed (ECONNREFUSED). *)
Definition refused : oracle :=
  {| recv_res := RecvData []; send_res := SendRoom 65536; rand_index := 7;
     rand_iv := iv; socket_res := 9; mem_new_ok := true; so_error := 111;
     gai_ok := true; gai_res := [2]; key_stack := stack |}.

Section ClientData.
#[local] Existing Instance Standin.collaborators.
Import Client.

Definition blank : conn_t :=
  {| w_local_read := false; w_local_write := false;
     w_remote_read := false; w_remote_write := false;
     w_remote_write_cb := NoHandler;
     rx_bytes := 0; tx_bytes := 0; rx_offset := 0; tx_offset := 0;
     sock_local := -1; sock_remote := -1; state := CLOSED;
     enc_evp := Standin.init []; rx_buf := zeros; tx_buf := zeros |}.

Definition after (evs : list (event * oracle)) (c : conn_t) : conn_t :=
  match run servers evs c false [] with
  | Running c' _ _ => c'
  | _ => c
  end.

(** The run leaves the block alive with no timer pending. *)
Definition settled (evs : list (event * oracle)) (c : conn_t) : bool :=
  match run servers evs c false [] with
  | Running _ timer _ => negb timer
  | _ => false
  end.

(** A connection as [accept_cb] leaves it, on descriptor 5. *)
Definition accepted : conn_t := block_of blank (accept_cb 5 blank).

(** The same once the greeting [05 01 00] has been answered. *)
Definition negotiated : conn_t :=
  after [(LocalReadable, io [x05; x01; x00] 65536); (LocalWritable, quiet)]
    accepted.

(** CONNECT 1.2.3.4:80 *)
Definition connect_ipv4 : list byte :=
  [x05; x01; x00; x01; x01; x02; x03; x04; x00; x50].

(** The same once the request went to the server and the server answered
    with the encrypted magic: the relay phase. *)
Definition server_reply : list byte :=
  fst (Standin.crypt
         (kdf_spec iv (psk (setup_server 10 ["x"%byte])), 276%N)
         (be32 MAGIC)).

Definition established : conn_t :=
  after [(LocalReadable, io connect_ipv4 65536); (RemoteWritable, quiet);
         (RemoteWritable, quiet); (RemoteReadable, io server_reply 65536);
         (LocalWritable, quiet)]
    negotiated.

(** Relay traffic that leaves a stale offset behind: 8192 bytes read of
    which the server takes 5000 at once, the rest on the next writable
    event, then 8192 more bytes that the server takes in one piece. *)
Definition chunk (b : byte) : list byte := repeat b (Z.to_nat BUF_SIZE).

Definition traffic : list (event * oracle) :=
  [(LocalReadable, io (chunk "a"%byte) 5000);
   (RemoteWritable, io [] 65536);
   (LocalReadable, io (chunk "b"%byte) 65536)].

Definition pending : conn_t :=
  after [(LocalReadable, io (chunk "a"%byte) 5000)] established.

Definition stale : conn_t := after traffic established.

(** The same traffic before its last read. *)
Definition drained : conn_t :=
  after [(LocalReadable, io (chunk "a"%byte) 5000);
         (RemoteWritable, io [] 65536)] established.

(** Whether the run leaves the block alive with the timer pending. *)
Definition lingers (evs : list (event * oracle)) (c : conn_t) : bool :=
  match run servers evs c false [] with
  | Running _ timer _ => timer
  | _ => false
  end.

(** The request [connect_ipv4] read, the connection to the server in
    progress. *)
Definition connecting : conn_t :=
  after [(LocalReadable, io connect_ipv4 65536)] negotiated.

(** The request sent, the reply of the server awaited. *)
Definition requested : conn_t :=
  after [(LocalReadable, io connect_ipv4 65536); (RemoteWritable, quiet);
         (RemoteWritable, quiet)]
    negotiated.

(** A greeting of version 4 refused and answered: the connection
    lingers. *)
Definition lingering : conn_t :=
  after [(LocalReadable, io [x04; x01; x00] 0); (LocalWritable, io [] 2)]
    accepted.

(** The greeting [05 01 00] read, its answer not yet written. *)
Definition greeted : conn_t :=
  after [(LocalReadable, io [x05; x01; x00] 65536)] accepted.

(** The 512 bytes the sample client sends for [connect_ipv4]. *)
Definition request_frame : list byte :=
  match
    run servers
      [(LocalReadable, io connect_ipv4 0); (RemoteWritable, quiet);
       (RemoteWritable, io [] 512)] negotiated false []
  with
  | Running _ _ [_; Send _ frame] => frame
  | _ => []
  end.

End ClientData.

Section ServerData.
#[local] Existing Instance Standin.collaborators.
Import Server.

Definition server_blank : conn_t :=
  {| w_local_read := false; w_local_write := false;
     w_remote_read := false; w_remote_write := false;
     w_remote_write_cb := NoHandler;
     rx_bytes := 0; tx_bytes := 0; rx_offset := 0; tx_offset := 0;
     gai := {| gai_host := []; gai_port := []; res := [] |};
     server_index := 0;
     sock_local := -1; sock_remote := -1; state := CLOSED;
     enc_evp := Standin.init []; rx_buf := zeros; tx_buf := zeros |}.

(** A connection accepted on descriptor 6 by the second listener. *)
Definition server_accepted : conn_t :=
  block_of server_blank (accept_cb 6 1 server_blank).

(** The same once the request of the sample client has been read and the
    resolver started. *)
Definition server_resolving : conn_t :=
  block_of server_blank
    (local_read_cb servers (io request_frame 0) server_accepted).

(** A request of 512 bytes for the second listener, with the magic, whose
    port field holds a string of 14 characters. *)
Definition long_port : list byte :=
  ["1"%byte; "2"%byte; "3"%byte; "4"%byte; "5"%byte; "6"%byte; "7"%byte;
   "8"%byte; "9"%byte; "0"%byte; "1"%byte; "2"%byte; "3"%byte; "4"%byte].

Definition long_port_frame : list byte :=
  fst (Standin.crypt
         (Standin.init (kdf_spec iv (psk (setup_server 10 ["x"%byte]))))
         (Client.frame_head_spec
            ["h"%byte; "o"%byte; "s"%byte; "t"%byte] long_port))
    ++ iv.

(** An oracle for which the resolver failed. *)
Definition dns_failure : oracle :=
  {| recv_res := RecvFail; send_res := SendFail false; rand_index := 0;
     rand_iv := []; socket_res := -1; mem_new_ok := true; so_error := 0;
     gai_ok := false; gai_res := []; key_stack := stack |}.

(** An oracle for which the resolver returned two candidates. *)
Definition two_candidates : oracle :=
  {| recv_res := RecvData []; send_res := SendRoom 65536; rand_index := 7;
     rand_iv := iv; socket_res := 9; mem_new_ok := true; so_error := 0;
     gai_ok := true; gai_res := [2; 10]; key_stack := stack |}.

Definition server_after (evs : list (event * oracle)) (c : conn_t) : conn_t :=
  match run servers evs c false false [] with
  | Running c' _ _ _ => c'
  | _ => c
  end.

(** The run leaves the block alive with no timer and no resolver signal
    pending. *)
Definition server_settled (evs : list (event * oracle)) (c : conn_t) : bool :=
  match run servers evs c false false [] with
  | Running _ timer resolving _ => negb timer && negb resolving
  | _ => false
  end.

(** The request of the sample client read and resolved to two candidates,
    the connection to the first in progress. *)
Definition server_connecting : conn_t :=
  server_after
    [(LocalReadable, io request_frame 0); (Resolved, two_candidates)]
    server_accepted.

(** The same once the connection stands and the reply is written: the relay
    phase. *)
Definition server_established : conn_t :=
  server_after [(RemoteWritable, quiet); (LocalWritable, quiet)]
    server_connecting.

(** 8192 bytes read from the client of which the destination takes 5000. *)
Definition server_pending : conn_t :=
  server_after [(LocalReadable, io (chunk "a"%byte) 5000)]
    server_established.

End ServerData.

End Sample.

(** The handlers are unfolded by hand in the proofs; the buffer primitives
    stay folded. *)
Arguments BUF_SIZE : simpl never.
Arguments firstn : simpl never.
Arguments skipn : simpl never.
Arguments memcpy : simpl never.
Arguments bzero : simpl never.
Arguments sub : simpl never.
Arguments peek : simpl never.
Arguments poke : simpl never.
Arguments strcpy : simpl never.
Arguments be32 : simpl never.
Arguments load_be32 : simpl never.
Arguments load_be16 : simpl never.
Arguments utoa : simpl never.
Arguments inet_ntop4 : simpl never.
Arguments recv : simpl never.
Arguments send : simpl never.
Arguments sent : simpl never.
Arguments md5_chain : simpl never.
Arguments encrypt_in_place : simpl never.
Arguments decrypt_in_place : simpl never.
Arguments Client.parse_request : simpl never.
Arguments Client.nego_error : simpl never.
Arguments Client.request_key : simpl never.
Arguments Client.request_plain : simpl never.
Arguments Client.error_reply : simpl never.
Arguments Client.reply_frame : simpl never.
Arguments Client.select_server : simpl never.
Arguments Server.request_key : simpl never.
Arguments Server.seal_reply : simpl never.
Arguments Server.strcpy_fits : simpl never.

(** * Buffer lemmas *)

Section Buffers.

Lemma length_memcpy buf off src :
  (off + length src <= length buf)%nat ->
  length (memcpy buf off src) = length buf.
Proof.
  intro Hfit. unfold memcpy.
  rewrite !length_app, length_firstn, length_skipn. lia.
Qed.

Lemma memcpy_app pre mid post src :
  length mid = length src ->
  memcpy (pre ++ mid ++ post) (length pre) src = pre ++ src ++ post.
Proof.
  intro Hlen. unfold memcpy.
  rewrite firstn_app, firstn_all, Nat.sub_diag, firstn_O, app_nil_r.
  rewrite skipn_app, skipn_all2 by lia.
  replace (length pre + length src - length pre)%nat with (length mid) by lia.
  rewrite skipn_app, skipn_all, Nat.sub_diag, skipn_O. reflexivity.
Qed.

Lemma memcpy_head mid post src :
  length mid = length src -> memcpy (mid ++ post) 0 src = src ++ post.
Proof. intro Hlen. apply (memcpy_app [] mid post src Hlen). Qed.

Lemma sub_app_head pre rest : sub (pre ++ rest) 0 (length pre) = pre.
Proof.
  unfold sub. rewrite skipn_O, firstn_app, firstn_all, Nat.sub_diag, firstn_O.
  apply app_nil_r.
Qed.

Lemma sub_head pre rest n : length pre = n -> sub (pre ++ rest) 0 n = pre.
Proof. intros <-. apply sub_app_head. Qed.

Lemma memcpy_at pre mid post src off :
  length pre = off -> length mid = length src ->
  memcpy (pre ++ mid ++ post) off src = pre ++ src ++ post.
Proof. intros <- Hlen. apply memcpy_app, Hlen. Qed.

Lemma sub_app_skip pre rest n :
  sub (pre ++ rest) (length pre) n = sub rest 0 n.
Proof.
  unfold sub. rewrite skipn_app, skipn_all, Nat.sub_diag, !skipn_O.
  reflexivity.
Qed.

Lemma sub_tail pre rest off n :
  length pre = off -> sub (pre ++ rest) off n = sub rest 0 n.
Proof. intros <-. apply sub_app_skip. Qed.

Lemma sub_length buf off n :
  (off + n <= length buf)%nat -> length (sub buf off n) = n.
Proof.
  intro Hfit. unfold sub. rewrite length_firstn, length_skipn. lia.
Qed.

Lemma sub_split buf off n m :
  sub buf off (n + m) = sub buf off n ++ sub buf (off + n) m.
Proof.
  unfold sub. rewrite <- (firstn_skipn n (skipn off buf)) at 1.
  rewrite firstn_app, length_firstn, length_skipn.
  rewrite skipn_skipn, (Nat.add_comm n off).
  destruct (Nat.le_gt_cases n (length buf - off)) as [Hle | Hgt].
  - rewrite Nat.min_l by lia.
    replace (n + m - n)%nat with m by lia.
    rewrite firstn_firstn. f_equal. f_equal. lia.
  - rewrite (skipn_all2 (n := (off + n)%nat)) by lia.
    rewrite !firstn_nil, !app_nil_r. rewrite firstn_firstn. f_equal. lia.
Qed.

(** A buffer cut at three places. *)
Lemma buffer_cut buf off n :
  (off + n <= length buf)%nat ->
  buf = firstn off buf ++ sub buf off n ++ skipn (off + n) buf
  /\ length (firstn off buf) = off /\ length (sub buf off n) = n.
Proof.
  intro Hfit. split; [| split].
  - unfold sub.
    rewrite <- (firstn_skipn off buf) at 1. f_equal.
    rewrite <- (firstn_skipn n (skipn off buf)) at 1. f_equal.
    rewrite skipn_skipn. f_equal. lia.
  - rewrite length_firstn. lia.
  - apply sub_length, Hfit.
Qed.

Lemma memcpy_cut buf off src :
  (off + length src <= length buf)%nat ->
  memcpy buf off src = firstn off buf ++ src ++ skipn (off + length src) buf.
Proof. reflexivity. Qed.

Lemma sub_memcpy_same buf off src :
  (off <= length buf)%nat -> sub (memcpy buf off src) off (length src) = src.
Proof.
  intro Hoff. unfold memcpy.
  assert (Hpre : length (firstn off buf) = off)
    by (rewrite length_firstn; lia).
  generalize (sub_app_skip (firstn off buf)
                (src ++ skipn (off + length src) buf) (length src)).
  rewrite Hpre. intros ->. apply sub_app_head.
Qed.

Lemma sub_memcpy_after buf off src o n :
  (off + length src <= o)%nat -> (off <= length buf)%nat ->
  sub (memcpy buf off src) o n = sub buf o n.
Proof.
  intros Hafter Hoff. unfold memcpy, sub.
  rewrite app_assoc, skipn_app.
  rewrite skipn_all2 by (rewrite length_app, length_firstn; lia).
  rewrite length_app, length_firstn, Nat.min_l by lia.
  rewrite skipn_skipn. simpl. f_equal. f_equal. lia.
Qed.

Lemma sub_memcpy_before buf off src o n :
  (o + n <= off)%nat -> (off <= length buf)%nat ->
  sub (memcpy buf off src) o n = sub buf o n.
Proof.
  intros Hbefore Hoff. unfold memcpy, sub.
  rewrite skipn_app, firstn_app.
  rewrite length_skipn, length_firstn, Nat.min_l by lia.
  replace (n - (off - o))%nat with 0%nat by lia.
  rewrite firstn_O, app_nil_r.
  rewrite skipn_firstn_comm, firstn_firstn. f_equal. lia.
Qed.

Lemma peek_sub buf off n i :
  (i < n)%nat -> peek (sub buf off n) i = peek buf (off + i).
Proof.
  intro Hi. unfold peek, sub.
  rewrite nth_firstn. destruct (Nat.ltb_spec i n); [| lia].
  apply nth_skipn.
Qed.

Lemma peek_memcpy_in buf off src i :
  (off <= length buf)%nat -> (off <= i < off + length src)%nat ->
  peek (memcpy buf off src) i = nth (i - off) src x00.
Proof.
  intros Hoff Hi.
  rewrite <- (sub_memcpy_same buf off src Hoff) at 2.
  fold (peek (sub (memcpy buf off src) off (length src)) (i - off)).
  rewrite peek_sub by lia. f_equal. lia.
Qed.

Lemma peek_memcpy_out buf off src i :
  (off + length src <= length buf)%nat ->
  (i < off \/ off + length src <= i)%nat ->
  peek (memcpy buf off src) i = peek buf i.
Proof.
  intros Hfit Hi. unfold peek, memcpy.
  destruct Hi as [Hlt | Hge].
  - rewrite app_nth1 by (rewrite length_firstn; lia).
    rewrite nth_firstn. destruct (Nat.ltb_spec i off); [reflexivity | lia].
  - rewrite app_nth2 by (rewrite length_firstn; lia).
    rewrite length_firstn, Nat.min_l by lia.
    rewrite app_nth2 by lia.
    rewrite nth_skipn. f_equal. lia.
Qed.

Lemma peek_poke_same buf i b :
  (i < length buf)%nat -> peek (poke buf i b) i = b.
Proof.
  intro Hi. unfold poke. rewrite peek_memcpy_in; simpl; try lia.
  rewrite Nat.sub_diag. reflexivity.
Qed.

Lemma peek_poke_other buf i j b :
  (i < length buf)%nat -> i <> j -> peek (poke buf i b) j = peek buf j.
Proof.
  intros Hi Hij. unfold poke. apply peek_memcpy_out; simpl; lia.
Qed.

Lemma length_poke buf i b :
  (i < length buf)%nat -> length (poke buf i b) = length buf.
Proof. intro Hi. unfold poke. apply length_memcpy. simpl. lia. Qed.

Lemma length_bzero buf n :
  (n <= length buf)%nat -> length (bzero buf n) = length buf.
Proof.
  intro Hn. unfold bzero. apply length_memcpy. rewrite repeat_length. lia.
Qed.

Lemma peek_bzero_in buf n i :
  (i < n)%nat -> peek (bzero buf n) i = x00.
Proof.
  intro Hi. unfold bzero.
  rewrite peek_memcpy_in by (rewrite ?repeat_length; lia).
  rewrite Nat.sub_0_r. apply nth_repeat.
Qed.

End Buffers.

(** * Key derivation *)

Section KeyDerivation.
Context `{Collaborators}.

Lemma split_key (k : list byte) :
  length k = 64%nat ->
  exists a b c d,
    k = a ++ b ++ c ++ d /\ length a = 16%nat /\ length b = 16%nat
    /\ length c = 16%nat /\ length d = 16%nat.
Proof.
  intro Hk.
  exists (sub k 0 16), (sub k 16 16), (sub k 32 16), (sub k 48 16).
  repeat split; try (apply sub_length; lia).
  change (k = sub k 0 16 ++ sub k (0 + 16) 16 ++ sub k (0 + 16 + 16) 16
                ++ sub k (0 + 16 + 16 + 16) 16).
  rewrite <- !sub_split.
  unfold sub. rewrite skipn_O. symmetry. apply firstn_all2. simpl. lia.
Qed.

(** The four [md5] calls fill the whole array, whatever it held. *)
Lemma md5_chain_spec (seed key0 : list byte) :
  length key0 = 64%nat ->
  md5_chain seed key0 =
    md5 seed ++ md5 (md5 seed) ++ md5 (md5 seed ++ md5 (md5 seed))
      ++ md5 (md5 seed ++ md5 (md5 seed)
                ++ md5 (md5 seed ++ md5 (md5 seed))).
Proof.
  intro Hk.
  destruct (split_key key0 Hk) as (a & b & c & d & -> & La & Lb & Lc & Ld).
  unfold md5_chain.
  set (d0 := md5 seed).
  assert (L0 : length d0 = 16%nat) by apply md5_length.
  rewrite (memcpy_head a (b ++ c ++ d) d0) by lia.
  rewrite (sub_head d0 _ 16 L0).
  set (d1 := md5 d0).
  assert (L1 : length d1 = 16%nat) by apply md5_length.
  rewrite (memcpy_at d0 b (c ++ d) d1 16) by lia.
  rewrite (app_assoc d0 d1).
  rewrite (sub_head (d0 ++ d1) _ 32) by (rewrite length_app; lia).
  set (d2 := md5 (d0 ++ d1)).
  assert (L2 : length d2 = 16%nat) by apply md5_length.
  rewrite (memcpy_at (d0 ++ d1) c d d2 32) by (rewrite ?length_app; lia).
  rewrite (app_assoc (d0 ++ d1) d2).
  rewrite (sub_head ((d0 ++ d1) ++ d2) _ 48) by (rewrite !length_app; lia).
  rewrite <- (app_nil_r d) at 1.
  rewrite (memcpy_at ((d0 ++ d1) ++ d2) d [] _ 48)
    by (rewrite ?length_app, ?md5_length; lia).
  rewrite app_nil_r, <- !app_assoc. reflexivity.
Qed.

Lemma md5_chain_is_kdf (R P key0 : list byte) :
  length key0 = 64%nat -> md5_chain (R ++ P) key0 = kdf_spec R P.
Proof. intro Hk. rewrite md5_chain_spec by exact Hk. reflexivity. Qed.

Lemma length_kdf_spec (R P : list byte) : length (kdf_spec R P) = 64%nat.
Proof. unfold kdf_spec. rewrite !length_app, !md5_length. reflexivity. Qed.

(** The truncation in [main] keeps the first 256 bytes of the configured
    key. *)
Lemma psk_setup fam k :
  psk (setup_server fam k) = firstn 256 k
  /\ key_len (setup_server fam k) = length (firstn 256 k)
  /\ (length (firstn 256 k) <= 256)%nat.
Proof.
  unfold setup_server, psk.
  destruct (Nat.ltb_spec 256 (length k)) as [Hlong | Hshort];
    cbn [key key_len].
  - repeat split.
    + unfold poke, memcpy.
      rewrite firstn_app, firstn_firstn, length_firstn.
      rewrite !Nat.min_l by lia.
      replace (256 - 257)%nat with 0%nat by lia.
      rewrite firstn_O. apply app_nil_r.
    + rewrite length_firstn. lia.
    + apply firstn_le_length.
  - repeat split.
    + rewrite firstn_all. symmetry. apply firstn_all2. exact Hshort.
    + rewrite firstn_all2; [reflexivity | exact Hshort].
    + apply firstn_le_length.
Qed.

(** What is hashed once two pieces lie at the start of a buffer. *)
Lemma seed_of_buffer buf R P :
  (length R + length P <= length buf)%nat ->
  sub (memcpy (memcpy buf 0 R) (length R) P) 0 (length R + length P) = R ++ P.
Proof.
  intro Hfit.
  destruct (buffer_cut buf 0 (length R)) as (E & _ & L); [lia |].
  simpl in E. rewrite E at 1.
  rewrite (memcpy_head (sub buf 0 (length R)) _ R) by lia.
  set (rest := skipn (length R) buf).
  assert (Lrest : (length P <= length rest)%nat)
    by (unfold rest; rewrite length_skipn; lia).
  rewrite <- (firstn_skipn (length P) rest).
  rewrite (memcpy_app R (firstn (length P) rest) _ P)
    by (rewrite length_firstn; lia).
  rewrite app_assoc.
  rewrite <- length_app. apply sub_app_head.
Qed.

(** The key of the client, for a server whose [key_len] is the length of
    its pre-shared key. *)
Lemma client_key_is_kdf (rx R k0 : list byte) (srv : server_t) :
  length R = 236%nat -> length rx = Z.to_nat BUF_SIZE ->
  length k0 = 64%nat ->
  key_len srv = length (psk srv) -> (length (psk srv) <= 256)%nat ->
  snd (Client.request_key rx R srv k0) = kdf_spec R (psk srv).
Proof.
  intros HR Hrx Hk Hlen Hshort. unfold BUF_SIZE in Hrx.
  unfold Client.request_key. cbn [snd].
  rewrite firstn_all2 by lia.
  rewrite Hlen, <- HR.
  rewrite seed_of_buffer by lia.
  apply md5_chain_is_kdf, Hk.
Qed.

(** The key of the server, when the last 236 bytes of the request are
    [R]. *)
Lemma server_key_is_kdf (tx rx R k0 : list byte) (srv : server_t) :
  length R = 236%nat -> length tx = Z.to_nat BUF_SIZE ->
  length k0 = 64%nat ->
  key_len srv = length (psk srv) -> (length (psk srv) <= 256)%nat ->
  sub rx 276 236 = R ->
  snd (Server.request_key tx rx srv k0) = kdf_spec R (psk srv).
Proof.
  intros HR Htx Hk Hlen Hshort Hiv. unfold BUF_SIZE in Htx.
  unfold Server.request_key. cbn [snd].
  rewrite Hiv, Hlen, <- HR.
  rewrite seed_of_buffer by lia.
  apply md5_chain_is_kdf, Hk.
Qed.

(** Every entry of the server table, and the entry read past its end, is
    a server as [main] sets it up. *)
Lemma nth_setup_servers conf i :
  exists fam k, nth i (setup_servers conf) no_server = setup_server fam k.
Proof.
  unfold setup_servers.
  change no_server
    with ((fun entry : Z * list byte => setup_server (fst entry) (snd entry))
            (0, [])).
  rewrite map_nth. eauto.
Qed.

Lemma psk_of_table conf i :
  key_len (nth i (setup_servers conf) no_server)
  = length (psk (nth i (setup_servers conf) no_server))
  /\ (length (psk (nth i (setup_servers conf) no_server)) <= 256)%nat.
Proof.
  destruct (nth_setup_servers conf i) as (fam & k & ->).
  destruct (psk_setup fam k) as (HP & Hlen & Hshort).
  rewrite HP. split; assumption.
Qed.

End KeyDerivation.

(** * C1: both ends derive the same key *)

(** C1.  For every 236-byte IV [R] and every configured key, truncated by
    [main] to a pre-shared key [P] of at most 256 bytes, the key the client
    computes from its [rx_buf] and the key the server computes from the
    last 236 bytes of the request it received are both the 64-byte key of
    the specification's derivation, [kdf_spec R P]: a function of [R] and
    [P] alone, whatever the buffers and the [key] arrays held before. *)
Theorem key_derivation_agrees `{Collaborators}
  (fam : Z) (k R crx stx srx kc ks : list byte) :
  length R = 236%nat ->
  length crx = Z.to_nat BUF_SIZE ->
  length stx = Z.to_nat BUF_SIZE ->
  length kc = 64%nat -> length ks = 64%nat ->
  sub srx 276 236 = R ->
  (length (psk (setup_server fam k)) <= 256)%nat
  /\ snd (Client.request_key crx R (setup_server fam k) kc)
     = kdf_spec R (psk (setup_server fam k))
  /\ snd (Server.request_key stx srx (setup_server fam k) ks)
     = kdf_spec R (psk (setup_server fam k))
  /\ length (kdf_spec R (psk (setup_server fam k))) = 64%nat.
Proof.
  intros HR Hcrx Hstx Hkc Hks Hiv.
  destruct (psk_setup fam k) as (HP & Hlen & Hshort).
  set (srv := setup_server fam k) in *.
  assert (HlenP : key_len srv = length (psk srv)) by (rewrite HP; exact Hlen).
  assert (HshortP : (length (psk srv) <= 256)%nat)
    by (rewrite HP; exact Hshort).
  split; [exact HshortP |].
  split; [| split].
  - apply client_key_is_kdf; assumption.
  - apply server_key_is_kdf; assumption.
  - apply length_kdf_spec.
Qed.

Lemma key_derivation_agrees_witness :
  let srv := setup_server 2 Sample.secret in
  (length (psk srv) <= 256)%nat
  /\ snd (Client.request_key (H := Standin.collaborators) Sample.zeros
            Sample.iv srv Sample.stack)
     = kdf_spec (H := Standin.collaborators) Sample.iv (psk srv)
  /\ snd (Server.request_key (H := Standin.collaborators) Sample.zeros
            (repeat x01 276 ++ Sample.iv) srv (repeat x00 64))
     = kdf_spec (H := Standin.collaborators) Sample.iv (psk srv)
  /\ length (kdf_spec (H := Standin.collaborators) Sample.iv (psk srv))
     = 64%nat.
Proof.
  apply (key_derivation_agrees (H := Standin.collaborators) 2 Sample.secret
           Sample.iv Sample.zeros Sample.zeros (repeat x01 276 ++ Sample.iv)
           Sample.stack (repeat x00 64));
    reflexivity.
Defined.

(** * The system calls *)

Section SystemCalls.

Lemma recv_data d buf :
  recv (RecvData d) buf =
    (Z.of_nat (length (firstn (Z.to_nat BUF_SIZE) d)),
     memcpy buf 0 (firstn (Z.to_nat BUF_SIZE) d)).
Proof. reflexivity. Qed.

Lemma received_length (d : list byte) :
  length (firstn (Z.to_nat BUF_SIZE) d)
  = Nat.min (Z.to_nat BUF_SIZE) (length d).
Proof. apply length_firstn. Qed.

Lemma received_positive (d : list byte) :
  d <> [] -> (Z.of_nat (length (firstn (Z.to_nat BUF_SIZE) d)) <=? 0) = false.
Proof.
  intro Hd. apply Z.leb_gt. rewrite received_length.
  destruct d as [| b r]; [congruence |]. unfold BUF_SIZE. cbn [length]. lia.
Qed.

(** After [bzero (buf, zf)] and the [recv], every position below [zf] holds
    the byte received there, or zero when nothing was. *)
Lemma peek_received (buf : list byte) zf (d : list byte) i :
  length buf = Z.to_nat BUF_SIZE -> (zf <= Z.to_nat BUF_SIZE)%nat ->
  (i < zf)%nat ->
  peek (memcpy (bzero buf zf) 0 (firstn (Z.to_nat BUF_SIZE) d)) i = peek d i.
Proof.
  intros Hbuf Hzf Hi.
  assert (Hlen : length (bzero buf zf) = length buf)
    by (apply length_bzero; lia).
  destruct (Nat.lt_ge_cases i (length (firstn (Z.to_nat BUF_SIZE) d)))
    as [Hin | Hout].
  - rewrite peek_memcpy_in by lia.
    rewrite Nat.sub_0_r, nth_firstn.
    destruct (Nat.ltb_spec i (Z.to_nat BUF_SIZE)); [reflexivity | lia].
  - rewrite peek_memcpy_out, peek_bzero_in; try lia.
    unfold peek. symmetry. apply nth_overflow.
    rewrite received_length in Hout. lia.
Qed.

Lemma length_received (buf : list byte) zf (d : list byte) :
  length buf = Z.to_nat BUF_SIZE -> (zf <= Z.to_nat BUF_SIZE)%nat ->
  length (memcpy (bzero buf zf) 0 (firstn (Z.to_nat BUF_SIZE) d))
  = Z.to_nat BUF_SIZE.
Proof.
  intros Hbuf Hzf.
  rewrite length_memcpy; rewrite length_bzero; try lia.
  rewrite received_length. lia.
Qed.

Lemma send_all room len :
  0 <= len -> len <= Z.of_N room -> send (SendRoom room) len = len.
Proof. intros Hlen Hroom. unfold send. lia. Qed.

Lemma send_range r len :
  0 <= len -> -1 <= send r len <= len.
Proof. intro Hlen. destruct r as [again | room]; unfold send; lia. Qed.

Lemma send_negative r len :
  0 <= len -> send r len < 0 -> exists again, r = SendFail again.
Proof.
  intros Hlen Hneg. destruct r as [again | room]; [eauto |].
  unfold send in Hneg. lia.
Qed.

Lemma sent_all fd (region : list byte) n :
  length region = Z.to_nat n -> 0 <= n -> sent fd region n = [Send fd region].
Proof.
  intros Hlen Hn. unfold sent.
  destruct (Z.ltb_spec n 0); [lia |].
  rewrite <- Hlen, firstn_all. reflexivity.
Qed.

(** A list is the list of its elements. *)
Lemma list_of_peeks (l : list byte) n :
  length l = n -> l = map (peek l) (seq 0 n).
Proof.
  intros <-. apply nth_ext with (d := x00) (d' := peek l 0).
  - rewrite length_map, length_seq. reflexivity.
  - intros i Hi. rewrite map_nth, seq_nth by exact Hi. reflexivity.
Qed.

End SystemCalls.

(** * The SOCKS5 front end of the client *)

Ltac solve_len :=
  repeat match goal with
    | |- context [length (poke ?b ?i ?x)] =>
        rewrite (length_poke b i x) by solve_len
    | |- context [length (bzero ?b ?n)] =>
        rewrite (length_bzero b n) by solve_len
    | |- context [length (memcpy (bzero ?b ?n) 0 (firstn _ ?d))] =>
        rewrite (length_received b n d) by solve_len
    | |- context [length (memcpy ?b ?o ?s)] =>
        rewrite (length_memcpy b o s) by solve_len
    end;
  unfold BUF_SIZE in *; cbn [length] in *; rewrite ?repeat_length; lia.

Section Socks.
Context `{Collaborators}.
Import Client.

(** The [error] variable by the three bytes it depends on: the address
    type is tested last, the command before it, the version first. *)
Lemma parse_request_error rx :
  fst (fst (parse_request rx)) =
    if atyp_known (peek rx 3) then
      if byte_eqb (peek rx 1) x01 then
        if byte_eqb (peek rx 0) x05 then 0 else 1
      else 2
    else 3.
Proof.
  unfold parse_request, atyp_known.
  destruct (byte_eqb (peek rx 3) x01); [reflexivity |].
  destruct (byte_eqb (peek rx 3) x03); [reflexivity |].
  destruct (byte_eqb (peek rx 3) x04); reflexivity.
Qed.

Lemma reply_bytes tx rep :
  length tx = Z.to_nat BUF_SIZE ->
  sub (reply_frame tx rep) 0 10 = socks_reply rep.
Proof.
  intro Htx. unfold reply_frame.
  rewrite (list_of_peeks (sub _ 0 10) 10) by (apply sub_length; solve_len).
  cbn [map seq].
  rewrite !peek_sub by lia. cbn [Nat.add].
  unfold socks_reply.
  repeat (f_equal;
          [ rewrite ?peek_poke_other by solve_len;
            first [ apply peek_poke_same; solve_len
                  | apply peek_bzero_in; lia ] | ]).
  reflexivity.
Qed.

Lemma error_reply_bytes tx error :
  length tx = Z.to_nat BUF_SIZE ->
  sub (error_reply tx error) 0 10 = socks_reply (rep_code error).
Proof. intro Htx. apply (reply_bytes tx (rep_code error) Htx). Qed.

Lemma nego_reply_bytes tx b :
  length tx = Z.to_nat BUF_SIZE ->
  sub (poke (poke tx 0 x05) 1 b) 0 2 = [x05; b].
Proof.
  intro Htx.
  rewrite (list_of_peeks (sub _ 0 2) 2) by (apply sub_length; solve_len).
  cbn [map seq]. rewrite !peek_sub by lia. cbn [Nat.add].
  rewrite peek_poke_other, !peek_poke_same by solve_len. reflexivity.
Qed.

Lemma nego_reject_bytes tx :
  length tx = Z.to_nat BUF_SIZE ->
  sub (poke (poke (poke tx 0 x05) 1 x00) 1 xff) 0 2 = [x05; xff].
Proof.
  intro Htx.
  rewrite (list_of_peeks (sub _ 0 2) 2) by (apply sub_length; solve_len).
  cbn [map seq]. rewrite !peek_sub by lia. cbn [Nat.add].
  rewrite !peek_poke_other, !peek_poke_same by solve_len. reflexivity.
Qed.

End Socks.

Section Requests.
Context `{Collaborators}.
Import Client.

Lemma byte_eqb_neq a b : a <> b -> byte_eqb a b = false.
Proof.
  intro Hneq. destruct (byte_eqb a b) eqn:E; [| reflexivity].
  apply Byte.byte_dec_bl in E. contradiction.
Qed.

Lemma byte_eqb_refl a : byte_eqb a a = true.
Proof. apply Byte.byte_dec_lb. reflexivity. Qed.

(** The request as the handler sees it after [bzero] and [recv]. *)
Lemma request_error_of_bytes (rx0 d : list byte) :
  length rx0 = Z.to_nat BUF_SIZE ->
  fst (fst (parse_request
              (memcpy (bzero rx0 263) 0 (firstn (Z.to_nat BUF_SIZE) d)))) =
    if atyp_known (peek d 3) then
      if byte_eqb (peek d 1) x01 then
        if byte_eqb (peek d 0) x05 then 0 else 1
      else 2
    else 3.
Proof.
  intro Hrx. rewrite parse_request_error.
  rewrite !peek_received by (unfold BUF_SIZE in *; lia). reflexivity.
Qed.

(** The handler on a request with an error: the reply is prepared and the
    local writer armed. *)
Lemma request_refused servers e c d error host port :
  wf c -> state c = NEGO_SENT -> recv_res e = RecvData d -> d <> [] ->
  parse_request (memcpy (bzero (rx_buf c) 263) 0
                   (firstn (Z.to_nat BUF_SIZE) d)) = (error, host, port) ->
  error <> 0 ->
  exists c',
    local_read_cb servers e c = Live c' []
    /\ state c' = CMD_ERR /\ tx_bytes c' = 10
    /\ sub (tx_buf c') 0 10 = socks_reply (rep_code error)
    /\ w_local_write c' = true /\ w_local_read c' = false
    /\ w_remote_read c' = w_remote_read c
    /\ w_remote_write c' = w_remote_write c
    /\ sock_local c' = sock_local c.
Proof.
  intros [Hrx Htx] Hst Hrecv Hd Hparse Herr.
  destruct c; cbn in Hrx, Htx, Hst, Hparse |- *; subst.
  unfold local_read_cb; cbn.
  rewrite Hrecv, recv_data. cbn.
  rewrite received_positive by exact Hd.
  rewrite Hparse.
  destruct (Z.eqb_spec error 0) as [| _]; [contradiction |].
  eexists. split; [reflexivity |]. cbn.
  rewrite error_reply_bytes by exact Htx. repeat split; reflexivity.
Qed.

(** A prepared ten-byte reply in [CMD_ERR] or [REQ_ERR], or a two-byte
    rejection in [NEGO_ERR], goes out whole; the connection lingers and the
    timer closes it. *)
Lemma reply_linger_close servers e2 e3 c room reply acc :
  (state c = CMD_ERR \/ state c = REQ_ERR \/ state c = NEGO_ERR) ->
  w_local_write c = true ->
  0 <= tx_bytes c -> sub (tx_buf c) 0 (Z.to_nat (tx_bytes c)) = reply ->
  length reply = Z.to_nat (tx_bytes c) ->
  send_res e2 = SendRoom room -> tx_bytes c <= Z.of_N room ->
  mem_new_ok e2 = true ->
  run servers [(LocalWritable, e2); (TimerExpired, e3)] c false acc
  = Finished
      (acc ++ [Send (sock_local c) reply; TimerStart LINGER_MS; TimerStop;
               Close (sock_local c); FreeTimer; FreeConn])
  /\ exists c',
      run servers [(LocalWritable, e2)] c false acc
      = Running c' true
          (acc ++ [Send (sock_local c) reply; TimerStart LINGER_MS])
      /\ state c' = CLOSE_WAIT
      /\ w_local_read c' = w_local_read c /\ w_local_write c' = false
      /\ w_remote_read c' = w_remote_read c
      /\ w_remote_write c' = w_remote_write c.
Proof.
  intros Hst Hlw Hpos Hreply Hlen Hsend Hroom Hmem.
  destruct c; cbn in Hst, Hlw, Hpos, Hreply, Hlen, Hroom |- *; subst.
  destruct Hst as [-> | [-> | ->]].
  all: unfold local_write_cb; cbn.
  all: rewrite Hsend, send_all by lia.
  all: rewrite Z.eqb_refl; cbn.
  all: unfold close_wait; rewrite Hmem.
  all: rewrite sent_all by first [exact Hlen | lia].
  all: cbn; rewrite <- !app_assoc; cbn.
  all: split; [reflexivity |].
  all: eexists; split; [reflexivity |]; cbn; repeat split; reflexivity.
Qed.

End Requests.

Section ClientFrontEnd.
Context `{Collaborators}.
Import Client.

Lemma run_step servers ev e rest c timer acc c' fx :
  dispatch servers ev e timer c = Some (Live c' fx) ->
  run servers ((ev, e) :: rest) c timer acc
  = run servers rest c' (timer || starts_timer fx) (acc ++ fx).
Proof. intro Hd. cbn [run]. rewrite Hd. reflexivity. Qed.

Lemma atyp_known_false b :
  b <> x01 -> b <> x03 -> b <> x04 -> atyp_known b = false.
Proof.
  intros H1 H3 H4. unfold atyp_known.
  rewrite !byte_eqb_neq by assumption. reflexivity.
Qed.

Lemma peek_nil i : peek [] i = x00.
Proof. unfold peek. destruct i; reflexivity. Qed.

End ClientFrontEnd.

(** The reply code of a refused request, by the bytes received. *)
Lemma refused_reply_code `{Collaborators} servers e c d :
  Client.wf c -> Client.state c = Client.NEGO_SENT ->
  recv_res e = RecvData d -> d <> [] ->
  (Client.atyp_known (peek d 3) = false \/ peek d 1 <> x01
   \/ peek d 0 <> x05) ->
  exists c',
    Client.local_read_cb servers e c = Client.Live c' []
    /\ Client.state c' = Client.CMD_ERR
    /\ Client.tx_bytes c' = 10
    /\ Client.w_local_write c' = true
    /\ sub (Client.tx_buf c') 0 10 =
         Client.socks_reply
           (if Client.atyp_known (peek d 3) then
              if byte_eqb (peek d 1) x01 then x01 else x07
            else x08)
    /\ Client.sock_local c' = Client.sock_local c.
Proof.
  intros Hwf Hst Hrecv Hd Hbad.
  destruct (Client.parse_request
              (memcpy (bzero (Client.rx_buf c) 263) 0
                 (firstn (Z.to_nat BUF_SIZE) d)))
    as [[error host] port] eqn:Hparse.
  pose proof (request_error_of_bytes (Client.rx_buf c) d (proj1 Hwf)) as Herr.
  rewrite Hparse in Herr. cbn [fst] in Herr.
  assert (Hrep : error <> 0 /\
                 Client.rep_code error =
                   if Client.atyp_known (peek d 3) then
                     if byte_eqb (peek d 1) x01 then x01 else x07
                   else x08).
  { rewrite Herr.
    destruct (Client.atyp_known (peek d 3)); [| split; [lia | reflexivity]].
    destruct (byte_eqb (peek d 1) x01) eqn:Ecmd; [| split; [lia | reflexivity]].
    destruct (byte_eqb (peek d 0) x05) eqn:Ever; [| split; [lia | reflexivity]].
    apply Byte.byte_dec_bl in Ecmd, Ever.
    destruct Hbad as [Hb | [Hb | Hb]]; [discriminate | contradiction ..]. }
  destruct Hrep as [Hne Hrep].
  destruct (request_refused servers e c d error host port
              Hwf Hst Hrecv Hd Hparse Hne)
    as (c' & Hcb & Hst' & Hn & Hbytes & Hlw & _ & _ & _ & Hsock).
  exists c'. rewrite <- Hrep. repeat split; assumption.
Qed.

(** * C10: the later check decides the reply code *)

(** C10.  A request read in [NEGO_SENT] that fails any of the three checks
    is answered with a ten-byte reply whose code is decided by the last
    check that failed: 0x08 when the address type is not 1, 3 or 4,
    whatever the command and the version are; otherwise 0x07 when the
    command is not CONNECT, whatever the version is; 0x01 only when the
    version alone is wrong. *)
Theorem later_check_wins `{Collaborators} servers e c d :
  Client.wf c -> Client.state c = Client.NEGO_SENT ->
  recv_res e = RecvData d -> d <> [] ->
  (Client.atyp_known (peek d 3) = false \/ peek d 1 <> x01
   \/ peek d 0 <> x05) ->
  exists c',
    Client.local_read_cb servers e c = Client.Live c' []
    /\ Client.state c' = Client.CMD_ERR
    /\ Client.tx_bytes c' = 10
    /\ Client.w_local_write c' = true
    /\ sub (Client.tx_buf c') 0 10 =
         Client.socks_reply
           (if Client.atyp_known (peek d 3) then
              if byte_eqb (peek d 1) x01 then x01 else x07
            else x08).
Proof.
  intros Hwf Hst Hrecv Hd Hbad.
  destruct (refused_reply_code servers e c d Hwf Hst Hrecv Hd Hbad)
    as (c' & Hcb & Hst' & Hn & Hlw & Hbytes & _).
  exists c'. repeat split; assumption.
Qed.

Lemma later_check_wins_witness :
  exists c',
    Client.local_read_cb Sample.servers
      (Sample.io [x04; x02; x00; x09; x00; x00] 0) Sample.negotiated
    = Client.Live c' []
    /\ Client.state c' = Client.CMD_ERR
    /\ Client.tx_bytes c' = 10
    /\ Client.w_local_write c' = true
    /\ sub (Client.tx_buf c') 0 10 = Client.socks_reply x08.
Proof.
  apply (later_check_wins Sample.servers
           (Sample.io [x04; x02; x00; x09; x00; x00] 0) Sample.negotiated
           [x04; x02; x00; x09; x00; x00]).
  - split; vm_compute; reflexivity.
  - vm_compute; reflexivity.
  - reflexivity.
  - discriminate.
  - left. vm_compute. reflexivity.
Defined.

(** * C8: BIND and UDP ASSOCIATE *)

(** C8, as the code has it.  A request read in [NEGO_SENT] whose command
    byte is 0x02 or 0x03 and whose address type is 1, 3 or 4 is answered
    with the ten bytes [05 07 00 01 00 00 00 00 00 00]; once they are sent
    in one piece and the timer is allocated, the connection is in
    [CLOSE_WAIT] with the one-second timer running, and the timer's callback
    closes the local socket and releases the block. *)
Theorem unsupported_command_refused `{Collaborators}
  servers e1 e2 e3 c d room :
  Client.wf c -> Client.state c = Client.NEGO_SENT ->
  Client.w_local_read c = true ->
  recv_res e1 = RecvData d ->
  (peek d 1 = x02 \/ peek d 1 = x03) ->
  Client.atyp_known (peek d 3) = true ->
  send_res e2 = SendRoom room -> 10 <= Z.of_N room ->
  mem_new_ok e2 = true ->
  Client.run servers
    [(Client.LocalReadable, e1); (Client.LocalWritable, e2);
     (Client.TimerExpired, e3)] c false []
  = Client.Finished
      [Send (Client.sock_local c) (Client.socks_reply x07);
       TimerStart LINGER_MS; TimerStop; Close (Client.sock_local c);
       FreeTimer; FreeConn]
  /\ exists c',
      Client.run servers
        [(Client.LocalReadable, e1); (Client.LocalWritable, e2)] c false []
      = Client.Running c' true
          [Send (Client.sock_local c) (Client.socks_reply x07);
           TimerStart LINGER_MS]
      /\ Client.state c' = Client.CLOSE_WAIT.
Proof.
  intros Hwf Hst Hlr Hrecv Hcmd Hatyp Hsend Hroom Hmem.
  assert (Hd : d <> []).
  { intros ->. rewrite peek_nil in Hcmd. destruct Hcmd; discriminate. }
  assert (Hne : peek d 1 <> x01).
  { destruct Hcmd as [E | E]; rewrite E; discriminate. }
  destruct (refused_reply_code servers e1 c d Hwf Hst Hrecv Hd
              (or_intror (or_introl Hne)))
    as (c1 & Hcb & Hst1 & Hn1 & Hlw1 & Hbytes & Hsock).
  rewrite Hatyp, (byte_eqb_neq _ _ Hne) in Hbytes.
  assert (Hstep : Client.dispatch servers Client.LocalReadable e1 false c
                  = Some (Client.Live c1 []))
    by (cbn; rewrite Hlr, Hcb; reflexivity).
  destruct (reply_linger_close servers e2 e3 c1 room
              (Client.socks_reply x07) []) as (Hrun & c2 & Hrun2 & Hst2 & _);
    try assumption.
  - left. exact Hst1.
  - rewrite Hn1. lia.
  - rewrite Hn1. exact Hbytes.
  - rewrite Hn1. reflexivity.
  - rewrite Hn1. exact Hroom.
  - rewrite Hsock in Hrun, Hrun2. split.
    + rewrite (run_step _ _ _ _ _ _ _ _ _ Hstep). exact Hrun.
    + exists c2. rewrite (run_step _ _ _ _ _ _ _ _ _ Hstep). split; assumption.
Qed.

Lemma unsupported_command_refused_witness :
  Client.run Sample.servers
    [(Client.LocalReadable,
      Sample.io [x05; x02; x00; x01; x01; x02; x03; x04; x00; x50] 0);
     (Client.LocalWritable, Sample.io [] 10);
     (Client.TimerExpired, Sample.quiet)] Sample.negotiated false []
  = Client.Finished
      [Send (Client.sock_local Sample.negotiated) (Client.socks_reply x07);
       TimerStart LINGER_MS; TimerStop;
       Close (Client.sock_local Sample.negotiated); FreeTimer; FreeConn]
  /\ exists c',
      Client.run Sample.servers
        [(Client.LocalReadable,
          Sample.io [x05; x02; x00; x01; x01; x02; x03; x04; x00; x50] 0);
         (Client.LocalWritable, Sample.io [] 10)] Sample.negotiated false []
      = Client.Running c' true
          [Send (Client.sock_local Sample.negotiated)
             (Client.socks_reply x07);
           TimerStart LINGER_MS]
      /\ Client.state c' = Client.CLOSE_WAIT.
Proof.
  apply (unsupported_command_refused Sample.servers
           (Sample.io [x05; x02; x00; x01; x01; x02; x03; x04; x00; x50] 0)
           (Sample.io [] 10) Sample.quiet Sample.negotiated
           [x05; x02; x00; x01; x01; x02; x03; x04; x00; x50] 10).
  - split; vm_compute; reflexivity.
  - vm_compute; reflexivity.
  - vm_compute; reflexivity.
  - reflexivity.
  - left. reflexivity.
  - reflexivity.
  - reflexivity.
  - lia.
  - reflexivity.
Defined.

(** C8 as stated fails: BIND with an address type the parser does not
    know ([05 02 00 09 ...]) is answered with code 0x08, not 0x07. *)
Lemma bind_with_unknown_atyp_gets_08 :
  Client.run Sample.servers
    [(Client.LocalReadable,
      Sample.io [x05; x02; x00; x09; x00; x00; x00; x00; x00; x50] 0);
     (Client.LocalWritable, Sample.io [] 10);
     (Client.TimerExpired, Sample.quiet)] Sample.negotiated false []
  = Client.Finished
      [Send 5 [x05; x08; x00; x01; x00; x00; x00; x00; x00; x00];
       TimerStart 1000; TimerStop; Close 5; FreeTimer; FreeConn].
Proof. reflexivity. Qed.

(** * C9: the zero-filled greeting *)

Section Greeting.
Context `{Collaborators}.
Import Client.

Lemma u8_range b : 0 <= u8 b <= 255.
Proof.
  unfold u8. pose proof (Byte.to_N_bounded b). lia.
Qed.

(** The scan stops at or before any zero position inside its range. *)
Lemma scan_methods_hit buf left :
  forall i j, (i <= j < i + left)%nat -> peek buf (2 + j) = x00 ->
              (scan_methods buf i left <= j)%nat.
Proof.
  induction left as [| left IH]; intros i j Hj Hzero; [lia |].
  cbn [scan_methods].
  destruct (byte_eqb (peek buf (2 + i)) x00) eqn:E; [lia |].
  destruct (Nat.eq_dec i j) as [-> | Hneq].
  - rewrite Hzero, byte_eqb_refl in E. discriminate.
  - apply IH; [lia | exact Hzero].
Qed.

(** The scan never leaves its range. *)
Lemma scan_methods_range buf left :
  forall i, (i <= scan_methods buf i left <= i + left)%nat.
Proof.
  induction left as [| left IH]; intro i; cbn [scan_methods]; [lia |].
  destruct (byte_eqb (peek buf (2 + i)) x00); [lia |].
  specialize (IH (S i)). lia.
Qed.

Lemma short_greeting_no_error (rx0 d : list byte) :
  length rx0 = Z.to_nat BUF_SIZE ->
  peek d 0 = x05 ->
  (length d - 2 < Z.to_nat (u8 (peek d 1)))%nat ->
  nego_error (memcpy (bzero rx0 257) 0 (firstn (Z.to_nat BUF_SIZE) d)) = 0.
Proof.
  intros Hrx Hver Hshort.
  pose proof (u8_range (peek d 1)) as Hn.
  unfold nego_error.
  rewrite !peek_received by (unfold BUF_SIZE in *; lia).
  rewrite Hver, byte_eqb_refl.
  set (rx := memcpy _ _ _). set (n := Z.to_nat (u8 (peek d 1))) in *.
  assert (Hhit : (scan_methods rx 0 n <= length d - 2)%nat).
  { apply scan_methods_hit; [lia |].
    unfold rx. rewrite peek_received by (unfold BUF_SIZE in *; lia).
    unfold peek. apply nth_overflow. lia. }
  destruct (Nat.leb_spec n (scan_methods rx 0 n)); [lia | reflexivity].
Qed.

(** The read handler on such a greeting. *)
Lemma short_greeting_step servers e c d :
  wf c -> state c = CLOSED -> recv_res e = RecvData d ->
  peek d 0 = x05 ->
  (length d - 2 < Z.to_nat (u8 (peek d 1)))%nat ->
  exists c',
    local_read_cb servers e c = Live c' []
    /\ state c' = NEGO_RCVD /\ tx_bytes c' = 2
    /\ sub (tx_buf c') 0 2 = [x05; x00]
    /\ w_local_write c' = true
    /\ sock_local c' = sock_local c.
Proof.
  intros [Hrx Htx] Hst Hrecv Hver Hshort.
  assert (Hd : d <> []) by (intros ->; rewrite peek_nil in Hver; discriminate).
  pose proof (short_greeting_no_error (rx_buf c) d Hrx Hver Hshort) as Herr.
  destruct c; cbn in Hrx, Htx, Hst, Herr |- *; subst.
  unfold local_read_cb; cbn.
  rewrite Hrecv, recv_data; cbn.
  rewrite received_positive by exact Hd.
  rewrite Herr; cbn.
  eexists. split; [reflexivity |]. cbn.
  rewrite nego_reply_bytes by exact Htx. repeat split; reflexivity.
Qed.

(** The write handler once the two bytes of an accepting reply are ready. *)
Lemma nego_reply_sent e c room reply :
  state c = NEGO_RCVD -> tx_bytes c = 2 -> sub (tx_buf c) 0 2 = reply ->
  length reply = 2%nat ->
  send_res e = SendRoom room -> 2 <= Z.of_N room ->
  exists c',
    local_write_cb e c = Live c' [Send (sock_local c) reply]
    /\ state c' = NEGO_SENT /\ w_local_read c' = true.
Proof.
  intros Hst Hn Hreply Hlen Hsend Hroom.
  destruct c; cbn in Hst, Hn, Hreply |- *; subst.
  unfold local_write_cb; cbn.
  rewrite Hsend, send_all by lia. cbn.
  rewrite sent_all by first [exact Hlen | lia].
  eexists. split; [reflexivity |]. split; reflexivity.
Qed.

End Greeting.

(** C9.  A greeting with version 5 whose NMETHODS byte announces more
    methods than the read delivered is accepted, whatever the method bytes
    that did arrive are: the handler prepares [05 00], the next writable
    event sends it and the connection waits for the request. *)
Theorem zero_filled_greeting_accepted `{Collaborators}
  servers e1 e2 c d room :
  Client.wf c -> Client.state c = Client.CLOSED ->
  Client.w_local_read c = true ->
  recv_res e1 = RecvData d ->
  peek d 0 = x05 ->
  (length d - 2 < Z.to_nat (u8 (peek d 1)))%nat ->
  send_res e2 = SendRoom room -> 2 <= Z.of_N room ->
  exists c',
    Client.run servers
      [(Client.LocalReadable, e1); (Client.LocalWritable, e2)] c false []
    = Client.Running c' false [Send (Client.sock_local c) [x05; x00]]
    /\ Client.state c' = Client.NEGO_SENT
    /\ Client.w_local_read c' = true.
Proof.
  intros Hwf Hst Hlr Hrecv Hver Hshort Hsend Hroom.
  destruct (short_greeting_step servers e1 c d Hwf Hst Hrecv Hver Hshort)
    as (c1 & Hcb1 & Hst1 & Hn1 & Hbytes1 & Hlw1 & Hsock1).
  destruct (nego_reply_sent e2 c1 room [x05; x00] Hst1 Hn1 Hbytes1
              eq_refl Hsend Hroom)
    as (c2 & Hcb2 & Hst2 & Hlr2).
  exists c2. split; [| split; assumption].
  rewrite (run_step servers Client.LocalReadable e1 _ c false []
             c1 []) by (cbn; rewrite Hlr, Hcb1; reflexivity).
  rewrite (run_step servers Client.LocalWritable e2 _ c1 _ _
             c2 [Send (Client.sock_local c1) [x05; x00]])
    by (cbn; rewrite Hlw1, Hcb2; reflexivity).
  rewrite Hsock1. reflexivity.
Qed.

Lemma zero_filled_greeting_accepted_witness :
  exists c',
    Client.run Sample.servers
      [(Client.LocalReadable, Sample.io [x05; x02; x02] 0);
       (Client.LocalWritable, Sample.io [] 2)] Sample.accepted false []
    = Client.Running c' false
        [Send (Client.sock_local Sample.accepted) [x05; x00]]
    /\ Client.state c' = Client.NEGO_SENT
    /\ Client.w_local_read c' = true.
Proof.
  apply (zero_filled_greeting_accepted Sample.servers
           (Sample.io [x05; x02; x02] 0) (Sample.io [] 2) Sample.accepted
           [x05; x02; x02] 2).
  - split; vm_compute; reflexivity.
  - reflexivity.
  - reflexivity.
  - reflexivity.
  - reflexivity.
  - vm_compute. lia.
  - reflexivity.
  - lia.
Defined.

(** * C7: how the 32-bit values fall on the servers *)

Section Selection.

Lemma preimages_below_succ b n i :
  preimages_below (N.succ b) n i =
    if Client.select_server (Z.of_N b) n =? i
    then preimages_below b n i + 1 else preimages_below b n i.
Proof.
  unfold preimages_below.
  rewrite (N.recursion_succ (@eq Z)); [reflexivity | reflexivity |].
  intros x y -> a a' ->. reflexivity.
Qed.

(** Adding one value to the range adds one preimage to a single index. *)
Lemma ceil_step b n i :
  0 <= b -> 0 <= i < n ->
  (b + 1 + n - 1 - i) / n =
    (b + n - 1 - i) / n + (if b mod n =? i then 1 else 0).
Proof.
  intros Hb Hi.
  destruct (Z.eqb_spec (b mod n) i) as [E | E].
  - symmetry. apply Z.div_unique with (r := 0).
    + lia.
    + pose proof (Z.div_mod b n ltac:(lia)) as Hdm.
      pose proof (Z.div_mod (b + n - 1 - i) n ltac:(lia)) as Hdm'.
      pose proof (Z.mod_pos_bound (b + n - 1 - i) n ltac:(lia)) as Hr'.
      assert (Hq : (b + n - 1 - i) mod n = n - 1).
      { symmetry. apply Z.mod_unique with (q := b / n); lia. }
      lia.
  - symmetry. rewrite Z.add_0_r.
    pose proof (Z.div_mod b n ltac:(lia)) as Hdm.
    pose proof (Z.mod_pos_bound b n ltac:(lia)) as Hr.
    pose proof (Z.div_mod (b + n - 1 - i) n ltac:(lia)) as Hdm'.
    pose proof (Z.mod_pos_bound (b + n - 1 - i) n ltac:(lia)) as Hr'.
    assert (Hne : (b + n - 1 - i) mod n <> n - 1).
    { intro Hq. apply E. symmetry.
      apply Z.mod_unique with (q := (b + n - 1 - i) / n); lia. }
    apply Z.div_unique with (r := (b + n - 1 - i) mod n + 1); lia.
Qed.

(** The number of values below [bound] that fall on [i]. *)
Lemma preimages_below_count n i :
  0 <= i < n ->
  forall bound, preimages_below bound n i = (Z.of_N bound + n - 1 - i) / n.
Proof.
  intro Hi. induction bound as [| b IH] using N.peano_ind.
  - unfold preimages_below. rewrite N.recursion_0.
    symmetry. apply Z.div_small. lia.
  - rewrite preimages_below_succ, IH. unfold Client.select_server.
    rewrite N2Z.inj_succ. unfold Z.succ.
    rewrite (ceil_step (Z.of_N b) n i) by lia.
    destruct (Z.of_N b mod n =? i); lia.
Qed.

Lemma preimages_count n i :
  0 <= i < n ->
  preimages n i =
    4294967296 / n + (if i <? 4294967296 mod n then 1 else 0).
Proof.
  intro Hi. unfold preimages. rewrite preimages_below_count by exact Hi.
  change (Z.of_N UINT_RANGE) with 4294967296.
  pose proof (Z.div_mod 4294967296 n ltac:(lia)) as Hdm.
  pose proof (Z.mod_pos_bound 4294967296 n ltac:(lia)) as Hr.
  destruct (Z.ltb_spec i (4294967296 mod n)).
  - symmetry.
    apply Z.div_unique with (r := 4294967296 mod n - i - 1); lia.
  - symmetry. rewrite Z.add_0_r.
    apply Z.div_unique with (r := 4294967296 mod n + n - 1 - i); lia.
Qed.

End Selection.

(** C7, as the code has it.  With [n] servers, index [i] is the image of
    [2^32 / n] of the 32-bit values, and of one more when [i] is below
    [2^32 mod n]: two indices never differ by more than one value, and all
    indices have the same number exactly when [n] divides [2^32]. *)
Theorem selection_almost_uniform (n i j : Z) :
  0 <= i < n -> 0 <= j < n ->
  preimages n i = 4294967296 / n + (if i <? 4294967296 mod n then 1 else 0)
  /\ -1 <= preimages n i - preimages n j <= 1
  /\ (4294967296 mod n = 0 -> preimages n i = preimages n j)
  /\ (4294967296 mod n <> 0 ->
      preimages n 0 = preimages n (n - 1) + 1).
Proof.
  intros Hi Hj.
  pose proof (Z.mod_pos_bound 4294967296 n ltac:(lia)) as Hr.
  rewrite (preimages_count n i Hi), (preimages_count n j Hj).
  split; [reflexivity |]. split; [| split].
  - destruct (i <? 4294967296 mod n), (j <? 4294967296 mod n); lia.
  - intros ->. destruct (Z.ltb_spec i 0), (Z.ltb_spec j 0); lia.
  - intro Hne.
    rewrite (preimages_count n 0), (preimages_count n (n - 1)) by lia.
    destruct (Z.ltb_spec 0 (4294967296 mod n)),
      (Z.ltb_spec (n - 1) (4294967296 mod n)); lia.
Qed.

Lemma selection_almost_uniform_witness :
  preimages 3 0 = 4294967296 / 3 + (if 0 <? 4294967296 mod 3 then 1 else 0)
  /\ -1 <= preimages 3 0 - preimages 3 2 <= 1
  /\ (4294967296 mod 3 = 0 -> preimages 3 0 = preimages 3 2)
  /\ (4294967296 mod 3 <> 0 -> preimages 3 0 = preimages 3 (3 - 1) + 1).
Proof. apply (selection_almost_uniform 3 0 2); lia. Defined.

(** C7 as stated fails: with three servers, index 0 is the image of
    1431655766 values and index 1 of 1431655765. *)
Lemma three_servers_not_uniform :
  preimages 3 0 = 1431655766 /\ preimages 3 1 = 1431655765
  /\ preimages 3 0 <> preimages 3 1.
Proof.
  rewrite (preimages_count 3 0), (preimages_count 3 1) by lia.
  repeat split. discriminate.
Qed.

(** * The client between two callbacks *)

Lemma recv_le r buf : fst (recv r buf) <= BUF_SIZE.
Proof.
  destruct r as [| d]; unfold recv; cbn [fst]; unfold BUF_SIZE; [lia |].
  rewrite length_firstn. lia.
Qed.

Section ClientInvariant.
Context `{Collaborators}.
Import Client.

Ltac use_watchers Hw :=
  unfold watchers in Hw;
  let E1 := fresh "E" in let E2 := fresh "E" in
  let E3 := fresh "E" in let E4 := fresh "E" in
  injection Hw as E1 E2 E3 E4.

Ltac show_inv Hst :=
  unfold inv, watchers, interlock, drain_bounds, pending_ok; cbn;
  rewrite ?Hst.

Ltac finish_inv :=
  repeat split; intros; try assumption; try discriminate; try lia;
  repeat match goal with
    | Hb : ?b = true -> _, Ht : ?b = true |- _ => specialize (Hb Ht)
    end;
  intuition (try lia).

Lemma inv_accept fd blank c fx : accept_cb fd blank = Live c fx -> inv c.
Proof.
  unfold accept_cb. cbn.
  destruct (fd <? 0); [discriminate |].
  intro E. injection E as <- <-. unfold inv, watchers. cbn. reflexivity.
Qed.

Lemma inv_local_read servers e c c' fx :
  inv c -> w_local_read c = true ->
  local_read_cb servers e c = Live c' fx -> inv c'.
Proof.
  intros Hinv Hlr Hcb.
  unfold local_read_cb in Hcb. unfold inv in Hinv.
  destruct (state c) eqn:Hst; cbn in Hcb; rewrite ?Hst in Hcb;
    try discriminate.
  - use_watchers Hinv.
    destruct (recv (recv_res e) _) as [n rx]. cbn in Hcb.
    destruct (n <=? 0); [discriminate |].
    destruct (nego_error rx =? 0); injection Hcb as <- <-.
    all: unfold inv, watchers; cbn; rewrite ?E0, ?E1, ?E2; reflexivity.
  - use_watchers Hinv.
    destruct (recv (recv_res e) _) as [n rx]. cbn in Hcb.
    destruct (n <=? 0); [discriminate |].
    destruct (parse_request rx) as [[error host] port].
    destruct (error =? 0).
    + destruct (request_key _ _ _ _) as [rx' key]. cbn in Hcb.
      destruct (encrypt_in_place _ _ _) as [tx enc]. cbn in Hcb.
      destruct (socket_res e <? 0); [discriminate |].
      injection Hcb as <- <-.
      unfold inv, watchers; cbn; rewrite ?E0, ?E1, ?E2; auto.
    + injection Hcb as <- <-.
      unfold inv, watchers; cbn; rewrite ?E0, ?E1, ?E2; auto.
  - pose proof (recv_le (recv_res e) (tx_buf c)) as Hle.
    destruct (recv (recv_res e) (tx_buf c)) as [n tx] eqn:Hrecv.
    cbn [fst] in Hle. cbn in Hcb.
    destruct (Z.leb_spec n 0) as [| Hpos]; [discriminate |].
    destruct (encrypt_in_place _ _ _) as [tx' enc]. cbn in Hcb.
    pose proof (send_range (send_res e) n ltac:(lia)) as Hsend.
    unfold interlock, drain_bounds, pending_ok in Hinv.
    destruct Hinv as ((Hrw & Hrr) & (Htxb & Hrxb) & Hcbk).
    rewrite Hlr in Hrw.
    destruct (w_remote_write c) eqn:Hw; [discriminate |].
    destruct (Z.ltb_spec (send (send_res e) n) 0).
    + destruct (errno_again (send_res e)); [| discriminate].
      injection Hcb as <- <-. show_inv Hst. finish_inv.
    + destruct (Z.ltb_spec (send (send_res e) n) n).
      * injection Hcb as <- <-. show_inv Hst. finish_inv.
      * injection Hcb as <- <-. show_inv Hst. rewrite Hlr, Hw. finish_inv.
Qed.

Lemma inv_remote_read e c c' fx :
  inv c -> w_remote_read c = true ->
  remote_read_cb e c = Live c' fx -> inv c'.
Proof.
  intros Hinv Hlr Hcb.
  unfold remote_read_cb in Hcb. unfold inv in Hinv.
  destruct (state c) eqn:Hst; cbn in Hcb; rewrite ?Hst in Hcb;
    try discriminate.
  - destruct Hinv as [Hw Hcbk]. use_watchers Hw.
    destruct (recv (recv_res e) (rx_buf c)) as [n rx]. cbn in Hcb.
    destruct (negb (n =? 4)); [discriminate |].
    destruct (decrypt_in_place _ _ _) as [rx' enc]. cbn in Hcb.
    destruct (load_be32 rx' 0 =? MAGIC); injection Hcb as <- <-.
    all: unfold inv, watchers; cbn; rewrite ?E, ?E0, ?E1, ?E2; auto.
  - pose proof (recv_le (recv_res e) (rx_buf c)) as Hle.
    destruct (recv (recv_res e) (rx_buf c)) as [n rx] eqn:Hrecv.
    cbn [fst] in Hle. cbn in Hcb.
    destruct (Z.leb_spec n 0) as [| Hpos]; [discriminate |].
    destruct (decrypt_in_place _ _ _) as [rx' enc]. cbn in Hcb.
    pose proof (send_range (send_res e) n ltac:(lia)) as Hsend.
    unfold interlock, drain_bounds, pending_ok in Hinv.
    destruct Hinv as ((Hrw & Hrr) & (Htxb & Hrxb) & Hcbk).
    rewrite Hlr in Hrr.
    destruct (w_local_write c) eqn:Hlw; [discriminate |].
    destruct (Z.ltb_spec (send (send_res e) n) 0).
    + destruct (errno_again (send_res e)); [| discriminate].
      injection Hcb as <- <-. show_inv Hst. finish_inv.
    + destruct (Z.ltb_spec (send (send_res e) n) n).
      * injection Hcb as <- <-. show_inv Hst. finish_inv.
      * injection Hcb as <- <-. show_inv Hst. rewrite Hlr, Hlw. finish_inv.
Qed.

Lemma inv_local_write e c c' fx :
  inv c -> w_local_write c = true ->
  local_write_cb e c = Live c' fx -> inv c'.
Proof.
  intros Hinv Hlw Hcb.
  unfold local_write_cb, close_wait in Hcb. unfold inv in Hinv.
  destruct (state c) eqn:Hst; cbn in Hcb; rewrite ?Hst in Hcb;
    try discriminate.
  1-5: match type of Hinv with
       | _ /\ _ => destruct Hinv as [Hw Hcbk]
       | _ => rename Hinv into Hw
       end; use_watchers Hw.
  1-5: destruct (negb _); [discriminate |].
  1-5: try (destruct (mem_new_ok e); [| discriminate]).
  1-5: injection Hcb as <- <-.
  1-5: unfold inv, watchers, interlock, drain_bounds, pending_ok; cbn.
  1-5: rewrite ?E, ?E0, ?E1, ?E2; auto.
  - repeat split; intros; try discriminate; assumption.
  - destruct (Z.ltb_spec 0 (rx_bytes c)) as [Hpos |]; [| discriminate].
    cbn in Hcb.
    pose proof (send_range (send_res e) (rx_bytes c) ltac:(lia)) as Hsend.
    unfold interlock, drain_bounds, pending_ok in Hinv.
    destruct Hinv as ((Hrw & Hrr) & (Htxb & Hrxb) & Hcbk).
    specialize (Hrxb Hlw). rewrite Hlw in Hrr.
    destruct (Z.ltb_spec (send (send_res e) (rx_bytes c)) 0).
    + destruct (errno_again (send_res e)); [| discriminate].
      injection Hcb as <- <-. unfold inv. rewrite Hst.
      unfold interlock, drain_bounds, pending_ok. rewrite Hlw. finish_inv.
    + destruct (Z.ltb_spec (send (send_res e) (rx_bytes c)) (rx_bytes c)).
      * injection Hcb as <- <-. show_inv Hst. rewrite Hlw. finish_inv.
      * injection Hcb as <- <-. show_inv Hst. finish_inv.
Qed.

Lemma inv_remote_write e c c' fx :
  inv c -> w_remote_write c = true ->
  w_remote_write_cb c = RemoteWriteCb ->
  remote_write_cb e c = Live c' fx -> inv c'.
Proof.
  intros Hinv Hrw Hk Hcb.
  unfold remote_write_cb in Hcb. unfold inv in Hinv.
  destruct (state c) eqn:Hst; cbn in Hcb; rewrite ?Hst in Hcb;
    try discriminate.
  - destruct Hinv as [Hw Hcbk]. use_watchers Hw.
    destruct (negb _); [discriminate |].
    injection Hcb as <- <-.
    unfold inv, watchers; cbn; rewrite ?E, ?E0, ?E1, ?E2; auto.
  - destruct (Z.ltb_spec 0 (tx_bytes c)) as [Hpos |]; [| discriminate].
    cbn in Hcb.
    pose proof (send_range (send_res e) (tx_bytes c) ltac:(lia)) as Hsend.
    unfold interlock, drain_bounds, pending_ok in Hinv.
    destruct Hinv as ((Hlr & Hrr) & (Htxb & Hrxb) & Hcbk).
    specialize (Htxb Hrw). rewrite Hrw in Hlr.
    destruct (Z.ltb_spec (send (send_res e) (tx_bytes c)) 0).
    + destruct (errno_again (send_res e)); [| discriminate].
      injection Hcb as <- <-. unfold inv. rewrite Hst.
      unfold interlock, drain_bounds, pending_ok. rewrite Hrw. finish_inv.
    + destruct (Z.ltb_spec (send (send_res e) (tx_bytes c)) (tx_bytes c)).
      * injection Hcb as <- <-. show_inv Hst. rewrite Hrw. finish_inv.
      * injection Hcb as <- <-. show_inv Hst. finish_inv.
Qed.

Lemma inv_connect e c c' fx :
  inv c -> connect_cb e c = Live c' fx -> inv c'.
Proof.
  intros Hinv Hcb.
  unfold connect_cb in Hcb. unfold inv in Hinv.
  destruct (state c) eqn:Hst; cbn in Hcb; try discriminate.
  destruct Hinv as [Hw Hcbk]. use_watchers Hw.
  destruct (so_error e =? 0); injection Hcb as <- <-.
  all: unfold inv, watchers; cbn; rewrite ?E, ?E0, ?E1, ?E2; auto.
Qed.

(** Every block the loop holds satisfies [inv]. *)
Lemma reachable_inv servers c timer : reachable servers c timer -> inv c.
Proof.
  induction 1 as [fd blank c fx Hacc | c timer ev e c' fx Hreach IH Hd].
  - exact (inv_accept fd blank c fx Hacc).
  - destruct ev; cbn in Hd.
    + destruct (w_local_read c) eqn:Hw; [| discriminate].
      injection Hd as Hd. exact (inv_local_read servers e c c' fx IH Hw Hd).
    + destruct (w_local_write c) eqn:Hw; [| discriminate].
      injection Hd as Hd. exact (inv_local_write e c c' fx IH Hw Hd).
    + destruct (w_remote_read c) eqn:Hw; [| discriminate].
      injection Hd as Hd. exact (inv_remote_read e c c' fx IH Hw Hd).
    + destruct (w_remote_write c) eqn:Hw; [| discriminate].
      destruct (w_remote_write_cb c) eqn:Hk; [discriminate | |];
        injection Hd as Hd.
      * exact (inv_connect e c c' fx IH Hd).
      * exact (inv_remote_write e c c' fx IH Hw Hk Hd).
    + destruct timer; [| discriminate].
      injection Hd as Hd. unfold closewait_cb in Hd.
      destruct (state c); discriminate.
Qed.

End ClientInvariant.

(** * The relay handlers of the client, outcome by outcome *)

Section ClientRelay.
Context `{Collaborators}.
Import Client.

Ltac enter_estab Hst := rewrite Hst; cbn; rewrite ?Hst; cbn.

Ltac enter_relay Hst Hrecv Hd :=
  enter_estab Hst;
  rewrite ?Hrecv, ?recv_data; cbn;
  rewrite ?received_positive by exact Hd.

(** ** Local to remote: [local_read_cb] reads into [tx_buf] *)

Lemma relay_read_full servers e c d room :
  state c = ESTAB -> recv_res e = RecvData d -> d <> [] ->
  send_res e = SendRoom room ->
  Z.of_nat (length (firstn (Z.to_nat BUF_SIZE) d)) <= Z.of_N room ->
  exists c' fx,
    local_read_cb servers e c = Live c' fx
    /\ state c' = ESTAB /\ watchers c' = watchers c
    /\ tx_bytes c' = Z.of_nat (length (firstn (Z.to_nat BUF_SIZE) d))
    /\ tx_offset c' = tx_offset c
    /\ rx_bytes c' = rx_bytes c /\ rx_offset c' = rx_offset c.
Proof.
  intros Hst Hrecv Hd Hsend Hroom.
  unfold local_read_cb. enter_relay Hst Hrecv Hd.
  destruct (encrypt_in_place _ _ _) as [tx enc]. cbn.
  rewrite Hsend, send_all by lia.
  set (n := Z.of_nat _) in *.
  assert (Hn : 0 < n).
  { pose proof (received_positive d Hd) as Hp. apply Z.leb_gt in Hp. exact Hp. }
  destruct (Z.ltb_spec n 0); [lia |].
  rewrite Z.ltb_irrefl.
  do 2 eexists. split; [reflexivity |]. cbn. rewrite Hst.
  repeat split; reflexivity.
Qed.

Lemma relay_read_partial servers e c d room :
  state c = ESTAB -> recv_res e = RecvData d -> d <> [] ->
  send_res e = SendRoom room ->
  Z.of_N room < Z.of_nat (length (firstn (Z.to_nat BUF_SIZE) d)) ->
  exists c' fx,
    local_read_cb servers e c = Live c' fx
    /\ state c' = ESTAB
    /\ w_local_read c' = false /\ w_remote_write c' = true
    /\ w_remote_read c' = w_remote_read c
    /\ w_local_write c' = w_local_write c
    /\ tx_offset c' = Z.of_N room
    /\ tx_bytes c'
       = Z.of_nat (length (firstn (Z.to_nat BUF_SIZE) d)) - Z.of_N room
    /\ rx_bytes c' = rx_bytes c /\ rx_offset c' = rx_offset c.
Proof.
  intros Hst Hrecv Hd Hsend Hroom.
  unfold local_read_cb. enter_relay Hst Hrecv Hd.
  destruct (encrypt_in_place _ _ _) as [tx enc]. cbn.
  rewrite Hsend. unfold send.
  set (n := Z.of_nat _) in *.
  replace (Z.min (Z.of_N room) (Z.max 0 n)) with (Z.of_N room) by lia.
  destruct (Z.ltb_spec (Z.of_N room) 0); [lia |].
  destruct (Z.ltb_spec (Z.of_N room) n); [| lia].
  do 2 eexists. split; [reflexivity |]. cbn. rewrite Hst.
  repeat split; reflexivity.
Qed.

Lemma relay_read_again servers e c d :
  state c = ESTAB -> recv_res e = RecvData d -> d <> [] ->
  send_res e = SendFail true ->
  exists c' fx,
    local_read_cb servers e c = Live c' fx
    /\ state c' = ESTAB
    /\ w_local_read c' = false /\ w_remote_write c' = true
    /\ w_remote_read c' = w_remote_read c
    /\ w_local_write c' = w_local_write c
    /\ tx_offset c' = 0
    /\ tx_bytes c' = Z.of_nat (length (firstn (Z.to_nat BUF_SIZE) d))
    /\ rx_bytes c' = rx_bytes c /\ rx_offset c' = rx_offset c.
Proof.
  intros Hst Hrecv Hd Hsend.
  unfold local_read_cb. enter_relay Hst Hrecv Hd.
  destruct (encrypt_in_place _ _ _) as [tx enc]. cbn.
  rewrite Hsend. cbn.
  do 2 eexists. split; [reflexivity |]. cbn. rewrite Hst.
  repeat split; reflexivity.
Qed.

(** ** Local to remote: [remote_write_cb] drains [tx_buf] *)

Lemma relay_drain_full e c room :
  state c = ESTAB -> 0 < tx_bytes c ->
  send_res e = SendRoom room -> tx_bytes c <= Z.of_N room ->
  exists c' fx,
    remote_write_cb e c = Live c' fx
    /\ state c' = ESTAB
    /\ w_local_read c' = true /\ w_remote_write c' = false
    /\ w_remote_read c' = w_remote_read c
    /\ w_local_write c' = w_local_write c
    /\ tx_offset c' = tx_offset c /\ tx_bytes c' = tx_bytes c
    /\ rx_bytes c' = rx_bytes c /\ rx_offset c' = rx_offset c.
Proof.
  intros Hst Hpos Hsend Hroom.
  unfold remote_write_cb. enter_estab Hst.
  destruct (Z.ltb_spec 0 (tx_bytes c)); [| lia]. cbn.
  rewrite Hsend, send_all by lia.
  destruct (Z.ltb_spec (tx_bytes c) 0); [lia |].
  rewrite Z.ltb_irrefl.
  do 2 eexists. split; [reflexivity |]. cbn. rewrite Hst.
  repeat split; reflexivity.
Qed.

Lemma relay_drain_partial e c room :
  state c = ESTAB -> 0 < tx_bytes c ->
  send_res e = SendRoom room -> Z.of_N room < tx_bytes c ->
  exists c' fx,
    remote_write_cb e c = Live c' fx
    /\ state c' = ESTAB /\ watchers c' = watchers c
    /\ tx_offset c' = tx_offset c + Z.of_N room
    /\ tx_bytes c' = tx_bytes c - Z.of_N room
    /\ rx_bytes c' = rx_bytes c /\ rx_offset c' = rx_offset c.
Proof.
  intros Hst Hpos Hsend Hroom.
  unfold remote_write_cb. enter_estab Hst.
  destruct (Z.ltb_spec 0 (tx_bytes c)); [| lia]. cbn.
  rewrite Hsend. unfold send.
  replace (Z.min (Z.of_N room) (Z.max 0 (tx_bytes c))) with (Z.of_N room)
    by lia.
  destruct (Z.ltb_spec (Z.of_N room) 0); [lia |].
  destruct (Z.ltb_spec (Z.of_N room) (tx_bytes c)); [| lia].
  do 2 eexists. split; [reflexivity |]. cbn. rewrite Hst.
  repeat split; reflexivity.
Qed.

Lemma relay_drain_again e c :
  state c = ESTAB -> 0 < tx_bytes c -> send_res e = SendFail true ->
  remote_write_cb e c = Live c [].
Proof.
  intros Hst Hpos Hsend.
  unfold remote_write_cb. enter_estab Hst.
  destruct (Z.ltb_spec 0 (tx_bytes c)); [| lia]. cbn.
  rewrite Hsend. cbn. reflexivity.
Qed.

(** ** Remote to local: [remote_read_cb] reads into [rx_buf] *)

Lemma back_read_full e c d room :
  state c = ESTAB -> recv_res e = RecvData d -> d <> [] ->
  send_res e = SendRoom room ->
  Z.of_nat (length (firstn (Z.to_nat BUF_SIZE) d)) <= Z.of_N room ->
  exists c' fx,
    remote_read_cb e c = Live c' fx
    /\ state c' = ESTAB /\ watchers c' = watchers c
    /\ rx_bytes c' = Z.of_nat (length (firstn (Z.to_nat BUF_SIZE) d))
    /\ rx_offset c' = rx_offset c
    /\ tx_bytes c' = tx_bytes c /\ tx_offset c' = tx_offset c.
Proof.
  intros Hst Hrecv Hd Hsend Hroom.
  unfold remote_read_cb. enter_relay Hst Hrecv Hd.
  destruct (decrypt_in_place _ _ _) as [rx enc]. cbn.
  rewrite Hsend, send_all by lia.
  set (n := Z.of_nat _) in *.
  assert (Hn : 0 < n).
  { pose proof (received_positive d Hd) as Hp. apply Z.leb_gt in Hp. exact Hp. }
  destruct (Z.ltb_spec n 0); [lia |].
  rewrite Z.ltb_irrefl.
  do 2 eexists. split; [reflexivity |]. cbn. rewrite Hst.
  repeat split; reflexivity.
Qed.

Lemma back_read_partial e c d room :
  state c = ESTAB -> recv_res e = RecvData d -> d <> [] ->
  send_res e = SendRoom room ->
  Z.of_N room < Z.of_nat (length (firstn (Z.to_nat BUF_SIZE) d)) ->
  exists c' fx,
    remote_read_cb e c = Live c' fx
    /\ state c' = ESTAB
    /\ w_remote_read c' = false /\ w_local_write c' = true
    /\ w_local_read c' = w_local_read c
    /\ w_remote_write c' = w_remote_write c
    /\ rx_offset c' = Z.of_N room
    /\ rx_bytes c'
       = Z.of_nat (length (firstn (Z.to_nat BUF_SIZE) d)) - Z.of_N room
    /\ tx_bytes c' = tx_bytes c /\ tx_offset c' = tx_offset c.
Proof.
  intros Hst Hrecv Hd Hsend Hroom.
  unfold remote_read_cb. enter_relay Hst Hrecv Hd.
  destruct (decrypt_in_place _ _ _) as [rx enc]. cbn.
  rewrite Hsend. unfold send.
  set (n := Z.of_nat _) in *.
  replace (Z.min (Z.of_N room) (Z.max 0 n)) with (Z.of_N room) by lia.
  destruct (Z.ltb_spec (Z.of_N room) 0); [lia |].
  destruct (Z.ltb_spec (Z.of_N room) n); [| lia].
  do 2 eexists. split; [reflexivity |]. cbn. rewrite Hst.
  repeat split; reflexivity.
Qed.

Lemma back_read_again e c d :
  state c = ESTAB -> recv_res e = RecvData d -> d <> [] ->
  send_res e = SendFail true ->
  exists c' fx,
    remote_read_cb e c = Live c' fx
    /\ state c' = ESTAB
    /\ w_remote_read c' = false /\ w_local_write c' = true
    /\ w_local_read c' = w_local_read c
    /\ w_remote_write c' = w_remote_write c
    /\ rx_offset c' = 0
    /\ rx_bytes c' = Z.of_nat (length (firstn (Z.to_nat BUF_SIZE) d))
    /\ tx_bytes c' = tx_bytes c /\ tx_offset c' = tx_offset c.
Proof.
  intros Hst Hrecv Hd Hsend.
  unfold remote_read_cb. enter_relay Hst Hrecv Hd.
  destruct (decrypt_in_place _ _ _) as [rx enc]. cbn.
  rewrite Hsend. cbn.
  do 2 eexists. split; [reflexivity |]. cbn. rewrite Hst.
  repeat split; reflexivity.
Qed.

(** ** Remote to local: [local_write_cb] drains [rx_buf] *)

Lemma back_drain_full e c room :
  state c = ESTAB -> 0 < rx_bytes c ->
  send_res e = SendRoom room -> rx_bytes c <= Z.of_N room ->
  exists c' fx,
    local_write_cb e c = Live c' fx
    /\ state c' = ESTAB
    /\ w_remote_read c' = true /\ w_local_write c' = false
    /\ w_local_read c' = w_local_read c
    /\ w_remote_write c' = w_remote_write c
    /\ rx_offset c' = rx_offset c /\ rx_bytes c' = rx_bytes c
    /\ tx_bytes c' = tx_bytes c /\ tx_offset c' = tx_offset c.
Proof.
  intros Hst Hpos Hsend Hroom.
  unfold local_write_cb. enter_estab Hst.
  destruct (Z.ltb_spec 0 (rx_bytes c)); [| lia]. cbn.
  rewrite Hsend, send_all by lia.
  destruct (Z.ltb_spec (rx_bytes c) 0); [lia |].
  rewrite Z.ltb_irrefl.
  do 2 eexists. split; [reflexivity |]. cbn. rewrite Hst.
  repeat split; reflexivity.
Qed.

Lemma back_drain_partial e c room :
  state c = ESTAB -> 0 < rx_bytes c ->
  send_res e = SendRoom room -> Z.of_N room < rx_bytes c ->
  exists c' fx,
    local_write_cb e c = Live c' fx
    /\ state c' = ESTAB /\ watchers c' = watchers c
    /\ rx_offset c' = rx_offset c + Z.of_N room
    /\ rx_bytes c' = rx_bytes c - Z.of_N room
    /\ tx_bytes c' = tx_bytes c /\ tx_offset c' = tx_offset c.
Proof.
  intros Hst Hpos Hsend Hroom.
  unfold local_write_cb. enter_estab Hst.
  destruct (Z.ltb_spec 0 (rx_bytes c)); [| lia]. cbn.
  rewrite Hsend. unfold send.
  replace (Z.min (Z.of_N room) (Z.max 0 (rx_bytes c))) with (Z.of_N room)
    by lia.
  destruct (Z.ltb_spec (Z.of_N room) 0); [lia |].
  destruct (Z.ltb_spec (Z.of_N room) (rx_bytes c)); [| lia].
  do 2 eexists. split; [reflexivity |]. cbn. rewrite Hst.
  repeat split; reflexivity.
Qed.

Lemma back_drain_again e c :
  state c = ESTAB -> 0 < rx_bytes c -> send_res e = SendFail true ->
  local_write_cb e c = Live c [].
Proof.
  intros Hst Hpos Hsend.
  unfold local_write_cb. enter_estab Hst.
  destruct (Z.ltb_spec 0 (rx_bytes c)); [| lia]. cbn.
  rewrite Hsend. cbn. reflexivity.
Qed.

End ClientRelay.

(** * Reachable blocks *)

Section ClientRuns.
Context `{Collaborators}.
Import Client.

Lemma run_reachable servers evs :
  forall c timer acc c' timer' acc',
    reachable servers c timer ->
    run servers evs c timer acc = Running c' timer' acc' ->
    reachable servers c' timer'.
Proof.
  induction evs as [| [ev e] rest IH]; intros c timer acc c' timer' acc' Hr Hrun.
  - cbn in Hrun. injection Hrun as <- <- _. exact Hr.
  - cbn [run] in Hrun.
    destruct (dispatch servers ev e timer c) as [[c1 fx | fx |] |] eqn:Hd;
      try discriminate.
    + apply (IH c1 (timer || starts_timer fx) (acc ++ fx) c' timer' acc');
        [| exact Hrun].
      exact (reach_step servers c timer ev e c1 fx Hr Hd).
    + destruct rest; discriminate.
Qed.

(** In the relay phase a callback that returns leaves the block in the
    relay phase. *)
Lemma estab_stays servers ev e timer c c' fx :
  state c = ESTAB ->
  dispatch servers ev e timer c = Some (Live c' fx) -> state c' = ESTAB.
Proof.
  intros Hst Hd. destruct ev; cbn in Hd.
  - destruct (w_local_read c); [| discriminate]. injection Hd as Hd.
    unfold local_read_cb in Hd. rewrite Hst in Hd. cbn in Hd.
    rewrite ?Hst in Hd. cbn in Hd.
    destruct (recv _ _) as [n tx]. cbn in Hd.
    destruct (n <=? 0); [discriminate |].
    destruct (encrypt_in_place _ _ _) as [tx' enc]. cbn in Hd.
    destruct (send _ _ <? 0);
      [destruct (errno_again _); [| discriminate] |
       destruct (send _ _ <? n)];
      injection Hd as <- <-; cbn; exact Hst.
  - destruct (w_local_write c); [| discriminate]. injection Hd as Hd.
    unfold local_write_cb in Hd. rewrite Hst in Hd. cbn in Hd.
    rewrite ?Hst in Hd. cbn in Hd.
    destruct (negb _); [discriminate |]. cbn in Hd.
    destruct (send _ _ <? 0);
      [destruct (errno_again _); [| discriminate] |
       destruct (send _ _ <? _)];
      injection Hd as <- <-; cbn; exact Hst.
  - destruct (w_remote_read c); [| discriminate]. injection Hd as Hd.
    unfold remote_read_cb in Hd. rewrite Hst in Hd. cbn in Hd.
    rewrite ?Hst in Hd. cbn in Hd.
    destruct (recv _ _) as [n rx]. cbn in Hd.
    destruct (n <=? 0); [discriminate |].
    destruct (decrypt_in_place _ _ _) as [rx' enc]. cbn in Hd.
    destruct (send _ _ <? 0);
      [destruct (errno_again _); [| discriminate] |
       destruct (send _ _ <? n)];
      injection Hd as <- <-; cbn; exact Hst.
  - destruct (w_remote_write c); [| discriminate].
    destruct (w_remote_write_cb c); [discriminate | |]; injection Hd as Hd.
    + unfold connect_cb in Hd. rewrite Hst in Hd. discriminate.
    + unfold remote_write_cb in Hd. rewrite Hst in Hd. cbn in Hd.
      rewrite ?Hst in Hd. cbn in Hd.
      destruct (negb _); [discriminate |]. cbn in Hd.
      destruct (send _ _ <? 0);
        [destruct (errno_again _); [| discriminate] |
         destruct (send _ _ <? _)];
        injection Hd as <- <-; cbn; exact Hst.
  - destruct timer; [| discriminate]. injection Hd as Hd.
    unfold closewait_cb in Hd. rewrite Hst in Hd. discriminate.
Qed.

End ClientRuns.

(** The sample connections are blocks the loop can hold. *)
Lemma sample_after_reachable evs c :
  Client.reachable Sample.servers c false ->
  Sample.settled evs c = true ->
  Client.reachable Sample.servers (Sample.after evs c) false.
Proof.
  intros Hr Hs. unfold Sample.settled, Sample.after in *.
  destruct (Client.run Sample.servers evs c false []) as [c' t fx | |] eqn:Hrun;
    try discriminate.
  destruct t; [discriminate |].
  exact (run_reachable Sample.servers evs c false [] c' false fx Hr Hrun).
Qed.

Lemma sample_accepted_reachable :
  Client.reachable Sample.servers Sample.accepted false.
Proof.
  apply (Client.reach_accept Sample.servers 5 Sample.blank Sample.accepted []).
  reflexivity.
Qed.

Lemma sample_established_reachable :
  Client.reachable Sample.servers Sample.established false.
Proof.
  apply sample_after_reachable; [| vm_compute; reflexivity].
  apply sample_after_reachable; [| vm_compute; reflexivity].
  exact sample_accepted_reachable.
Qed.

Lemma sample_pending_reachable :
  Client.reachable Sample.servers Sample.pending false.
Proof.
  apply sample_after_reachable; [| vm_compute; reflexivity].
  exact sample_established_reachable.
Qed.

Lemma sample_stale_reachable :
  Client.reachable Sample.servers Sample.stale false.
Proof.
  apply sample_after_reachable; [| vm_compute; reflexivity].
  exact sample_established_reachable.
Qed.

(** * C5: the half-duplex interlock of the relay *)

(** C5.  Every block the loop holds in [ESTAB] has, on each pipe, exactly
    one of the source's read watcher and the sink's write watcher active,
    and every callback that returns leaves it so, still in [ESTAB].  On the
    local-to-remote pipe ([tx_buf]): a read whose bytes the sink takes at
    once leaves the reader armed and the writer disarmed; a partial write
    or a would-block disarms the reader and arms the writer; a writer that
    drains the buffer re-arms the reader and disarms itself.  The same on
    the remote-to-local pipe ([rx_buf]). *)
Theorem relay_interlock `{Collaborators} servers c timer :
  Client.reachable servers c timer -> Client.state c = Client.ESTAB ->
  (Client.w_local_read c = negb (Client.w_remote_write c)
   /\ Client.w_remote_read c = negb (Client.w_local_write c))
  /\ (forall ev e c' fx,
        Client.dispatch servers ev e timer c = Some (Client.Live c' fx) ->
        Client.state c' = Client.ESTAB
        /\ Client.w_local_read c' = negb (Client.w_remote_write c')
        /\ Client.w_remote_read c' = negb (Client.w_local_write c'))
  /\ (forall e d room,
        Client.w_local_read c = true ->
        recv_res e = RecvData d -> d <> [] ->
        send_res e = SendRoom room ->
        Z.of_nat (length (firstn (Z.to_nat BUF_SIZE) d)) <= Z.of_N room ->
        exists c' fx,
          Client.local_read_cb servers e c = Client.Live c' fx
          /\ Client.w_local_read c' = true
          /\ Client.w_remote_write c' = false)
  /\ (forall e d,
        Client.w_local_read c = true ->
        recv_res e = RecvData d -> d <> [] ->
        (send_res e = SendFail true
         \/ exists room,
             send_res e = SendRoom room
             /\ Z.of_N room
                < Z.of_nat (length (firstn (Z.to_nat BUF_SIZE) d))) ->
        exists c' fx,
          Client.local_read_cb servers e c = Client.Live c' fx
          /\ Client.w_local_read c' = false
          /\ Client.w_remote_write c' = true)
  /\ (forall e room,
        Client.w_remote_write c = true ->
        send_res e = SendRoom room -> Client.tx_bytes c <= Z.of_N room ->
        exists c' fx,
          Client.remote_write_cb e c = Client.Live c' fx
          /\ Client.w_local_read c' = true
          /\ Client.w_remote_write c' = false)
  /\ (forall e d room,
        Client.w_remote_read c = true ->
        recv_res e = RecvData d -> d <> [] ->
        send_res e = SendRoom room ->
        Z.of_nat (length (firstn (Z.to_nat BUF_SIZE) d)) <= Z.of_N room ->
        exists c' fx,
          Client.remote_read_cb e c = Client.Live c' fx
          /\ Client.w_remote_read c' = true
          /\ Client.w_local_write c' = false)
  /\ (forall e d,
        Client.w_remote_read c = true ->
        recv_res e = RecvData d -> d <> [] ->
        (send_res e = SendFail true
         \/ exists room,
             send_res e = SendRoom room
             /\ Z.of_N room
                < Z.of_nat (length (firstn (Z.to_nat BUF_SIZE) d))) ->
        exists c' fx,
          Client.remote_read_cb e c = Client.Live c' fx
          /\ Client.w_remote_read c' = false
          /\ Client.w_local_write c' = true)
  /\ (forall e room,
        Client.w_local_write c = true ->
        send_res e = SendRoom room -> Client.rx_bytes c <= Z.of_N room ->
        exists c' fx,
          Client.local_write_cb e c = Client.Live c' fx
          /\ Client.w_remote_read c' = true
          /\ Client.w_local_write c' = false).
Proof.
  intros Hreach Hst.
  pose proof (reachable_inv servers c timer Hreach) as Hinv.
  unfold Client.inv in Hinv. rewrite Hst in Hinv.
  destruct Hinv as ((Hlr & Hrr) & (Htxb & Hrxb) & Hcbk).
  split; [split; assumption |].
  split.
  { intros ev e c' fx Hd.
    pose proof (estab_stays servers ev e timer c c' fx Hst Hd) as Hst'.
    pose proof (reachable_inv servers c' _
                  (Client.reach_step servers c timer ev e c' fx Hreach Hd))
      as Hinv'.
    unfold Client.inv in Hinv'. rewrite Hst' in Hinv'.
    destruct Hinv' as ((Hlr' & Hrr') & _).
    repeat split; assumption. }
  split.
  { intros e d room Hw Hrecv Hd Hsend Hroom.
    destruct (relay_read_full servers e c d room Hst Hrecv Hd Hsend Hroom)
      as (c' & fx & Hcb & _ & Hwat & _).
    exists c', fx. unfold Client.watchers in Hwat.
    injection Hwat as E1 _ _ E4.
    rewrite E1, E4, Hw. rewrite Hw in Hlr.
    destruct (Client.w_remote_write c); [discriminate | auto]. }
  split.
  { intros e d Hw Hrecv Hd [Hsend | (room & Hsend & Hroom)].
    - destruct (relay_read_again servers e c d Hst Hrecv Hd Hsend)
        as (c' & fx & Hcb & _ & E1 & E2 & _).
      exists c', fx. auto.
    - destruct (relay_read_partial servers e c d room Hst Hrecv Hd Hsend
                  Hroom) as (c' & fx & Hcb & _ & E1 & E2 & _).
      exists c', fx. auto. }
  split.
  { intros e room Hw Hsend Hroom.
    destruct (Htxb Hw) as (_ & Hpos & _).
    destruct (relay_drain_full e c room Hst Hpos Hsend Hroom)
      as (c' & fx & Hcb & _ & E1 & E2 & _).
    exists c', fx. auto. }
  split.
  { intros e d room Hw Hrecv Hd Hsend Hroom.
    destruct (back_read_full e c d room Hst Hrecv Hd Hsend Hroom)
      as (c' & fx & Hcb & _ & Hwat & _).
    exists c', fx. unfold Client.watchers in Hwat.
    injection Hwat as _ E2 E3 _.
    rewrite E2, E3, Hw. rewrite Hw in Hrr.
    destruct (Client.w_local_write c); [discriminate | auto]. }
  split.
  { intros e d Hw Hrecv Hd [Hsend | (room & Hsend & Hroom)].
    - destruct (back_read_again e c d Hst Hrecv Hd Hsend)
        as (c' & fx & Hcb & _ & E1 & E2 & _).
      exists c', fx. auto.
    - destruct (back_read_partial e c d room Hst Hrecv Hd Hsend Hroom)
        as (c' & fx & Hcb & _ & E1 & E2 & _).
      exists c', fx. auto. }
  intros e room Hw Hsend Hroom.
  destruct (Hrxb Hw) as (_ & Hpos & _).
  destruct (back_drain_full e c room Hst Hpos Hsend Hroom)
    as (c' & fx & Hcb & _ & E1 & E2 & _).
  exists c', fx. auto.
Qed.

Lemma relay_interlock_witness :
  (Client.w_local_read Sample.pending
   = negb (Client.w_remote_write Sample.pending)
   /\ Client.w_remote_read Sample.pending
      = negb (Client.w_local_write Sample.pending))
  /\ exists c' fx,
      Client.remote_write_cb (Sample.io [] 65536) Sample.pending
      = Client.Live c' fx
      /\ Client.w_local_read c' = true
      /\ Client.w_remote_write c' = false.
Proof.
  destruct (relay_interlock Sample.servers Sample.pending false
              sample_pending_reachable)
    as (Hlock & _ & _ & _ & Hdrain & _).
  - vm_compute; reflexivity.
  - split; [exact Hlock |].
    apply (Hdrain (Sample.io [] 65536) 65536%N).
    + vm_compute; reflexivity.
    + reflexivity.
    + vm_compute; discriminate.
Defined.

Lemma sample_drained_reachable :
  Client.reachable Sample.servers Sample.drained false.
Proof.
  apply sample_after_reachable; [| vm_compute; reflexivity].
  exact sample_established_reachable.
Qed.

(** * C6: the bounds of the relay buffers *)

(** C6 as stated fails.  After a partial send of 5000 of 8192 bytes and the
    drain of the other 3192, [tx_offset] is still 5000 and the bounds hold;
    the next read of 8192 bytes that the server takes at once returns
    without touching [tx_offset], and [tx_bytes + tx_offset] is 13192. *)
Lemma stale_offset_breaks_bounds :
  Client.reachable Sample.servers Sample.drained false
  /\ Client.state Sample.drained = Client.ESTAB
  /\ Client.bounds Sample.drained = true
  /\ Client.is_live
       (Client.local_read_cb Sample.servers
          (Sample.io (Sample.chunk "b"%byte) 65536) Sample.drained) = true
  /\ Client.tx_bytes
       (Client.block_of Sample.drained
          (Client.local_read_cb Sample.servers
             (Sample.io (Sample.chunk "b"%byte) 65536) Sample.drained))
     = 8192
  /\ Client.tx_offset
       (Client.block_of Sample.drained
          (Client.local_read_cb Sample.servers
             (Sample.io (Sample.chunk "b"%byte) 65536) Sample.drained))
     = 5000
  /\ Client.bounds
       (Client.block_of Sample.drained
          (Client.local_read_cb Sample.servers
             (Sample.io (Sample.chunk "b"%byte) 65536) Sample.drained))
     = false.
Proof.
  split; [exact sample_drained_reachable |].
  repeat apply conj; vm_compute; reflexivity.
Qed.

(** C6, as the code has it.  In [ESTAB], while the writer of a pipe is
    armed (a send is pending), the offset of its buffer is not negative,
    the byte count is positive and their sum is at most 8192.  A read
    followed by a partial send of [n] bytes sets the offset to [n] and
    reduces the count by [n]; a drain step that sends [n] bytes of a
    pending buffer advances the offset by [n] and reduces the count by
    [n]; both leave the pipe within these bounds. *)
Theorem pending_buffer_within_bounds `{Collaborators} servers c timer :
  Client.reachable servers c timer -> Client.state c = Client.ESTAB ->
  (Client.w_remote_write c = true ->
   0 <= Client.tx_offset c /\ 0 < Client.tx_bytes c
   /\ Client.tx_bytes c + Client.tx_offset c <= BUF_SIZE)
  /\ (Client.w_local_write c = true ->
      0 <= Client.rx_offset c /\ 0 < Client.rx_bytes c
      /\ Client.rx_bytes c + Client.rx_offset c <= BUF_SIZE)
  /\ (forall e d room,
        recv_res e = RecvData d -> d <> [] ->
        send_res e = SendRoom room ->
        Z.of_N room < Z.of_nat (length (firstn (Z.to_nat BUF_SIZE) d)) ->
        exists c' fx,
          Client.local_read_cb servers e c = Client.Live c' fx
          /\ Client.w_remote_write c' = true
          /\ Client.tx_offset c' = Z.of_N room
          /\ Client.tx_bytes c'
             = Z.of_nat (length (firstn (Z.to_nat BUF_SIZE) d)) - Z.of_N room
          /\ 0 < Client.tx_bytes c'
          /\ Client.tx_bytes c' + Client.tx_offset c' <= BUF_SIZE)
  /\ (forall e room,
        Client.w_remote_write c = true ->
        send_res e = SendRoom room -> Z.of_N room < Client.tx_bytes c ->
        exists c' fx,
          Client.remote_write_cb e c = Client.Live c' fx
          /\ Client.w_remote_write c' = true
          /\ Client.tx_offset c' = Client.tx_offset c + Z.of_N room
          /\ Client.tx_bytes c' = Client.tx_bytes c - Z.of_N room
          /\ 0 <= Client.tx_offset c' /\ 0 < Client.tx_bytes c'
          /\ Client.tx_bytes c' + Client.tx_offset c' <= BUF_SIZE)
  /\ (forall e d room,
        recv_res e = RecvData d -> d <> [] ->
        send_res e = SendRoom room ->
        Z.of_N room < Z.of_nat (length (firstn (Z.to_nat BUF_SIZE) d)) ->
        exists c' fx,
          Client.remote_read_cb e c = Client.Live c' fx
          /\ Client.w_local_write c' = true
          /\ Client.rx_offset c' = Z.of_N room
          /\ Client.rx_bytes c'
             = Z.of_nat (length (firstn (Z.to_nat BUF_SIZE) d)) - Z.of_N room
          /\ 0 < Client.rx_bytes c'
          /\ Client.rx_bytes c' + Client.rx_offset c' <= BUF_SIZE)
  /\ (forall e room,
        Client.w_local_write c = true ->
        send_res e = SendRoom room -> Z.of_N room < Client.rx_bytes c ->
        exists c' fx,
          Client.local_write_cb e c = Client.Live c' fx
          /\ Client.w_local_write c' = true
          /\ Client.rx_offset c' = Client.rx_offset c + Z.of_N room
          /\ Client.rx_bytes c' = Client.rx_bytes c - Z.of_N room
          /\ 0 <= Client.rx_offset c' /\ 0 < Client.rx_bytes c'
          /\ Client.rx_bytes c' + Client.rx_offset c' <= BUF_SIZE).
Proof.
  intros Hreach Hst.
  pose proof (reachable_inv servers c timer Hreach) as Hinv.
  unfold Client.inv in Hinv. rewrite Hst in Hinv.
  destruct Hinv as (_ & (Htxb & Hrxb) & _).
  unfold Client.pending_ok in Htxb, Hrxb.
  split; [exact Htxb |]. split; [exact Hrxb |].
  split.
  { intros e d room Hrecv Hd Hsend Hroom.
    destruct (relay_read_partial servers e c d room Hst Hrecv Hd Hsend Hroom)
      as (c' & fx & Hcb & _ & _ & Hw & _ & _ & Hoff & Hn & _).
    exists c', fx. rewrite Hoff, Hn.
    pose proof (received_length d) as Hlen. unfold BUF_SIZE in *.
    repeat split; try assumption; lia. }
  split.
  { intros e room Hw Hsend Hroom.
    destruct (Htxb Hw) as (Hoff & Hpos & Hsum).
    destruct (relay_drain_partial e c room Hst Hpos Hsend Hroom)
      as (c' & fx & Hcb & _ & Hwat & Hoff' & Hn' & _).
    exists c', fx. unfold Client.watchers in Hwat.
    injection Hwat as _ _ _ E4. rewrite E4, Hoff', Hn'.
    repeat split; try assumption; lia. }
  split.
  { intros e d room Hrecv Hd Hsend Hroom.
    destruct (back_read_partial e c d room Hst Hrecv Hd Hsend Hroom)
      as (c' & fx & Hcb & _ & _ & Hw & _ & _ & Hoff & Hn & _).
    exists c', fx. rewrite Hoff, Hn.
    pose proof (received_length d) as Hlen. unfold BUF_SIZE in *.
    repeat split; try assumption; lia. }
  intros e room Hw Hsend Hroom.
  destruct (Hrxb Hw) as (Hoff & Hpos & Hsum).
  destruct (back_drain_partial e c room Hst Hpos Hsend Hroom)
    as (c' & fx & Hcb & _ & Hwat & Hoff' & Hn' & _).
  exists c', fx. unfold Client.watchers in Hwat.
  injection Hwat as _ E2 _ _. rewrite E2, Hoff', Hn'.
  repeat split; try assumption; lia.
Qed.

Lemma pending_buffer_within_bounds_witness :
  (0 <= Client.tx_offset Sample.pending /\ 0 < Client.tx_bytes Sample.pending
   /\ Client.tx_bytes Sample.pending + Client.tx_offset Sample.pending
      <= BUF_SIZE)
  /\ exists c' fx,
      Client.remote_write_cb (Sample.io [] 1000) Sample.pending
      = Client.Live c' fx
      /\ Client.w_remote_write c' = true
      /\ Client.tx_offset c' = Client.tx_offset Sample.pending + 1000
      /\ Client.tx_bytes c' = Client.tx_bytes Sample.pending - 1000
      /\ 0 <= Client.tx_offset c' /\ 0 < Client.tx_bytes c'
      /\ Client.tx_bytes c' + Client.tx_offset c' <= BUF_SIZE.
Proof.
  destruct (pending_buffer_within_bounds Sample.servers Sample.pending false
              sample_pending_reachable)
    as (Htx & _ & _ & Hdrain & _).
  - vm_compute; reflexivity.
  - split.
    + apply Htx. vm_compute; reflexivity.
    + apply (Hdrain (Sample.io [] 1000) 1000%N).
      * vm_compute; reflexivity.
      * reflexivity.
      * vm_compute; reflexivity.
Defined.

(** * The inner request of the client *)

Section RequestFrame.
Context `{Collaborators}.
Import Client.

Lemma be32_magic : be32 MAGIC = [x52; x6f; x6e; x61].
Proof. reflexivity. Qed.

Lemma cstr_length l : (length (cstr l) <= length l)%nat.
Proof.
  induction l as [| b r IH]; cbn [cstr length]; [lia |].
  destruct (byte_eqb b x00); cbn [length]; lia.
Qed.

Lemma length_utoa_loop fuel :
  forall v acc, (length (utoa_loop fuel v acc) <= length acc + fuel)%nat.
Proof.
  induction fuel as [| f IH]; intros v acc; cbn [utoa_loop]; [lia |].
  destruct (v / 10 =? 0); [cbn [length]; lia |].
  specialize (IH (v / 10) (digit (v mod 10) :: acc)). cbn [length] in IH. lia.
Qed.

Lemma length_utoa v : (length (utoa v) <= 10)%nat.
Proof. unfold utoa. apply (length_utoa_loop 10 v []). Qed.

Lemma length_inet_ntop4 a : (length (inet_ntop4 a) <= 43)%nat.
Proof.
  unfold inet_ntop4. rewrite !length_app. cbn [length].
  pose proof (length_utoa (u8 (peek a 0))).
  pose proof (length_utoa (u8 (peek a 1))).
  pose proof (length_utoa (u8 (peek a 2))).
  pose proof (length_utoa (u8 (peek a 3))).
  lia.
Qed.

(** What the parser hands to [strcpy] fits the two fields. *)
Lemma parse_request_lengths rx error host port :
  parse_request rx = (error, host, port) ->
  (length (cstr host) <= 256)%nat /\ (length (cstr port) <= 14)%nat.
Proof.
  unfold parse_request. intro Hp.
  destruct (byte_eqb (peek rx 3) x01);
    [| destruct (byte_eqb (peek rx 3) x03);
       [| destruct (byte_eqb (peek rx 3) x04)]];
    injection Hp as _ <- <-.
  - pose proof (cstr_length (inet_ntop4 (sub rx 4 4))).
    pose proof (length_inet_ntop4 (sub rx 4 4)).
    pose proof (cstr_length (utoa (load_be16 rx 8))).
    pose proof (length_utoa (load_be16 rx 8)). lia.
  - pose proof (cstr_length (sub rx 5 (Z.to_nat (u8 (peek rx 4))))) as Hc.
    assert (Hs : (length (sub rx 5 (Z.to_nat (u8 (peek rx 4)))) <= 255)%nat).
    { unfold sub. rewrite length_firstn.
      pose proof (u8_range (peek rx 4)). lia. }
    pose proof (cstr_length
                  (utoa (load_be16 rx (Z.to_nat (u8 (peek rx 4)) + 5)))).
    pose proof (length_utoa (load_be16 rx (Z.to_nat (u8 (peek rx 4)) + 5))).
    lia.
  - pose proof (cstr_length (inet_ntop6 (sub rx 4 16))).
    pose proof (inet_ntop6_length (sub rx 4 16)).
    pose proof (cstr_length (utoa (load_be16 rx 20))).
    pose proof (length_utoa (load_be16 rx 20)). lia.
  - cbn. lia.
Qed.

Lemma length_frame_head host port :
  (length (cstr host) <= 256)%nat -> (length (cstr port) <= 14)%nat ->
  length (frame_head_spec host port) = 276%nat.
Proof.
  intros Hh Hp. unfold frame_head_spec, field.
  rewrite !length_app, !repeat_length. cbn [length]. lia.
Qed.

(** The plain request: the stores of the handler give the layout of the
    specification, followed by the 236 bytes the key was derived from. *)
Lemma request_plain_layout tx rx host port :
  length tx = Z.to_nat BUF_SIZE -> length (sub rx 0 236) = 236%nat ->
  (length (cstr host) <= 256)%nat -> (length (cstr port) <= 14)%nat ->
  request_plain tx rx host port
  = frame_head_spec host port ++ sub rx 0 236 ++ skipn 512 tx.
Proof.
  intros Htx HIV Hh Hp. unfold BUF_SIZE in Htx.
  unfold request_plain, strcpy, bzero, frame_head_spec, field.
  rewrite be32_magic.
  set (IV := sub rx 0 236) in *.
  set (h := cstr host) in *. set (p := cstr port) in *.
  assert (S1 : memcpy tx 276 IV = firstn 276 tx ++ IV ++ skipn 512 tx).
  { unfold memcpy. rewrite HIV. reflexivity. }
  rewrite S1.
  rewrite (memcpy_head (firstn 276 tx) _ (repeat x00 276))
    by (rewrite repeat_length, length_firstn; lia).
  replace (repeat x00 276)
    with (repeat x00 4 ++ repeat x00 (length h + 1)
            ++ repeat x00 (256 - length h) ++ repeat x00 (length p + 1)
            ++ repeat x00 (14 - length p))
    by (rewrite <- !repeat_app; f_equal; lia).
  rewrite <- !app_assoc.
  rewrite (memcpy_head (repeat x00 4) _ [x52; x6f; x6e; x61]) by reflexivity.
  rewrite (memcpy_at [x52; x6f; x6e; x61] (repeat x00 (length h + 1)) _
             (h ++ [x00]) 4)
    by (rewrite ?repeat_length, ?length_app; cbn [length]; lia).
  rewrite (app_assoc (h ++ [x00])), (app_assoc [x52; x6f; x6e; x61]).
  rewrite (memcpy_at _ (repeat x00 (length p + 1)) _ (p ++ [x00]) 261)
    by (rewrite ?repeat_length, ?length_app, ?repeat_length;
        cbn [length]; lia).
  rewrite <- ?app_assoc. cbn [app].
  replace (257 - length h)%nat with (S (256 - length h)) by lia.
  replace (15 - length p)%nat with (S (14 - length p)) by lia.
  reflexivity.
Qed.

(** [rx_buf] still starts with the 236 random bytes once the key has been
    appended to them. *)
Lemma request_key_iv rx R srv k0 :
  length R = 236%nat -> length rx = Z.to_nat BUF_SIZE ->
  sub (fst (request_key rx R srv k0)) 0 236 = R.
Proof.
  intros HR Hrx. unfold BUF_SIZE in Hrx.
  unfold request_key. cbn [fst].
  rewrite firstn_all2 by lia.
  rewrite sub_memcpy_before by (rewrite ?length_memcpy; lia).
  rewrite <- HR. apply sub_memcpy_same. lia.
Qed.

(** [io_encrypt (tx_buf, 276, ...)] replaces the head and nothing else. *)
Lemma encrypt_head enc head rest :
  length head = 276%nat ->
  encrypt_in_place enc (head ++ rest) 276
  = (fst (io_encrypt enc head) ++ rest, snd (io_encrypt enc head)).
Proof.
  intro Hlen. unfold encrypt_in_place.
  rewrite (sub_head head rest 276 Hlen).
  pose proof (io_encrypt_length enc head) as Hct.
  destruct (io_encrypt enc head) as [ct enc']. cbn [fst snd] in *.
  rewrite (memcpy_head head rest ct) by lia. reflexivity.
Qed.

End RequestFrame.

Section RequestSteps.
Context `{Collaborators}.
Import Client.

(** The read handler on a request it accepts. *)
Lemma request_accepted conf e c d host port :
  wf c -> state c = NEGO_SENT ->
  recv_res e = RecvData d -> d <> [] ->
  parse_request (memcpy (bzero (rx_buf c) 263) 0
                   (firstn (Z.to_nat BUF_SIZE) d)) = (0, host, port) ->
  length (rand_iv e) = 236%nat -> length (key_stack e) = 64%nat ->
  0 <= socket_res e ->
  exists c',
    local_read_cb (setup_servers conf) e c
    = Live c' [Connect (socket_res e)]
    /\ state c' = CMD_RCVD /\ tx_bytes c' = 512
    /\ sock_remote c' = socket_res e
    /\ w_remote_write c' = true /\ w_remote_write_cb c' = ConnectCb
    /\ sub (tx_buf c') 0 512
       = fst (io_encrypt
                (enc_init
                   (kdf_spec (rand_iv e)
                      (psk (nth (Z.to_nat
                                   (select_server (rand_index e)
                                      (Z.of_nat
                                         (length (setup_servers conf)))))
                              (setup_servers conf) no_server))))
                (frame_head_spec host port))
         ++ rand_iv e
    /\ enc_evp c'
       = snd (io_encrypt
                (enc_init
                   (kdf_spec (rand_iv e)
                      (psk (nth (Z.to_nat
                                   (select_server (rand_index e)
                                      (Z.of_nat
                                         (length (setup_servers conf)))))
                              (setup_servers conf) no_server))))
                (frame_head_spec host port)).
Proof.
  intros [Hrx Htx] Hst Hrecv Hd Hparse HR Hk Hsock.
  destruct (parse_request_lengths _ _ _ _ Hparse) as [Hh Hp].
  set (srv := nth _ (setup_servers conf) no_server).
  destruct (psk_of_table conf
              (Z.to_nat (select_server (rand_index e)
                           (Z.of_nat (length (setup_servers conf))))))
    as [Hlen Hshort].
  fold srv in Hlen, Hshort.
  set (rx1 := memcpy (bzero (rx_buf c) 263) 0 (firstn (Z.to_nat BUF_SIZE) d))
    in *.
  assert (Hrx1 : length rx1 = Z.to_nat BUF_SIZE)
    by (apply length_received; [exact Hrx | unfold BUF_SIZE; lia]).
  pose proof (client_key_is_kdf rx1 (rand_iv e) (key_stack e) srv
                HR Hrx1 Hk Hlen Hshort) as Hkey.
  pose proof (request_key_iv rx1 (rand_iv e) srv (key_stack e) HR Hrx1)
    as Hiv.
  unfold local_read_cb. rewrite Hst. cbn. rewrite ?Hst. cbn.
  rewrite Hrecv, recv_data. cbn.
  rewrite received_positive by exact Hd.
  fold rx1. rewrite Hparse. cbn. fold srv.
  destruct (request_key rx1 (rand_iv e) srv (key_stack e)) as [rx2 key].
  cbn [fst snd] in Hkey, Hiv. subst key. cbn.
  rewrite (request_plain_layout (tx_buf c) rx2 host port Htx)
    by (rewrite ?Hiv; assumption).
  rewrite Hiv. set (T := skipn 512 (tx_buf c)).
  rewrite (encrypt_head _ (frame_head_spec host port))
    by (apply length_frame_head; assumption).
  cbn.
  destruct (Z.ltb_spec (socket_res e) 0); [lia |].
  eexists. split; [reflexivity |]. cbn.
  repeat split; try reflexivity.
  pose proof (io_encrypt_length
                (enc_init (kdf_spec (rand_iv e) (psk srv)))
                (frame_head_spec host port)) as Hct.
  rewrite (length_frame_head host port Hh Hp) in Hct.
  change 512%nat with (276 + 236)%nat.
  rewrite sub_split.
  rewrite (sub_head _ _ 276 Hct).
  rewrite <- Hct at 1. rewrite sub_app_skip.
  rewrite (sub_head _ _ 236 HR). reflexivity.
Qed.

(** [connect_cb] once the connection to the server stands. *)
Lemma connect_ok e c :
  state c = CMD_RCVD -> so_error e = 0 ->
  exists c',
    connect_cb e c = Live c' []
    /\ state c' = CONNECTED
    /\ w_remote_write c' = true /\ w_remote_write_cb c' = RemoteWriteCb
    /\ tx_bytes c' = tx_bytes c /\ tx_buf c' = tx_buf c
    /\ sock_remote c' = sock_remote c /\ enc_evp c' = enc_evp c.
Proof.
  intros Hst Herr. unfold connect_cb. rewrite Hst, Herr. cbn.
  eexists. split; [reflexivity |]. cbn. repeat split; reflexivity.
Qed.

(** [remote_write_cb] sends the prepared request in one piece. *)
Lemma request_sent e c room frame :
  state c = CONNECTED -> 0 <= tx_bytes c ->
  sub (tx_buf c) 0 (Z.to_nat (tx_bytes c)) = frame ->
  length frame = Z.to_nat (tx_bytes c) ->
  send_res e = SendRoom room -> tx_bytes c <= Z.of_N room ->
  exists c',
    remote_write_cb e c = Live c' [Send (sock_remote c) frame]
    /\ state c' = REQ_SENT /\ w_remote_read c' = true
    /\ enc_evp c' = enc_evp c.
Proof.
  intros Hst Hpos Hframe Hlen Hsend Hroom.
  unfold remote_write_cb. rewrite Hst. cbn. rewrite ?Hst. cbn.
  rewrite Hsend, send_all by lia.
  rewrite Z.eqb_refl. cbn.
  rewrite Hframe, sent_all by first [exact Hlen | lia].
  eexists. split; [reflexivity |]. cbn. rewrite ?Hst.
  repeat split; reflexivity.
Qed.

End RequestSteps.

(** * C2: the layout of the inner request *)

(** C2.  For every request the client accepts, with [host] and [port] the
    strings its parser produced and [R] the 236 random bytes, the 512 bytes
    the client sends to the server are the encryption, under the cipher
    seeded with the derived key, of exactly the first 276 bytes (the magic
    [52 6f 6e 61], the host string NUL-padded to 257 bytes, the port string
    NUL-padded to 15 bytes) followed by [R] itself, unencrypted. *)
Theorem request_frame_layout `{Collaborators}
  conf e1 e2 e3 c d host port room :
  Client.wf c -> Client.state c = Client.NEGO_SENT ->
  Client.w_local_read c = true ->
  recv_res e1 = RecvData d -> d <> [] ->
  Client.parse_request
    (memcpy (bzero (Client.rx_buf c) 263) 0 (firstn (Z.to_nat BUF_SIZE) d))
  = (0, host, port) ->
  length (rand_iv e1) = 236%nat -> length (key_stack e1) = 64%nat ->
  0 <= socket_res e1 ->
  so_error e2 = 0 ->
  send_res e3 = SendRoom room -> 512 <= Z.of_N room ->
  length (Client.frame_head_spec host port) = 276%nat
  /\ exists c',
      Client.run (setup_servers conf)
        [(Client.LocalReadable, e1); (Client.RemoteWritable, e2);
         (Client.RemoteWritable, e3)] c false []
      = Client.Running c' false
          [Connect (socket_res e1);
           Send (socket_res e1)
             (fst (io_encrypt
                     (enc_init
                        (kdf_spec (rand_iv e1)
                           (psk (nth (Z.to_nat
                                        (Client.select_server (rand_index e1)
                                           (Z.of_nat
                                              (length (setup_servers conf)))))
                                   (setup_servers conf) no_server))))
                     (Client.frame_head_spec host port))
              ++ rand_iv e1)]
      /\ Client.state c' = Client.REQ_SENT.
Proof.
  intros Hwf Hst Hlr Hrecv Hd Hparse HR Hk Hsock Herr Hsend Hroom.
  destruct (parse_request_lengths _ _ _ _ Hparse) as [Hh Hp].
  split; [apply length_frame_head; assumption |].
  destruct (request_accepted conf e1 c d host port
              Hwf Hst Hrecv Hd Hparse HR Hk Hsock)
    as (c1 & Hcb1 & Hst1 & Hn1 & Hfd1 & Hrw1 & Hk1 & Hframe1 & _).
  destruct (connect_ok e2 c1 Hst1 Herr)
    as (c2 & Hcb2 & Hst2 & Hrw2 & Hk2 & Hn2 & Htx2 & Hfd2 & _).
  set (frame := fst (io_encrypt _ _) ++ rand_iv e1) in *.
  assert (Hlen : length frame = 512%nat).
  { unfold frame.
    rewrite length_app, io_encrypt_length,
      (length_frame_head host port Hh Hp), HR. reflexivity. }
  destruct (request_sent e3 c2 room frame Hst2) as (c3 & Hcb3 & Hst3 & _).
  - rewrite Hn2, Hn1. lia.
  - rewrite Hn2, Hn1, Htx2. exact Hframe1.
  - rewrite Hn2, Hn1. exact Hlen.
  - exact Hsend.
  - rewrite Hn2, Hn1. exact Hroom.
  - exists c3. split; [| exact Hst3].
    rewrite (run_step _ Client.LocalReadable e1 _ c false [] c1
               [Connect (socket_res e1)])
      by (cbn; rewrite Hlr, Hcb1; reflexivity).
    rewrite (run_step _ Client.RemoteWritable e2 _ c1 _ _ c2 [])
      by (cbn; rewrite Hrw1, Hk1, Hcb2; reflexivity).
    rewrite (run_step _ Client.RemoteWritable e3 _ c2 _ _ c3
               [Send (Client.sock_remote c2) frame])
      by (cbn; rewrite Hrw2, Hk2, Hcb3; reflexivity).
    rewrite Hfd2, Hfd1. reflexivity.
Qed.

Lemma request_frame_layout_witness :
  length (Client.frame_head_spec
            ["1"%byte; "."%byte; "2"%byte; "."%byte; "3"%byte; "."%byte;
             "4"%byte]
            ["8"%byte; "0"%byte]) = 276%nat
  /\ exists c',
      Client.run (setup_servers Sample.conf)
        [(Client.LocalReadable, Sample.io Sample.connect_ipv4 0);
         (Client.RemoteWritable, Sample.quiet);
         (Client.RemoteWritable, Sample.io [] 512)]
        Sample.negotiated false []
      = Client.Running c' false
          [Connect 9;
           Send 9
             (fst (io_encrypt (Collaborators := Standin.collaborators)
                     (enc_init (Collaborators := Standin.collaborators)
                        (kdf_spec (H := Standin.collaborators) Sample.iv
                           (psk (nth (Z.to_nat
                                        (Client.select_server 7
                                           (Z.of_nat
                                              (length
                                                 (setup_servers Sample.conf)))))
                                   (setup_servers Sample.conf) no_server))))
                     (Client.frame_head_spec
                        ["1"%byte; "."%byte; "2"%byte; "."%byte; "3"%byte;
                         "."%byte; "4"%byte]
                        ["8"%byte; "0"%byte]))
              ++ Sample.iv)]
      /\ Client.state c' = Client.REQ_SENT.
Proof.
  apply (request_frame_layout Sample.conf
           (Sample.io Sample.connect_ipv4 0) Sample.quiet (Sample.io [] 512)
           Sample.negotiated Sample.connect_ipv4
           ["1"%byte; "."%byte; "2"%byte; "."%byte; "3"%byte; "."%byte;
            "4"%byte]
           ["8"%byte; "0"%byte] 512).
  - split; vm_compute; reflexivity.
  - vm_compute; reflexivity.
  - vm_compute; reflexivity.
  - reflexivity.
  - discriminate.
  - vm_compute; reflexivity.
  - reflexivity.
  - reflexivity.
  - vm_compute; discriminate.
  - reflexivity.
  - reflexivity.
  - vm_compute; discriminate.
Defined.

(** * The inner request at the server *)

Section ServerRequest.
Context `{Collaborators}.
Import Server.

Lemma cstr_app_nul x y : cstr (x ++ x00 :: y) = cstr x.
Proof.
  induction x as [| b r IH]; cbn [cstr app]; [reflexivity |].
  destruct (byte_eqb b x00); [reflexivity | rewrite IH; reflexivity].
Qed.

Lemma sub_app_l (x y : list byte) o n :
  (o + n <= length x)%nat -> sub (x ++ y) o n = sub x o n.
Proof.
  intro Hfit. unfold sub.
  rewrite skipn_app, firstn_app, length_skipn.
  replace (n - (length x - o))%nat with 0%nat by lia.
  rewrite firstn_O. apply app_nil_r.
Qed.

Lemma peek_app_l (x y : list byte) i :
  (i < length x)%nat -> peek (x ++ y) i = peek x i.
Proof. intro Hi. unfold peek. apply app_nth1, Hi. Qed.

Lemma load_be32_app_l (x y : list byte) :
  (4 <= length x)%nat -> load_be32 (x ++ y) 0 = load_be32 x 0.
Proof.
  intro Hx. unfold load_be32. rewrite !peek_app_l by lia. reflexivity.
Qed.

(** The C string that starts at [i] once a NUL has been stored at [j]. *)
Lemma cstr_to_poke b i j :
  (i <= j)%nat -> (j < length b)%nat ->
  cstr (skipn i (poke b j x00)) = cstr (sub b i (j - i)).
Proof.
  intros Hij Hj. unfold poke, memcpy.
  rewrite skipn_app, length_firstn, Nat.min_l by lia.
  replace (i - j)%nat with 0%nat by lia. rewrite skipn_O.
  cbn [app]. rewrite cstr_app_nul.
  rewrite skipn_firstn_comm. reflexivity.
Qed.

(** [decrypt (rx_buf, 276)] replaces the head and nothing else. *)
Lemma decrypt_head enc head rest :
  length head = 276%nat ->
  decrypt_in_place enc (head ++ rest) 276
  = (fst (io_decrypt enc head) ++ rest, snd (io_decrypt enc head)).
Proof.
  intro Hlen. unfold decrypt_in_place.
  rewrite (sub_head head rest 276 Hlen).
  pose proof (io_decrypt_length enc head) as Hct.
  destruct (io_decrypt enc head) as [ct enc']. cbn [fst snd] in *.
  rewrite (memcpy_head head rest ct) by lia. reflexivity.
Qed.

(** The host and port strings the server reads out of the decrypted
    request. *)
Lemma request_strings plain rest :
  length plain = 276%nat ->
  cstr (skipn 4 (poke (poke (plain ++ rest) 260 x00) 275 x00))
  = cstr (sub plain 4 256)
  /\ cstr (skipn 261 (poke (poke (plain ++ rest) 260 x00) 275 x00))
     = cstr (sub plain 261 14).
Proof.
  intro Hlen.
  assert (Hl : (276 <= length (plain ++ rest))%nat)
    by (rewrite length_app; lia).
  set (B := poke (plain ++ rest) 260 x00).
  assert (Hb : length B = length (plain ++ rest))
    by (apply length_poke; lia).
  assert (HB1 : sub B 4 256 = sub plain 4 256).
  { unfold B, poke. rewrite sub_memcpy_before by lia. apply sub_app_l. lia. }
  assert (HB2 : sub B 260 1 = [x00]).
  { unfold B, poke. apply (sub_memcpy_same (plain ++ rest) 260 [x00]). lia. }
  assert (HB3 : sub B 261 14 = sub plain 261 14).
  { unfold B, poke. rewrite sub_memcpy_after by (cbn [length]; lia).
    apply sub_app_l. lia. }
  split.
  - rewrite cstr_to_poke by lia.
    change (275 - 4)%nat with (256 + (1 + 14))%nat.
    rewrite (sub_split B 4 256 (1 + 14)), (sub_split B (4 + 256) 1 14).
    change (4 + 256)%nat with 260%nat. change (260 + 1)%nat with 261%nat.
    rewrite HB1, HB2. cbn [app]. apply cstr_app_nul.
  - rewrite cstr_to_poke by lia.
    change (275 - 261)%nat with 14%nat. rewrite HB3. reflexivity.
Qed.

Lemma request_wrong_size servers e c :
  state c = CLOSED -> fst (recv (recv_res e) (rx_buf c)) <> 512 ->
  local_read_cb servers e c = Gone [Close (sock_local c); FreeConn].
Proof.
  intros Hst Hn. unfold local_read_cb. rewrite Hst. cbn. rewrite ?Hst. cbn.
  destruct (recv (recv_res e) (rx_buf c)) as [n rx]. cbn [fst] in Hn.
  destruct (Z.eqb_spec n 512) as [| _]; [contradiction |]. reflexivity.
Qed.

(** The host string of a request always fits [gai_t]'s [host]. *)
Lemma host_fits (plain : list byte) :
  strcpy_fits GAI_HOST_SIZE (cstr (sub plain 4 256)) = true.
Proof.
  unfold strcpy_fits, GAI_HOST_SIZE. apply Nat.ltb_lt.
  pose proof (cstr_length (sub plain 4 256)) as Hc.
  assert (Hs : (length (sub plain 4 256) <= 256)%nat)
    by (unfold sub; rewrite length_firstn; lia).
  lia.
Qed.

(** The port string has at most 14 bytes; it fits [gai_t]'s [port] when it
    has at most 7. *)
Lemma port_length (plain : list byte) :
  (length (cstr (sub plain 261 14)) <= 14)%nat.
Proof.
  pose proof (cstr_length (sub plain 261 14)) as Hc.
  assert (Hs : (length (sub plain 261 14) <= 14)%nat)
    by (unfold sub; rewrite length_firstn; lia).
  lia.
Qed.

Lemma port_fits (port : list byte) :
  strcpy_fits GAI_PORT_SIZE port = true <-> (length port <= 7)%nat.
Proof.
  unfold strcpy_fits, GAI_PORT_SIZE. rewrite Nat.ltb_lt. lia.
Qed.

(** The handler on a request of 512 bytes: key derivation, decryption of
    the first 276 bytes, the test of the magic, and the copy of the two
    strings into the resolution block. *)
Lemma request_processed conf e c d :
  wf c -> state c = CLOSED -> recv_res e = RecvData d ->
  length d = 512%nat -> length (key_stack e) = 64%nat ->
  exists plain enc',
    io_decrypt
      (enc_init
         (kdf_spec (sub d 276 236)
            (psk (nth (Z.to_nat (server_index c)) (setup_servers conf)
                    no_server))))
      (sub d 0 276) = (plain, enc')
    /\ (load_be32 plain 0 <> MAGIC ->
        local_read_cb (setup_servers conf) e c
        = Gone [Close (sock_local c); FreeConn])
    /\ (load_be32 plain 0 = MAGIC -> mem_new_ok e = false ->
        local_read_cb (setup_servers conf) e c
        = Gone [Close (sock_local c); FreeConn])
    /\ (load_be32 plain 0 = MAGIC -> mem_new_ok e = true ->
        (7 < length (cstr (sub plain 261 14)))%nat ->
        local_read_cb (setup_servers conf) e c = Overrun)
    /\ (load_be32 plain 0 = MAGIC -> mem_new_ok e = true ->
        (length (cstr (sub plain 261 14)) <= 7)%nat -> gai_ok e = false ->
        local_read_cb (setup_servers conf) e c
        = Gone [Close (sock_local c); FreeConn])
    /\ (load_be32 plain 0 = MAGIC -> mem_new_ok e = true ->
        (length (cstr (sub plain 261 14)) <= 7)%nat -> gai_ok e = true ->
        exists c',
          local_read_cb (setup_servers conf) e c
          = Live c' [Resolve (cstr (sub plain 4 256))
                       (cstr (sub plain 261 14))]
          /\ state c' = CLOSED /\ enc_evp c' = enc'
          /\ w_local_read c' = false
          /\ w_local_write c' = w_local_write c
          /\ sock_local c' = sock_local c).
Proof.
  intros [Hrx Htx] Hst Hrecv Hd Hk.
  set (srv := nth _ (setup_servers conf) no_server).
  destruct (psk_of_table conf (Z.to_nat (server_index c))) as [Hlen Hshort].
  fold srv in Hlen, Hshort.
  assert (Hfirst : firstn (Z.to_nat BUF_SIZE) d = d)
    by (apply firstn_all2; unfold BUF_SIZE; lia).
  assert (Hrx1 : memcpy (rx_buf c) 0 d
                 = sub d 0 276
                     ++ (sub d 276 236 ++ skipn 512 (rx_buf c))).
  { assert (Hsplit : d = sub d 0 276 ++ sub d 276 236).
    { change (d = sub d 0 276 ++ sub d (0 + 276) 236).
      rewrite <- sub_split. unfold sub. rewrite skipn_O.
      symmetry. apply firstn_all2. rewrite Hd. cbn. lia. }
    unfold memcpy. rewrite firstn_O, Hd. cbn [app Nat.add].
    rewrite Hsplit at 1. rewrite <- app_assoc. reflexivity. }
  set (T := skipn 512 (rx_buf c)) in *.
  assert (Hh : length (sub d 0 276) = 276%nat) by (apply sub_length; lia).
  assert (Hv : length (sub d 276 236) = 236%nat) by (apply sub_length; lia).
  assert (Hiv : sub (memcpy (rx_buf c) 0 d) 276 236 = sub d 276 236).
  { rewrite Hrx1, (sub_tail _ _ 276 236 Hh). apply sub_head, Hv. }
  pose proof (server_key_is_kdf (tx_buf c) (memcpy (rx_buf c) 0 d)
                (sub d 276 236) (key_stack e) srv Hv Htx Hk Hlen Hshort Hiv)
    as Hkey.
  destruct (io_decrypt (enc_init (kdf_spec (sub d 276 236) (psk srv)))
              (sub d 0 276)) as [plain enc'] eqn:Hdec.
  exists plain, enc'. split; [reflexivity |].
  assert (Hp : length plain = 276%nat).
  { pose proof (io_decrypt_length
                  (enc_init (kdf_spec (sub d 276 236) (psk srv)))
                  (sub d 0 276)) as Hl.
    rewrite Hdec in Hl. cbn [fst] in Hl. lia. }
  destruct (request_strings plain (sub d 276 236 ++ T) Hp)
    as [Hhost Hport].
  assert (Hcommon :
    local_read_cb (setup_servers conf) e c
    = let c1 :=
        set_rx_buf
          (poke (poke (plain ++ sub d 276 236 ++ T) 260 x00) 275 x00)
          (set_enc_evp enc'
             (set_rx_buf (plain ++ sub d 276 236 ++ T)
                (set_enc_evp
                   (enc_init (kdf_spec (sub d 276 236) (psk srv)))
                   (set_tx_buf
                      (fst (request_key (tx_buf c)
                              (memcpy (rx_buf c) 0 d) srv (key_stack e)))
                      (set_rx_buf (memcpy (rx_buf c) 0 d)
                         (set_w_local_read false c)))))) in
      if negb (load_be32 plain 0 =? MAGIC) then drop c1 []
      else if negb (mem_new_ok e) then drop c1 []
      else if negb (strcpy_fits GAI_PORT_SIZE (cstr (sub plain 261 14)))
      then Overrun
      else
        let c2 :=
          set_gai {| gai_host := cstr (sub plain 4 256);
                     gai_port := cstr (sub plain 261 14); res := [] |} c1 in
        if negb (gai_ok e) then drop c2 []
        else Live c2 [Resolve (cstr (sub plain 4 256))
                        (cstr (sub plain 261 14))]).
  { unfold local_read_cb. rewrite Hst. cbn. rewrite ?Hst. cbn.
    rewrite Hrecv, recv_data, Hfirst, Hd. cbn. fold srv.
    destruct (request_key (tx_buf c) (memcpy (rx_buf c) 0 d) srv
                (key_stack e)) as [tx1 key].
    cbn [fst snd] in Hkey |- *. subst key. cbn.
    rewrite Hrx1 at 1.
    rewrite (decrypt_head _ (sub d 0 276) _ Hh), Hdec. cbn.
    rewrite (load_be32_app_l plain _) by lia.
    rewrite Hhost, Hport, host_fits. reflexivity. }
  rewrite Hcommon. cbn zeta.
  pose proof (port_fits (cstr (sub plain 261 14))) as Hfits.
  split; [| split; [| split; [| split]]].
  - intro Hbad. destruct (Z.eqb_spec (load_be32 plain 0) MAGIC);
      [contradiction |]. reflexivity.
  - intros Hok Hmem. rewrite Hok, Z.eqb_refl, Hmem. reflexivity.
  - intros Hok Hmem Hlong. rewrite Hok, Z.eqb_refl, Hmem. cbn [negb].
    destruct (strcpy_fits GAI_PORT_SIZE (cstr (sub plain 261 14)));
      [| reflexivity].
    destruct Hfits as [Hfits _]. specialize (Hfits eq_refl). lia.
  - intros Hok Hmem Hshortp Hgai.
    rewrite Hok, Z.eqb_refl, Hmem, (proj2 Hfits Hshortp), Hgai. reflexivity.
  - intros Hok Hmem Hshortp Hgai.
    rewrite Hok, Z.eqb_refl, Hmem, (proj2 Hfits Hshortp), Hgai. cbn [negb].
    eexists. split; [reflexivity |]. cbn. rewrite ?Hst.
    repeat split; reflexivity.
Qed.

End ServerRequest.

(** * C4: the 512-byte gate of the server *)

(** C4.  In state [CLOSED] the server processes a read of exactly 512
    bytes: it derives the key from the last 236 bytes and the pre-shared
    key of its listener, decrypts the first 276 bytes and tests the magic.
    What follows is decided by the decrypted bytes: without the magic the
    local socket is closed and the block released; with it, the host and
    port strings are copied into the resolution block and the resolver is
    started on them when the port string has at most 7 bytes, the room of
    [gai_t]'s [port] array, while a longer port string (up to 14 bytes) is
    copied past the end of that array.  A read that fails or returns any
    other number of bytes closes the local socket and releases the block,
    and sends nothing. *)
Theorem inner_request_size_gate `{Collaborators} conf e c :
  Server.wf c -> Server.state c = Server.CLOSED ->
  length (key_stack e) = 64%nat ->
  (forall d,
     recv_res e = RecvData d -> length d = 512%nat ->
     exists plain enc',
       io_decrypt
         (enc_init
            (kdf_spec (sub d 276 236)
               (psk (nth (Z.to_nat (Server.server_index c))
                       (setup_servers conf) no_server))))
         (sub d 0 276) = (plain, enc')
       /\ (load_be32 plain 0 <> MAGIC ->
           Server.local_read_cb (setup_servers conf) e c
           = Server.Gone [Close (Server.sock_local c); FreeConn])
       /\ (load_be32 plain 0 = MAGIC -> mem_new_ok e = false ->
           Server.local_read_cb (setup_servers conf) e c
           = Server.Gone [Close (Server.sock_local c); FreeConn])
       /\ (load_be32 plain 0 = MAGIC -> mem_new_ok e = true ->
           (7 < length (cstr (sub plain 261 14)))%nat ->
           Server.local_read_cb (setup_servers conf) e c = Server.Overrun)
       /\ (load_be32 plain 0 = MAGIC -> mem_new_ok e = true ->
           (length (cstr (sub plain 261 14)) <= 7)%nat ->
           gai_ok e = false ->
           Server.local_read_cb (setup_servers conf) e c
           = Server.Gone [Close (Server.sock_local c); FreeConn])
       /\ (load_be32 plain 0 = MAGIC -> mem_new_ok e = true ->
           (length (cstr (sub plain 261 14)) <= 7)%nat ->
           gai_ok e = true ->
           exists c',
             Server.local_read_cb (setup_servers conf) e c
             = Server.Live c'
                 [Resolve (cstr (sub plain 4 256)) (cstr (sub plain 261 14))]
             /\ Server.state c' = Server.CLOSED
             /\ Server.enc_evp c' = enc'))
  /\ (recv_res e = RecvFail ->
      Server.local_read_cb (setup_servers conf) e c
      = Server.Gone [Close (Server.sock_local c); FreeConn])
  /\ (forall d,
        recv_res e = RecvData d ->
        length (firstn (Z.to_nat BUF_SIZE) d) <> 512%nat ->
        Server.local_read_cb (setup_servers conf) e c
        = Server.Gone [Close (Server.sock_local c); FreeConn]).
Proof.
  intros Hwf Hst Hk. split; [| split].
  - intros d Hrecv Hd.
    destruct (request_processed conf e c d Hwf Hst Hrecv Hd Hk)
      as (plain & enc' & Hdec & Hbad & Hmem0 & Hover & Hgai0 & Hok).
    exists plain, enc'. split; [exact Hdec |]. split; [exact Hbad |].
    split; [exact Hmem0 |]. split; [exact Hover |]. split; [exact Hgai0 |].
    intros Hm Hmem Hfit Hgai.
    destruct (Hok Hm Hmem Hfit Hgai) as (c' & Hcb & Hst' & Henc & _).
    exists c'. repeat split; assumption.
  - intro Hrecv. apply request_wrong_size; [exact Hst |].
    rewrite Hrecv. cbn. discriminate.
  - intros d Hrecv Hlen. apply request_wrong_size; [exact Hst |].
    rewrite Hrecv, recv_data. cbn [fst]. lia.
Qed.

Lemma inner_request_size_gate_witness :
  (exists c',
     Server.local_read_cb (setup_servers Sample.conf)
       (Sample.io Sample.request_frame 0) Sample.server_accepted
     = Server.Live c'
         [Resolve
            ["1"%byte; "."%byte; "2"%byte; "."%byte; "3"%byte; "."%byte;
             "4"%byte]
            ["8"%byte; "0"%byte]]
     /\ Server.state c' = Server.CLOSED)
  /\ Server.local_read_cb (setup_servers Sample.conf)
       (Sample.io Sample.long_port_frame 0) Sample.server_accepted
     = Server.Overrun
  /\ Server.local_read_cb (setup_servers Sample.conf)
       (Sample.io (firstn 511 Sample.request_frame) 0) Sample.server_accepted
     = Server.Gone [Close (Server.sock_local Sample.server_accepted);
                    FreeConn]
  /\ Server.local_read_cb (setup_servers Sample.conf)
       (Sample.io (Sample.request_frame ++ [x00]) 0) Sample.server_accepted
     = Server.Gone [Close (Server.sock_local Sample.server_accepted);
                    FreeConn].
Proof.
  split; [| split; [| split]].
  - destruct (inner_request_size_gate Sample.conf
                (Sample.io Sample.request_frame 0) Sample.server_accepted)
      as (Hok & _ & _).
    + apply conj; vm_compute; reflexivity.
    + vm_compute; reflexivity.
    + reflexivity.
    + destruct (Hok Sample.request_frame eq_refl)
        as (plain & enc' & Hdec & _ & _ & _ & _ & Hgood);
        [vm_compute; reflexivity |].
      assert (Hplain : plain
                       = fst (Standin.crypt
                                (Standin.init
                                   (kdf_spec (H := Standin.collaborators)
                                      (sub Sample.request_frame 276 236)
                                      (psk (nth 1 (setup_servers Sample.conf)
                                              no_server))))
                                (sub Sample.request_frame 0 276))).
      { change (Z.to_nat (Server.server_index Sample.server_accepted))
          with 1%nat in Hdec.
        change (io_decrypt (Collaborators := Standin.collaborators))
          with Standin.crypt in Hdec.
        change (enc_init (Collaborators := Standin.collaborators))
          with Standin.init in Hdec.
        rewrite Hdec. reflexivity. }
      destruct Hgood as (c' & Hcb & Hst' & _).
      * rewrite Hplain. vm_compute. reflexivity.
      * reflexivity.
      * rewrite Hplain. vm_compute. lia.
      * reflexivity.
      * exists c'. split; [| exact Hst'].
        rewrite Hcb. f_equal. rewrite Hplain.
        vm_compute. reflexivity.
  - destruct (inner_request_size_gate Sample.conf
                (Sample.io Sample.long_port_frame 0) Sample.server_accepted)
      as (Hok & _ & _).
    + apply conj; vm_compute; reflexivity.
    + vm_compute; reflexivity.
    + reflexivity.
    + destruct (Hok Sample.long_port_frame eq_refl)
        as (plain & enc' & Hdec & _ & _ & Hover & _);
        [vm_compute; reflexivity |].
      assert (Hplain : plain
                       = fst (Standin.crypt
                                (Standin.init
                                   (kdf_spec (H := Standin.collaborators)
                                      (sub Sample.long_port_frame 276 236)
                                      (psk (nth 1 (setup_servers Sample.conf)
                                              no_server))))
                                (sub Sample.long_port_frame 0 276))).
      { change (Z.to_nat (Server.server_index Sample.server_accepted))
          with 1%nat in Hdec.
        change (io_decrypt (Collaborators := Standin.collaborators))
          with Standin.crypt in Hdec.
        change (enc_init (Collaborators := Standin.collaborators))
          with Standin.init in Hdec.
        rewrite Hdec. reflexivity. }
      apply Hover.
      * rewrite Hplain. vm_compute. reflexivity.
      * reflexivity.
      * rewrite Hplain. vm_compute. lia.
  - destruct (inner_request_size_gate Sample.conf
                (Sample.io (firstn 511 Sample.request_frame) 0)
                Sample.server_accepted) as (_ & _ & Hbad).
    + apply conj; vm_compute; reflexivity.
    + vm_compute; reflexivity.
    + reflexivity.
    + apply (Hbad (firstn 511 Sample.request_frame) eq_refl).
      vm_compute. discriminate.
  - destruct (inner_request_size_gate Sample.conf
                (Sample.io (Sample.request_frame ++ [x00]) 0)
                Sample.server_accepted) as (_ & _ & Hbad).
    + apply conj; vm_compute; reflexivity.
    + vm_compute; reflexivity.
    + reflexivity.
    + apply (Hbad (Sample.request_frame ++ [x00]) eq_refl).
      vm_compute. discriminate.
Defined.

(** * Protocol errors *)

Section ClientErrors.
Context `{Collaborators}.
Import Client.

(** A greeting with a wrong version is refused with [05 ff]. *)
Lemma greeting_refused_step servers e c d :
  wf c -> state c = CLOSED -> recv_res e = RecvData d -> d <> [] ->
  peek d 0 <> x05 ->
  exists c',
    local_read_cb servers e c = Live c' []
    /\ state c' = NEGO_ERR /\ tx_bytes c' = 2
    /\ sub (tx_buf c') 0 2 = [x05; xff]
    /\ w_local_write c' = true
    /\ sock_local c' = sock_local c.
Proof.
  intros [Hrx Htx] Hst Hrecv Hd Hver.
  assert (Herr : (nego_error
                    (memcpy (bzero (rx_buf c) 257) 0
                       (firstn (Z.to_nat BUF_SIZE) d)) =? 0) = false).
  { unfold nego_error.
    rewrite (peek_received (rx_buf c) 257 d 0) by (unfold BUF_SIZE in *; lia).
    rewrite (byte_eqb_neq _ _ Hver).
    destruct (_ <=? _)%nat; reflexivity. }
  unfold local_read_cb. rewrite Hst. cbn. rewrite ?Hst. cbn.
  rewrite Hrecv, recv_data. cbn.
  rewrite received_positive by exact Hd.
  rewrite Herr.
  eexists. split; [reflexivity |]. cbn.
  rewrite nego_reject_bytes by exact Htx. repeat split; reflexivity.
Qed.

Lemma mismatch_reply_bytes tx :
  length tx = Z.to_nat BUF_SIZE ->
  sub (poke (reply_frame tx x00) 1 x05) 0 10 = socks_reply x05.
Proof.
  intro Htx. unfold reply_frame.
  rewrite (list_of_peeks (sub _ 0 10) 10) by (apply sub_length; solve_len).
  cbn [map seq].
  rewrite !peek_sub by lia. cbn [Nat.add].
  unfold socks_reply.
  repeat (f_equal;
          [ rewrite ?peek_poke_other by solve_len;
            first [ apply peek_poke_same; solve_len
                  | apply peek_bzero_in; lia ] | ]).
  reflexivity.
Qed.

(** The four bytes of the server are not the magic: the SOCKS5 reply with
    code 0x05 is prepared. *)
Lemma reply_mismatch_step e c d :
  wf c -> state c = REQ_SENT -> recv_res e = RecvData d ->
  length d = 4%nat ->
  load_be32 (fst (io_decrypt (enc_evp c) d)) 0 <> MAGIC ->
  exists c',
    remote_read_cb e c = Live c' []
    /\ state c' = REQ_ERR /\ tx_bytes c' = 10
    /\ sub (tx_buf c') 0 10 = socks_reply x05
    /\ w_local_write c' = true
    /\ sock_local c' = sock_local c.
Proof.
  intros [Hrx Htx] Hst Hrecv Hd Hbad.
  assert (Hfirst : firstn (Z.to_nat BUF_SIZE) d = d)
    by (apply firstn_all2; unfold BUF_SIZE; lia).
  assert (Hrx1 : memcpy (rx_buf c) 0 d = d ++ skipn 4 (rx_buf c)).
  { unfold memcpy. rewrite firstn_O, Hd. reflexivity. }
  set (T := skipn 4 (rx_buf c)) in *.
  assert (Hdec : decrypt_in_place (enc_evp c) (d ++ T) 4
                 = (fst (io_decrypt (enc_evp c) d) ++ T,
                    snd (io_decrypt (enc_evp c) d))).
  { unfold decrypt_in_place. rewrite (sub_head d T 4 Hd).
    pose proof (io_decrypt_length (enc_evp c) d) as Hl.
    destruct (io_decrypt (enc_evp c) d) as [out enc']. cbn [fst snd] in *.
    rewrite (memcpy_head d T out) by lia. reflexivity. }
  assert (Hout : length (fst (io_decrypt (enc_evp c) d)) = 4%nat)
    by (rewrite io_decrypt_length; exact Hd).
  unfold remote_read_cb. rewrite Hst. cbn. rewrite ?Hst. cbn.
  rewrite Hrecv, recv_data, Hfirst, Hd. cbn.
  rewrite Hrx1, Hdec. cbn.
  rewrite (load_be32_app_l _ T) by lia.
  destruct (Z.eqb_spec (load_be32 (fst (io_decrypt (enc_evp c) d)) 0) MAGIC)
    as [| _]; [contradiction |].
  eexists. split; [reflexivity |]. cbn.
  rewrite mismatch_reply_bytes by exact Htx. repeat split; reflexivity.
Qed.

End ClientErrors.

Section ServerErrors.
Context `{Collaborators}.
Import Server.

Lemma server_run_step servers ev e rest c timer resolving acc c' fx :
  dispatch servers ev e timer resolving c = Some (Live c' fx) ->
  run servers ((ev, e) :: rest) c timer resolving acc
  = run servers rest c' (timer || starts_timer fx)
      match ev with
      | Resolved => false
      | _ => resolving || starts_resolver fx
      end
      (acc ++ fx).
Proof. intro Hd. cbn [run]. rewrite Hd. reflexivity. Qed.

(** The resolver failed: four encrypted zero bytes are prepared. *)
Lemma dns_failed_step e c :
  wf c -> gai_ok e = false ->
  exists c',
    resolv_cb e c = Live c' [FreeGai]
    /\ state c' = REQ_ERR /\ tx_bytes c' = 4
    /\ sub (tx_buf c') 0 4
       = fst (io_encrypt (enc_evp c) [x00; x00; x00; x00])
    /\ w_local_write c' = true
    /\ sock_local c' = sock_local c.
Proof.
  intros [Hrx Htx] Hgai. unfold BUF_SIZE in Htx.
  assert (Hz : bzero (tx_buf c) 4
               = [x00; x00; x00; x00] ++ skipn 4 (tx_buf c)).
  { unfold bzero, memcpy. rewrite firstn_O. reflexivity. }
  set (T := skipn 4 (tx_buf c)) in *.
  assert (Hseal : encrypt_in_place (enc_evp c) ([x00; x00; x00; x00] ++ T) 4
                  = (fst (io_encrypt (enc_evp c) [x00; x00; x00; x00]) ++ T,
                     snd (io_encrypt (enc_evp c) [x00; x00; x00; x00]))).
  { unfold encrypt_in_place.
    rewrite (sub_head [x00; x00; x00; x00] T 4 eq_refl).
    pose proof (io_encrypt_length (enc_evp c) [x00; x00; x00; x00]) as Hl.
    destruct (io_encrypt (enc_evp c) [x00; x00; x00; x00]) as [out enc'].
    cbn [fst snd] in *.
    rewrite (memcpy_head [x00; x00; x00; x00] T out) by exact (eq_sym Hl).
    reflexivity. }
  unfold resolv_cb. rewrite Hgai. cbn.
  unfold seal_reply. cbn. rewrite Hz, Hseal. cbn.
  eexists. split; [reflexivity |]. cbn.
  repeat split; try reflexivity.
  apply sub_head. apply io_encrypt_length.
Qed.

(** The four-byte error reply goes out whole; the connection lingers and
    the timer closes it. *)
Lemma server_reply_linger_close servers e2 e3 c reply room resolving acc :
  state c = REQ_ERR -> w_local_write c = true ->
  tx_bytes c = 4 -> sub (tx_buf c) 0 4 = reply -> length reply = 4%nat ->
  send_res e2 = SendRoom room -> 4 <= Z.of_N room -> mem_new_ok e2 = true ->
  run servers [(LocalWritable, e2); (TimerExpired, e3)] c false resolving acc
  = Finished
      (acc ++ [Send (sock_local c) reply; TimerStart LINGER_MS; TimerStop;
               Close (sock_local c); FreeTimer; FreeConn]).
Proof.
  intros Hst Hlw Hn Hreply Hlen Hsend Hroom Hmem.
  cbn [run dispatch]. rewrite Hlw.
  unfold local_write_cb. rewrite Hst. cbn. rewrite ?Hst, Hn. cbn.
  rewrite Hsend, send_all by lia. cbn.
  change (Pos.to_nat 4) with 4%nat.
  rewrite Hmem, Hreply.
  rewrite sent_all by first [exact Hlen | lia].
  cbn. rewrite ?Hst. cbn. rewrite <- app_assoc. reflexivity.
Qed.

End ServerErrors.

(** * C3: what follows a protocol error *)

(** C3 as stated fails at the server: a request of 512 bytes whose first
    four bytes do not decrypt to the magic (here 512 zero bytes) makes the
    server close the socket and release the block in the read callback
    itself; nothing is sent and no timer is started. *)
Lemma illegal_client_dropped_at_once :
  load_be32
    (fst (Standin.crypt
            (Standin.init
               (kdf_spec (H := Standin.collaborators) (repeat x00 236)
                  (psk (nth 1 Sample.servers no_server))))
            (repeat x00 276))) 0
  = 191217433
  /\ MAGIC = 1383034465
  /\ Server.trace
       (Server.run Sample.servers
          [(Server.LocalReadable, Sample.io (repeat x00 512) 0)]
          Sample.server_accepted false false [])
     = Some (true, [Close 6; FreeConn]).
Proof. repeat apply conj; vm_compute; reflexivity. Qed.

(** C3, as the code has it.  On a bad SOCKS version (in the greeting or in
    the request), an unknown address type, a reply of the server that is
    not the magic, or a failed name resolution, the end concerned prepares
    the protocol error frame; once that frame is sent in one piece and the
    timer is allocated, the connection is in [CLOSE_WAIT] for one second
    and then the local socket is closed and the block released.  The frame
    is [05 ff] for a greeting of another version; for a request that fails
    any of its checks, the ten-byte reply whose code is 0x08 when the
    address type is unknown, else 0x07 when the command is not CONNECT,
    else 0x01 (the version alone is wrong); the ten-byte reply with code
    0x05 when the server's four bytes are not the magic; four encrypted
    zero bytes when the resolver failed.  When the 512-byte request does
    not decrypt to the magic, the server closes the local socket and
    releases the block at once: it sends no frame and does not linger. *)
Theorem protocol_errors_answered `{Collaborators} conf :
  (forall e1 e2 e3 c d room,
     Client.wf c -> Client.state c = Client.CLOSED ->
     Client.w_local_read c = true ->
     recv_res e1 = RecvData d -> d <> [] -> peek d 0 <> x05 ->
     send_res e2 = SendRoom room -> 2 <= Z.of_N room ->
     mem_new_ok e2 = true ->
     Client.run (setup_servers conf)
       [(Client.LocalReadable, e1); (Client.LocalWritable, e2);
        (Client.TimerExpired, e3)] c false []
     = Client.Finished
         [Send (Client.sock_local c) [x05; xff]; TimerStart LINGER_MS;
          TimerStop; Close (Client.sock_local c); FreeTimer; FreeConn])
  /\ (forall e1 e2 e3 c d room,
        Client.wf c -> Client.state c = Client.NEGO_SENT ->
        Client.w_local_read c = true ->
        recv_res e1 = RecvData d -> d <> [] ->
        (peek d 0 <> x05 \/ peek d 1 <> x01
         \/ Client.atyp_known (peek d 3) = false) ->
        send_res e2 = SendRoom room -> 10 <= Z.of_N room ->
        mem_new_ok e2 = true ->
        Client.run (setup_servers conf)
          [(Client.LocalReadable, e1); (Client.LocalWritable, e2);
           (Client.TimerExpired, e3)] c false []
        = Client.Finished
            [Send (Client.sock_local c)
               (Client.socks_reply
                  (if Client.atyp_known (peek d 3) then
                     if byte_eqb (peek d 1) x01 then x01 else x07
                   else x08));
             TimerStart LINGER_MS; TimerStop; Close (Client.sock_local c);
             FreeTimer; FreeConn])
  /\ (forall e1 e2 e3 c d room,
        Client.wf c -> Client.state c = Client.REQ_SENT ->
        Client.w_remote_read c = true ->
        recv_res e1 = RecvData d -> length d = 4%nat ->
        load_be32 (fst (io_decrypt (Client.enc_evp c) d)) 0 <> MAGIC ->
        send_res e2 = SendRoom room -> 10 <= Z.of_N room ->
        mem_new_ok e2 = true ->
        Client.run (setup_servers conf)
          [(Client.RemoteReadable, e1); (Client.LocalWritable, e2);
           (Client.TimerExpired, e3)] c false []
        = Client.Finished
            [Send (Client.sock_local c) (Client.socks_reply x05);
             TimerStart LINGER_MS; TimerStop; Close (Client.sock_local c);
             FreeTimer; FreeConn])
  /\ (forall e1 e2 e3 s room,
        Server.wf s -> gai_ok e1 = false ->
        send_res e2 = SendRoom room -> 4 <= Z.of_N room ->
        mem_new_ok e2 = true ->
        Server.run (setup_servers conf)
          [(Server.Resolved, e1); (Server.LocalWritable, e2);
           (Server.TimerExpired, e3)] s false true []
        = Server.Finished
            [FreeGai;
             Send (Server.sock_local s)
               (fst (io_encrypt (Server.enc_evp s) [x00; x00; x00; x00]));
             TimerStart LINGER_MS; TimerStop; Close (Server.sock_local s);
             FreeTimer; FreeConn])
  /\ (forall e s d,
        Server.wf s -> Server.state s = Server.CLOSED ->
        Server.w_local_read s = true ->
        recv_res e = RecvData d -> length d = 512%nat ->
        length (key_stack e) = 64%nat ->
        load_be32
          (fst (io_decrypt
                  (enc_init
                     (kdf_spec (sub d 276 236)
                        (psk (nth (Z.to_nat (Server.server_index s))
                                (setup_servers conf) no_server))))
                  (sub d 0 276))) 0 <> MAGIC ->
        Server.run (setup_servers conf) [(Server.LocalReadable, e)]
          s false false []
        = Server.Finished [Close (Server.sock_local s); FreeConn]).
Proof.
  split; [| split; [| split; [| split]]].
  - intros e1 e2 e3 c d room Hwf Hst Hlr Hrecv Hd Hver Hsend Hroom Hmem.
    destruct (greeting_refused_step (setup_servers conf) e1 c d
                Hwf Hst Hrecv Hd Hver)
      as (c1 & Hcb & Hst1 & Hn1 & Hbytes & Hlw1 & Hsock).
    rewrite (run_step _ Client.LocalReadable e1 _ c false [] c1 [])
      by (cbn; rewrite Hlr, Hcb; reflexivity).
    destruct (reply_linger_close (setup_servers conf) e2 e3 c1 room
                [x05; xff] []) as [Hrun _]; try assumption.
    + right. right. exact Hst1.
    + rewrite Hn1. lia.
    + rewrite Hn1. exact Hbytes.
    + rewrite Hn1. reflexivity.
    + rewrite Hn1. exact Hroom.
    + rewrite Hsock in Hrun. exact Hrun.
  - intros e1 e2 e3 c d room Hwf Hst Hlr Hrecv Hd Hbad Hsend Hroom Hmem.
    assert (Hcases : Client.atyp_known (peek d 3) = false
                     \/ peek d 1 <> x01 \/ peek d 0 <> x05)
      by (destruct Hbad as [Hb | [Hb | Hb]]; auto).
    destruct (refused_reply_code (setup_servers conf) e1 c d
                Hwf Hst Hrecv Hd Hcases)
      as (c1 & Hcb & Hst1 & Hn1 & Hlw1 & Hbytes & Hsock).
    rewrite (run_step _ Client.LocalReadable e1 _ c false [] c1 [])
      by (cbn; rewrite Hlr, Hcb; reflexivity).
    destruct (reply_linger_close (setup_servers conf) e2 e3 c1 room
                (Client.socks_reply
                   (if Client.atyp_known (peek d 3) then
                      if byte_eqb (peek d 1) x01 then x01 else x07
                    else x08)) [])
      as [Hrun _]; try assumption.
    + left. exact Hst1.
    + rewrite Hn1. lia.
    + rewrite Hn1. exact Hbytes.
    + rewrite Hn1. reflexivity.
    + rewrite Hn1. exact Hroom.
    + rewrite Hsock in Hrun. exact Hrun.
  - intros e1 e2 e3 c d room Hwf Hst Hrr Hrecv Hd Hbad Hsend Hroom Hmem.
    destruct (reply_mismatch_step e1 c d Hwf Hst Hrecv Hd Hbad)
      as (c1 & Hcb & Hst1 & Hn1 & Hbytes & Hlw1 & Hsock).
    rewrite (run_step _ Client.RemoteReadable e1 _ c false [] c1 [])
      by (cbn; rewrite Hrr, Hcb; reflexivity).
    destruct (reply_linger_close (setup_servers conf) e2 e3 c1 room
                (Client.socks_reply x05) []) as [Hrun _]; try assumption.
    + right. left. exact Hst1.
    + rewrite Hn1. lia.
    + rewrite Hn1. exact Hbytes.
    + rewrite Hn1. reflexivity.
    + rewrite Hn1. exact Hroom.
    + rewrite Hsock in Hrun. exact Hrun.
  - intros e1 e2 e3 s room Hwf Hgai Hsend Hroom Hmem.
    destruct (dns_failed_step e1 s Hwf Hgai)
      as (s1 & Hcb & Hst1 & Hn1 & Hbytes & Hlw1 & Hsock).
    rewrite (server_run_step _ Server.Resolved e1 _ s false true [] s1
               [FreeGai]) by (cbn; rewrite Hcb; reflexivity).
    change (false || Server.starts_timer [FreeGai]) with false.
    rewrite (server_reply_linger_close (setup_servers conf) e2 e3 s1
               (fst (io_encrypt (Server.enc_evp s) [x00; x00; x00; x00]))
               room false ([] ++ [FreeGai]) Hst1 Hlw1 Hn1 Hbytes
               (io_encrypt_length _ _) Hsend Hroom Hmem).
    rewrite Hsock. reflexivity.
  - intros e s d Hwf Hst Hlr Hrecv Hd Hk Hbad.
    destruct (request_processed conf e s d Hwf Hst Hrecv Hd Hk)
      as (plain & enc' & Hdec & Hdrop & _).
    rewrite Hdec in Hbad. cbn [fst] in Hbad.
    cbn [Server.run Server.dispatch]. rewrite Hlr, (Hdrop Hbad). reflexivity.
Qed.

Lemma protocol_errors_answered_witness :
  Server.run (setup_servers Sample.conf)
    [(Server.Resolved, Sample.dns_failure);
     (Server.LocalWritable, Sample.io [] 4);
     (Server.TimerExpired, Sample.quiet)] Sample.server_resolving false true []
  = Server.Finished
      [FreeGai;
       Send (Server.sock_local Sample.server_resolving)
         (fst (io_encrypt (Collaborators := Standin.collaborators)
                 (Server.enc_evp Sample.server_resolving)
                 [x00; x00; x00; x00]));
       TimerStart LINGER_MS; TimerStop;
       Close (Server.sock_local Sample.server_resolving);
       FreeTimer; FreeConn]
  /\ Client.run (setup_servers Sample.conf)
       [(Client.LocalReadable, Sample.io [x04; x01; x00] 0);
        (Client.LocalWritable, Sample.io [] 2);
        (Client.TimerExpired, Sample.quiet)] Sample.accepted false []
     = Client.Finished
         [Send (Client.sock_local Sample.accepted) [x05; xff];
          TimerStart LINGER_MS; TimerStop;
          Close (Client.sock_local Sample.accepted); FreeTimer; FreeConn]
  /\ Client.run (setup_servers Sample.conf)
       [(Client.LocalReadable,
         Sample.io [x04; x05; x00; x01; x01; x02; x03; x04; x00; x50] 0);
        (Client.LocalWritable, Sample.io [] 10);
        (Client.TimerExpired, Sample.quiet)] Sample.negotiated false []
     = Client.Finished
         [Send (Client.sock_local Sample.negotiated) (Client.socks_reply x07);
          TimerStart LINGER_MS; TimerStop;
          Close (Client.sock_local Sample.negotiated); FreeTimer; FreeConn].
Proof.
  destruct (protocol_errors_answered (H := Standin.collaborators)
              Sample.conf)
    as (Hgreeting & Hrequest & _ & Hdns & _).
  split; [| split].
  - apply (Hdns Sample.dns_failure (Sample.io [] 4) Sample.quiet
             Sample.server_resolving 4%N).
    + apply conj; vm_compute; reflexivity.
    + reflexivity.
    + reflexivity.
    + vm_compute; discriminate.
    + reflexivity.
  - apply (Hgreeting (Sample.io [x04; x01; x00] 0) (Sample.io [] 2)
             Sample.quiet Sample.accepted [x04; x01; x00] 2%N).
    + apply conj; vm_compute; reflexivity.
    + reflexivity.
    + reflexivity.
    + reflexivity.
    + discriminate.
    + discriminate.
    + reflexivity.
    + vm_compute; discriminate.
    + reflexivity.
  - pose proof (Hrequest
                  (Sample.io
                     [x04; x05; x00; x01; x01; x02; x03; x04; x00; x50] 0)
                  (Sample.io [] 10) Sample.quiet Sample.negotiated
                  [x04; x05; x00; x01; x01; x02; x03; x04; x00; x50] 10%N)
      as Hrun.
    change (if Client.atyp_known
                 (peek [x04; x05; x00; x01; x01; x02; x03; x04; x00; x50] 3)
            then
              if byte_eqb
                   (peek [x04; x05; x00; x01; x01; x02; x03; x04; x00; x50]
                      1) x01
              then x01 else x07
            else x08) with x07 in Hrun.
    apply Hrun.
    + apply conj; vm_compute; reflexivity.
    + vm_compute; reflexivity.
    + vm_compute; reflexivity.
    + reflexivity.
    + discriminate.
    + left. discriminate.
    + reflexivity.
    + vm_compute; discriminate.
    + reflexivity.
Defined.

(** * The client between accept and release *)

Section ClientTimer.
Context `{Collaborators}.
Import Client.

Lemma starts_timer_sent fd region n : starts_timer (sent fd region n) = false.
Proof. unfold sent. destruct (n <? 0); reflexivity. Qed.

Lemma starts_timer_linger fx :
  starts_timer (fx ++ [TimerStart LINGER_MS]) = true.
Proof.
  unfold starts_timer. rewrite existsb_app. cbn. apply orb_true_r.
Qed.

(** Only [local_write_cb] starts the timer, and it does so exactly when it
    leaves the block in [CLOSE_WAIT]. *)
Lemma local_read_timer servers e c c' fx :
  local_read_cb servers e c = Live c' fx ->
  starts_timer fx = false /\ state c' <> CLOSE_WAIT.
Proof.
  intro Hcb. unfold local_read_cb in Hcb.
  destruct (state c) eqn:Hst; cbn in Hcb; rewrite ?Hst in Hcb;
    try discriminate.
  - destruct (recv (recv_res e) _) as [n rx]. cbn in Hcb.
    destruct (n <=? 0); [discriminate |].
    destruct (nego_error rx =? 0); injection Hcb as <- <-;
      (split; [reflexivity | cbn; discriminate]).
  - destruct (recv (recv_res e) _) as [n rx]. cbn in Hcb.
    destruct (n <=? 0); [discriminate |].
    destruct (parse_request rx) as [[error host] port].
    destruct (error =? 0).
    + destruct (request_key _ _ _ _) as [rx' key]. cbn in Hcb.
      destruct (encrypt_in_place _ _ _) as [tx enc]. cbn in Hcb.
      destruct (socket_res e <? 0); [discriminate |].
      injection Hcb as <- <-. split; [reflexivity | cbn; discriminate].
    + injection Hcb as <- <-. split; [reflexivity | cbn; discriminate].
  - destruct (recv (recv_res e) (tx_buf c)) as [n tx]. cbn in Hcb.
    destruct (n <=? 0); [discriminate |].
    destruct (encrypt_in_place _ _ _) as [tx' enc]. cbn in Hcb.
    destruct (send _ _ <? 0);
      [destruct (errno_again _); [| discriminate] |
       destruct (send _ _ <? n)];
      injection Hcb as <- <-; (split; [apply starts_timer_sent |]);
      cbn; rewrite Hst; discriminate.
Qed.

Lemma remote_read_timer e c c' fx :
  remote_read_cb e c = Live c' fx ->
  starts_timer fx = false /\ state c' <> CLOSE_WAIT.
Proof.
  intro Hcb. unfold remote_read_cb in Hcb.
  destruct (state c) eqn:Hst; cbn in Hcb; rewrite ?Hst in Hcb;
    try discriminate.
  - destruct (recv (recv_res e) (rx_buf c)) as [n rx]. cbn in Hcb.
    destruct (negb (n =? 4)); [discriminate |].
    destruct (decrypt_in_place _ _ _) as [rx' enc]. cbn in Hcb.
    destruct (load_be32 rx' 0 =? MAGIC); injection Hcb as <- <-;
      (split; [reflexivity | cbn; discriminate]).
  - destruct (recv (recv_res e) (rx_buf c)) as [n rx]. cbn in Hcb.
    destruct (n <=? 0); [discriminate |].
    destruct (decrypt_in_place _ _ _) as [rx' enc]. cbn in Hcb.
    destruct (send _ _ <? 0);
      [destruct (errno_again _); [| discriminate] |
       destruct (send _ _ <? n)];
      injection Hcb as <- <-; (split; [apply starts_timer_sent |]);
      cbn; rewrite Hst; discriminate.
Qed.

Lemma remote_write_timer e c c' fx :
  remote_write_cb e c = Live c' fx ->
  starts_timer fx = false /\ state c' <> CLOSE_WAIT.
Proof.
  intro Hcb. unfold remote_write_cb in Hcb.
  destruct (state c) eqn:Hst; cbn in Hcb; rewrite ?Hst in Hcb;
    try discriminate.
  - destruct (negb _); [discriminate |].
    injection Hcb as <- <-. split; [apply starts_timer_sent |].
    cbn. discriminate.
  - destruct (negb _); [discriminate |]. cbn in Hcb.
    destruct (send _ _ <? 0);
      [destruct (errno_again _); [| discriminate] |
       destruct (send _ _ <? _)];
      injection Hcb as <- <-; (split; [apply starts_timer_sent |]);
      cbn; rewrite ?Hst; discriminate.
Qed.

Lemma connect_timer e c c' fx :
  connect_cb e c = Live c' fx ->
  starts_timer fx = false /\ state c' <> CLOSE_WAIT.
Proof.
  intro Hcb. unfold connect_cb in Hcb.
  destruct (state c) eqn:Hst; cbn in Hcb; try discriminate.
  destruct (so_error e =? 0); injection Hcb as <- <-;
    (split; [reflexivity | cbn; discriminate]).
Qed.

Lemma local_write_timer e c c' fx :
  local_write_cb e c = Live c' fx ->
  (starts_timer fx = true <-> state c' = CLOSE_WAIT).
Proof.
  intro Hcb. unfold local_write_cb, close_wait in Hcb.
  destruct (state c) eqn:Hst; cbn in Hcb; rewrite ?Hst in Hcb;
    try discriminate.
  1-5: destruct (negb _); [discriminate |].
  1-5: try (destruct (mem_new_ok e); [| discriminate]).
  1-5: injection Hcb as <- <-; cbn.
  1-5: rewrite ?starts_timer_linger, ?starts_timer_sent.
  1-5: split; first [reflexivity | discriminate].
  destruct (negb _); [discriminate |]. cbn in Hcb.
  destruct (send _ _ <? 0);
    [destruct (errno_again _); [| discriminate] |
     destruct (send _ _ <? _)];
    injection Hcb as <- <-; rewrite starts_timer_sent; cbn; rewrite ?Hst;
    split; discriminate.
Qed.

(** The timer is pending exactly while the block is in [CLOSE_WAIT]. *)
Lemma reachable_linger servers c timer :
  reachable servers c timer -> (timer = true <-> state c = CLOSE_WAIT).
Proof.
  induction 1 as [fd blank c fx Hacc | c timer ev e c' fx Hreach IH Hd].
  - unfold accept_cb in Hacc. cbn in Hacc.
    destruct (fd <? 0); [discriminate |].
    injection Hacc as <- _. cbn. split; discriminate.
  - pose proof (reachable_inv servers c timer Hreach) as Hinv.
    destruct timer.
    + exfalso. destruct IH as [IH _]. specialize (IH eq_refl).
      unfold inv in Hinv. rewrite IH in Hinv. unfold watchers in Hinv.
      injection Hinv as E1 E2 E3 E4.
      destruct ev; cbn in Hd; rewrite ?E1, ?E2, ?E3, ?E4 in Hd;
        try discriminate.
      unfold closewait_cb in Hd. rewrite IH in Hd. discriminate.
    + cbn [orb].
      destruct ev; cbn in Hd.
      * destruct (w_local_read c); [| discriminate]. injection Hd as Hd.
        destruct (local_read_timer servers e c c' fx Hd) as [-> Hne].
        split; [discriminate | contradiction].
      * destruct (w_local_write c); [| discriminate]. injection Hd as Hd.
        exact (local_write_timer e c c' fx Hd).
      * destruct (w_remote_read c); [| discriminate]. injection Hd as Hd.
        destruct (remote_read_timer e c c' fx Hd) as [-> Hne].
        split; [discriminate | contradiction].
      * destruct (w_remote_write c); [| discriminate].
        destruct (w_remote_write_cb c); [discriminate | |];
          injection Hd as Hd.
        -- destruct (connect_timer e c c' fx Hd) as [-> Hne].
           split; [discriminate | contradiction].
        -- destruct (remote_write_timer e c c' fx Hd) as [-> Hne].
           split; [discriminate | contradiction].
      * discriminate.
Qed.

End ClientTimer.

(** The invariant excludes the state: a watcher it leaves inactive is
    active, or another callback is installed. *)
Ltac wrong_state Hinv :=
  exfalso; unfold Client.watchers in Hinv;
  repeat match goal with H : _ /\ _ |- _ => destruct H end;
  congruence.

(** X1.  No assertion of the client fails.  For every block the loop can
    hold and every event the loop can deliver to it (a callback runs only
    for an active watcher, and the timer callback only once the timer was
    started), the callback meets a state its [switch] handles, and in the
    relay phase a drain callback finds a positive byte count. *)
Theorem client_assertions_hold `{Collaborators} servers c timer ev e :
  Client.reachable servers c timer ->
  Client.dispatch servers ev e timer c <> Some Client.Abort.
Proof.
  intro Hreach.
  pose proof (reachable_inv servers c timer Hreach) as Hinv.
  pose proof (reachable_linger servers c timer Hreach) as Hlinger.
  unfold Client.inv in Hinv.
  destruct ev; cbn.
  - destruct (Client.w_local_read c) eqn:Hw; [| discriminate].
    unfold Client.local_read_cb.
    destruct (Client.state c) eqn:Hst; cbn; rewrite ?Hst;
      try wrong_state Hinv.
    + destruct (recv (recv_res e) _) as [n rx]. cbn.
      destruct (n <=? 0); [discriminate |].
      destruct (Client.nego_error rx =? 0); discriminate.
    + destruct (recv (recv_res e) _) as [n rx]. cbn.
      destruct (n <=? 0); [discriminate |].
      destruct (Client.parse_request rx) as [[error host] port].
      destruct (error =? 0); [| discriminate].
      destruct (Client.request_key _ _ _ _) as [rx' key]. cbn.
      destruct (encrypt_in_place _ _ _) as [tx enc]. cbn.
      destruct (socket_res e <? 0); discriminate.
    + destruct (recv (recv_res e) (Client.tx_buf c)) as [n tx]. cbn.
      destruct (n <=? 0); [discriminate |].
      destruct (encrypt_in_place _ _ _) as [tx' enc]. cbn.
      destruct (send _ _ <? 0);
        [destruct (errno_again _) | destruct (send _ _ <? n)];
        discriminate.
  - destruct (Client.w_local_write c) eqn:Hw; [| discriminate].
    unfold Client.local_write_cb, Client.close_wait.
    destruct (Client.state c) eqn:Hst; cbn; rewrite ?Hst;
      try wrong_state Hinv.
    1-5: destruct (negb _); [discriminate |].
    1-5: try (destruct (mem_new_ok e)); discriminate.
    destruct Hinv as (_ & (_ & Hrx) & _).
    destruct (Hrx Hw) as (_ & Hpos & _).
    destruct (Z.ltb_spec 0 (Client.rx_bytes c)); [| lia]. cbn.
    destruct (send _ _ <? 0);
      [destruct (errno_again _) | destruct (send _ _ <? _)];
      discriminate.
  - destruct (Client.w_remote_read c) eqn:Hw; [| discriminate].
    unfold Client.remote_read_cb.
    destruct (Client.state c) eqn:Hst; cbn; rewrite ?Hst;
      try wrong_state Hinv.
    + destruct (recv (recv_res e) (Client.rx_buf c)) as [n rx]. cbn.
      destruct (negb (n =? 4)); [discriminate |].
      destruct (decrypt_in_place _ _ _) as [rx' enc]. cbn.
      destruct (load_be32 rx' 0 =? MAGIC); discriminate.
    + destruct (recv (recv_res e) (Client.rx_buf c)) as [n rx]. cbn.
      destruct (n <=? 0); [discriminate |].
      destruct (decrypt_in_place _ _ _) as [rx' enc]. cbn.
      destruct (send _ _ <? 0);
        [destruct (errno_again _) | destruct (send _ _ <? n)];
        discriminate.
  - destruct (Client.w_remote_write c) eqn:Hw; [| discriminate].
    destruct (Client.w_remote_write_cb c) eqn:Hk; [discriminate | |].
    + unfold Client.connect_cb.
      destruct (Client.state c) eqn:Hst; cbn;
        try wrong_state Hinv.
      destruct (so_error e =? 0); discriminate.
    + unfold Client.remote_write_cb.
      destruct (Client.state c) eqn:Hst; cbn; rewrite ?Hst;
        try wrong_state Hinv.
      * destruct (negb _); discriminate.
      * destruct Hinv as (_ & (Htx & _) & _).
        destruct (Htx Hw) as (_ & Hpos & _).
        destruct (Z.ltb_spec 0 (Client.tx_bytes c)); [| lia]. cbn.
        destruct (send _ _ <? 0);
          [destruct (errno_again _) | destruct (send _ _ <? _)];
          discriminate.
  - destruct timer; [| discriminate].
    destruct Hlinger as [Hl _]. unfold Client.closewait_cb.
    rewrite (Hl eq_refl). discriminate.
Qed.

(** * The end of the handshake at the client *)

Section ClientHandshake.
Context `{Collaborators}.
Import Client.

(** The four bytes of the server decrypt to the magic: the SOCKS5 reply
    with code 0x00 is prepared. *)
Lemma reply_accepted_step e c d :
  wf c -> state c = REQ_SENT -> recv_res e = RecvData d ->
  length d = 4%nat ->
  load_be32 (fst (io_decrypt (enc_evp c) d)) 0 = MAGIC ->
  exists c',
    remote_read_cb e c = Live c' []
    /\ state c' = REP_RCVD /\ tx_bytes c' = 10
    /\ sub (tx_buf c') 0 10 = socks_reply x00
    /\ watchers c'
       = (w_local_read c, true, false, w_remote_write c)
    /\ w_remote_write_cb c' = w_remote_write_cb c
    /\ sock_local c' = sock_local c /\ sock_remote c' = sock_remote c
    /\ enc_evp c' = snd (io_decrypt (enc_evp c) d).
Proof.
  intros [Hrx Htx] Hst Hrecv Hd Hok.
  assert (Hfirst : firstn (Z.to_nat BUF_SIZE) d = d)
    by (apply firstn_all2; unfold BUF_SIZE; lia).
  assert (Hrx1 : memcpy (rx_buf c) 0 d = d ++ skipn 4 (rx_buf c)).
  { unfold memcpy. rewrite firstn_O, Hd. reflexivity. }
  set (T := skipn 4 (rx_buf c)) in *.
  assert (Hdec : decrypt_in_place (enc_evp c) (d ++ T) 4
                 = (fst (io_decrypt (enc_evp c) d) ++ T,
                    snd (io_decrypt (enc_evp c) d))).
  { unfold decrypt_in_place. rewrite (sub_head d T 4 Hd).
    pose proof (io_decrypt_length (enc_evp c) d) as Hl.
    destruct (io_decrypt (enc_evp c) d) as [out enc']. cbn [fst snd] in *.
    rewrite (memcpy_head d T out) by lia. reflexivity. }
  assert (Hout : length (fst (io_decrypt (enc_evp c) d)) = 4%nat)
    by (rewrite io_decrypt_length; exact Hd).
  unfold remote_read_cb. rewrite Hst. cbn. rewrite ?Hst. cbn.
  rewrite Hrecv, recv_data, Hfirst, Hd. cbn.
  rewrite Hrx1, Hdec. cbn.
  rewrite (load_be32_app_l _ T) by lia.
  rewrite Hok, Z.eqb_refl.
  eexists. split; [reflexivity |]. cbn.
  rewrite reply_bytes by exact Htx. repeat split; reflexivity.
Qed.

(** Anything but four bytes from the server ends the connection. *)
Lemma reply_wrong_size e c :
  state c = REQ_SENT -> fst (recv (recv_res e) (rx_buf c)) <> 4 ->
  remote_read_cb e c
  = Gone [Close (sock_local c); Close (sock_remote c); FreeConn].
Proof.
  intros Hst Hn. unfold remote_read_cb. rewrite Hst. cbn. rewrite ?Hst. cbn.
  destruct (recv (recv_res e) (rx_buf c)) as [n rx]. cbn [fst] in Hn.
  destruct (Z.eqb_spec n 4) as [| _]; [contradiction |]. reflexivity.
Qed.

(** The SOCKS5 success reply goes out whole: the relay phase begins. *)
Lemma reply_sent_step e c room reply :
  state c = REP_RCVD -> 0 <= tx_bytes c ->
  sub (tx_buf c) 0 (Z.to_nat (tx_bytes c)) = reply ->
  length reply = Z.to_nat (tx_bytes c) ->
  send_res e = SendRoom room -> tx_bytes c <= Z.of_N room ->
  exists c',
    local_write_cb e c = Live c' [Send (sock_local c) reply]
    /\ state c' = ESTAB
    /\ watchers c' = (true, false, true, w_remote_write c)
    /\ w_remote_write_cb c' = w_remote_write_cb c
    /\ sock_local c' = sock_local c /\ sock_remote c' = sock_remote c
    /\ enc_evp c' = enc_evp c.
Proof.
  intros Hst Hpos Hreply Hlen Hsend Hroom.
  unfold local_write_cb. rewrite Hst. cbn. rewrite ?Hst. cbn.
  rewrite Hsend, send_all by lia.
  rewrite Z.eqb_refl. cbn.
  rewrite Hreply, sent_all by first [exact Hlen | lia].
  eexists. split; [reflexivity |]. cbn. rewrite ?Hst.
  repeat split; reflexivity.
Qed.

(** [connect_cb] when the connection to the server failed. *)
Lemma connect_failed_step e c :
  wf c -> state c = CMD_RCVD -> so_error e <> 0 ->
  exists c',
    connect_cb e c = Live c' [Close (sock_remote c)]
    /\ state c' = REQ_ERR /\ tx_bytes c' = 10
    /\ sub (tx_buf c') 0 10 = socks_reply x05
    /\ w_local_write c' = true /\ w_remote_write c' = false
    /\ sock_local c' = sock_local c.
Proof.
  intros [Hrx Htx] Hst Herr. unfold connect_cb. rewrite Hst.
  destruct (Z.eqb_spec (so_error e) 0) as [| _]; [contradiction |]. cbn.
  eexists. split; [reflexivity |]. cbn.
  rewrite reply_bytes by exact Htx. repeat split; reflexivity.
Qed.

(** A handshake reply that [send] does not take whole. *)
Lemma handshake_short_write e c :
  (state c = NEGO_RCVD \/ state c = NEGO_ERR \/ state c = CMD_ERR
   \/ state c = REQ_ERR \/ state c = REP_RCVD) ->
  send (send_res e) (tx_bytes c) <> tx_bytes c ->
  local_write_cb e c
  = Gone (sent (sock_local c) (sub (tx_buf c) 0 (Z.to_nat (tx_bytes c)))
            (send (send_res e) (tx_bytes c))
          ++ [Close (sock_local c); FreeConn]).
Proof.
  intros Hst Hshort. unfold local_write_cb.
  destruct Hst as [Hst | [Hst | [Hst | [Hst | Hst]]]];
    rewrite Hst; cbn; rewrite ?Hst; cbn;
    (destruct (Z.eqb_spec (send (send_res e) (tx_bytes c)) (tx_bytes c))
      as [| _]; [contradiction |]); reflexivity.
Qed.

Lemma sent_failed fd region : sent fd region (-1) = [].
Proof. reflexivity. Qed.

Lemma sent_part fd region room :
  sent fd region (Z.of_N room) = [Send fd (firstn (N.to_nat room) region)].
Proof.
  unfold sent. destruct (Z.ltb_spec (Z.of_N room) 0); [lia |].
  rewrite <- Z_N_nat, N2Z.id. reflexivity.
Qed.

End ClientHandshake.

(** * What the relay puts on the wire *)

Section Pipes.
Context `{Collaborators}.

Lemma sub_skip (buf : list byte) off k m :
  (k <= m)%nat -> sub buf (off + k) (m - k) = skipn k (sub buf off m).
Proof.
  intro Hk. unfold sub.
  rewrite skipn_firstn_comm, skipn_skipn. f_equal. f_equal. lia.
Qed.

Lemma sent_on_app fd fx fy :
  sent_on fd (fx ++ fy) = sent_on fd fx ++ sent_on fd fy.
Proof. unfold sent_on. apply flat_map_app. Qed.

Lemma sent_on_send fd data : sent_on fd [Send fd data] = data.
Proof. unfold sent_on. cbn. rewrite Z.eqb_refl. apply app_nil_r. Qed.

(** What [send] took of a region and what it left. *)
Lemma sent_on_sent fd (region : list byte) n :
  sent_on fd (sent fd region n) = firstn (Z.to_nat n) region.
Proof.
  unfold sent. destruct (Z.ltb_spec n 0) as [Hneg | Hpos].
  - replace (Z.to_nat n) with 0%nat by lia. reflexivity.
  - apply sent_on_send.
Qed.

(** [io_encrypt] and [io_decrypt] in place on what [recv] just stored. *)
Lemma encrypt_received enc buf (d : list byte) :
  encrypt_in_place enc (memcpy buf 0 d) (length d)
  = (memcpy (memcpy buf 0 d) 0 (fst (io_encrypt enc d)),
     snd (io_encrypt enc d)).
Proof.
  unfold encrypt_in_place.
  rewrite (sub_memcpy_same buf 0 d) by lia.
  destruct (io_encrypt enc d) as [out enc']. reflexivity.
Qed.

Lemma decrypt_received enc buf (d : list byte) :
  decrypt_in_place enc (memcpy buf 0 d) (length d)
  = (memcpy (memcpy buf 0 d) 0 (fst (io_decrypt enc d)),
     snd (io_decrypt enc d)).
Proof.
  unfold decrypt_in_place.
  rewrite (sub_memcpy_same buf 0 d) by lia.
  destruct (io_decrypt enc d) as [out enc']. reflexivity.
Qed.

(** The first [n] bytes handed to [send], and the rest of the region. *)
Lemma region_split (buf out : list byte) n k :
  length out = n -> 0 <= k <= Z.of_nat n ->
  firstn (Z.to_nat k) (sub (memcpy buf 0 out) 0 n)
    ++ sub (memcpy buf 0 out) (Z.to_nat k) (Z.to_nat (Z.of_nat n - k))
  = out.
Proof.
  intros Hlen Hk.
  replace (Z.to_nat (Z.of_nat n - k)) with (n - Z.to_nat k)%nat by lia.
  rewrite (sub_skip _ 0 (Z.to_nat k) n) by lia.
  rewrite firstn_skipn.
  rewrite <- Hlen. apply sub_memcpy_same. lia.
Qed.

Lemma drain_split (buf : list byte) off m k :
  0 <= off -> 0 <= k <= m ->
  firstn (Z.to_nat k) (sub buf (Z.to_nat off) (Z.to_nat m))
    ++ sub buf (Z.to_nat (off + k)) (Z.to_nat (m - k))
  = sub buf (Z.to_nat off) (Z.to_nat m).
Proof.
  intros Hoff Hk.
  replace (Z.to_nat (off + k)) with (Z.to_nat off + Z.to_nat k)%nat by lia.
  replace (Z.to_nat (m - k)) with (Z.to_nat m - Z.to_nat k)%nat by lia.
  rewrite sub_skip by lia. apply firstn_skipn.
Qed.

End Pipes.

Section ClientPipes.
Context `{Collaborators}.
Import Client.

(** [local_read_cb] in the relay phase: the ciphertext of what was read is
    sent or left pending, byte for byte. *)
Lemma tx_read_step servers e c c' fx d :
  state c = ESTAB -> w_remote_write c = false ->
  recv_res e = RecvData d ->
  local_read_cb servers e c = Live c' fx ->
  sent_on (sock_remote c) fx
    ++ (if w_remote_write c' then tx_pending c' else [])
  = fst (io_encrypt (enc_evp c) (firstn (Z.to_nat BUF_SIZE) d))
  /\ enc_evp c'
     = snd (io_encrypt (enc_evp c) (firstn (Z.to_nat BUF_SIZE) d))
  /\ sock_remote c' = sock_remote c.
Proof.
  intros Hst Hw Hrecv Hcb.
  unfold local_read_cb in Hcb. rewrite Hst in Hcb. cbn in Hcb.
  rewrite ?Hst in Hcb. cbn in Hcb.
  rewrite Hrecv, recv_data in Hcb. cbn in Hcb.
  set (d' := firstn (Z.to_nat BUF_SIZE) d) in *.
  destruct (Z.leb_spec (Z.of_nat (length d')) 0) as [| Hpos];
    [discriminate |].
  rewrite Nat2Z.id, encrypt_received in Hcb. cbn in Hcb.
  pose proof (io_encrypt_length (enc_evp c) d') as Hlen.
  set (ct := fst (io_encrypt (enc_evp c) d')) in *.
  set (tx := memcpy (tx_buf c) 0 d') in *.
  pose proof (send_range (send_res e) (Z.of_nat (length d')) ltac:(lia))
    as Hsend.
  set (n := send (send_res e) (Z.of_nat (length d'))) in *.
  assert (Hall : sub (memcpy tx 0 ct) 0 (length d') = ct)
    by (rewrite <- Hlen; apply sub_memcpy_same; lia).
  destruct (Z.ltb_spec n 0) as [Hneg | Hnn].
  - destruct (errno_again (send_res e)); [| discriminate].
    injection Hcb as <- <-. cbn.
    unfold tx_pending. cbn. rewrite Nat2Z.id.
    rewrite sent_on_sent. replace (Z.to_nat n) with 0%nat by lia.
    rewrite firstn_O. cbn [app].
    repeat split; try reflexivity. exact Hall.
  - destruct (Z.ltb_spec n (Z.of_nat (length d'))) as [Hpart | Hfull].
    + injection Hcb as <- <-. cbn.
      unfold tx_pending. cbn.
      rewrite sent_on_sent.
      repeat split; try reflexivity.
      apply region_split; [exact Hlen | lia].
    + injection Hcb as <- <-. cbn. rewrite Hw.
      rewrite sent_on_sent, app_nil_r.
      repeat split; try reflexivity.
      rewrite Hall. apply firstn_all2. lia.
Qed.

(** [remote_write_cb] in the relay phase: what it sends and what it leaves
    pending is what was pending. *)
Lemma tx_drain_step e c c' fx :
  state c = ESTAB -> w_remote_write c = true -> 0 <= tx_offset c ->
  remote_write_cb e c = Live c' fx ->
  sent_on (sock_remote c) fx
    ++ (if w_remote_write c' then tx_pending c' else [])
  = tx_pending c
  /\ enc_evp c' = enc_evp c /\ sock_remote c' = sock_remote c.
Proof.
  intros Hst Hw Hoff Hcb.
  unfold remote_write_cb in Hcb. rewrite Hst in Hcb. cbn in Hcb.
  rewrite ?Hst in Hcb. cbn in Hcb.
  destruct (Z.ltb_spec 0 (tx_bytes c)) as [Hpos |]; [| discriminate].
  cbn in Hcb.
  pose proof (send_range (send_res e) (tx_bytes c) ltac:(lia)) as Hsend.
  set (n := send (send_res e) (tx_bytes c)) in *.
  fold (tx_pending c) in Hcb.
  destruct (Z.ltb_spec n 0) as [Hneg | Hnn].
  - destruct (errno_again (send_res e)); [| discriminate].
    injection Hcb as <- <-. rewrite Hw, sent_on_sent.
    replace (Z.to_nat n) with 0%nat by lia.
    repeat split; reflexivity.
  - destruct (Z.ltb_spec n (tx_bytes c)) as [Hpart | Hfull].
    + injection Hcb as <- <-. cbn. rewrite Hw, sent_on_sent.
      repeat split; try reflexivity.
      unfold tx_pending. cbn. apply drain_split; lia.
    + injection Hcb as <- <-. cbn. rewrite sent_on_sent, app_nil_r.
      repeat split; try reflexivity.
      unfold tx_pending, sub. apply firstn_all2.
      rewrite length_firstn. lia.
Qed.

(** The same for the other pipe: [remote_read_cb] and [local_write_cb]. *)
Lemma rx_read_step e c c' fx d :
  state c = ESTAB -> w_local_write c = false ->
  recv_res e = RecvData d ->
  remote_read_cb e c = Live c' fx ->
  sent_on (sock_local c) fx
    ++ (if w_local_write c' then rx_pending c' else [])
  = fst (io_decrypt (enc_evp c) (firstn (Z.to_nat BUF_SIZE) d))
  /\ enc_evp c'
     = snd (io_decrypt (enc_evp c) (firstn (Z.to_nat BUF_SIZE) d))
  /\ sock_local c' = sock_local c.
Proof.
  intros Hst Hw Hrecv Hcb.
  unfold remote_read_cb in Hcb. rewrite Hst in Hcb. cbn in Hcb.
  rewrite ?Hst in Hcb. cbn in Hcb.
  rewrite Hrecv, recv_data in Hcb. cbn in Hcb.
  set (d' := firstn (Z.to_nat BUF_SIZE) d) in *.
  destruct (Z.leb_spec (Z.of_nat (length d')) 0) as [| Hpos];
    [discriminate |].
  rewrite Nat2Z.id, decrypt_received in Hcb. cbn in Hcb.
  pose proof (io_decrypt_length (enc_evp c) d') as Hlen.
  set (pt := fst (io_decrypt (enc_evp c) d')) in *.
  set (rx := memcpy (rx_buf c) 0 d') in *.
  pose proof (send_range (send_res e) (Z.of_nat (length d')) ltac:(lia))
    as Hsend.
  set (n := send (send_res e) (Z.of_nat (length d'))) in *.
  assert (Hall : sub (memcpy rx 0 pt) 0 (length d') = pt)
    by (rewrite <- Hlen; apply sub_memcpy_same; lia).
  destruct (Z.ltb_spec n 0) as [Hneg | Hnn].
  - destruct (errno_again (send_res e)); [| discriminate].
    injection Hcb as <- <-. cbn.
    unfold rx_pending. cbn. rewrite Nat2Z.id.
    rewrite sent_on_sent. replace (Z.to_nat n) with 0%nat by lia.
    rewrite firstn_O. cbn [app].
    repeat split; try reflexivity. exact Hall.
  - destruct (Z.ltb_spec n (Z.of_nat (length d'))) as [Hpart | Hfull].
    + injection Hcb as <- <-. cbn.
      unfold rx_pending. cbn.
      rewrite sent_on_sent.
      repeat split; try reflexivity.
      apply region_split; [exact Hlen | lia].
    + injection Hcb as <- <-. cbn. rewrite Hw.
      rewrite sent_on_sent, app_nil_r.
      repeat split; try reflexivity.
      rewrite Hall. apply firstn_all2. lia.
Qed.

Lemma rx_drain_step e c c' fx :
  state c = ESTAB -> w_local_write c = true -> 0 <= rx_offset c ->
  local_write_cb e c = Live c' fx ->
  sent_on (sock_local c) fx
    ++ (if w_local_write c' then rx_pending c' else [])
  = rx_pending c
  /\ enc_evp c' = enc_evp c /\ sock_local c' = sock_local c.
Proof.
  intros Hst Hw Hoff Hcb.
  unfold local_write_cb in Hcb. rewrite Hst in Hcb. cbn in Hcb.
  rewrite ?Hst in Hcb. cbn in Hcb.
  destruct (Z.ltb_spec 0 (rx_bytes c)) as [Hpos |]; [| discriminate].
  cbn in Hcb.
  pose proof (send_range (send_res e) (rx_bytes c) ltac:(lia)) as Hsend.
  set (n := send (send_res e) (rx_bytes c)) in *.
  fold (rx_pending c) in Hcb.
  destruct (Z.ltb_spec n 0) as [Hneg | Hnn].
  - destruct (errno_again (send_res e)); [| discriminate].
    injection Hcb as <- <-. rewrite Hw, sent_on_sent.
    replace (Z.to_nat n) with 0%nat by lia.
    repeat split; reflexivity.
  - destruct (Z.ltb_spec n (rx_bytes c)) as [Hpart | Hfull].
    + injection Hcb as <- <-. cbn. rewrite Hw, sent_on_sent.
      repeat split; try reflexivity.
      unfold rx_pending. cbn. apply drain_split; lia.
    + injection Hcb as <- <-. cbn. rewrite sent_on_sent, app_nil_r.
      repeat split; try reflexivity.
      unfold rx_pending, sub. apply firstn_all2.
      rewrite length_firstn. lia.
Qed.

End ClientPipes.

Section ClientPipeRuns.
Context `{Collaborators}.
Import Client.

Lemma tx_drain_run servers es :
  forall c timer acc c' timer' acc',
    reachable servers c timer -> state c = ESTAB ->
    run servers (map (pair RemoteWritable) es) c timer acc
    = Running c' timer' acc' ->
    sent_on (sock_remote c) acc'
      ++ (if w_remote_write c' then tx_pending c' else [])
    = sent_on (sock_remote c) acc
        ++ (if w_remote_write c then tx_pending c else []).
Proof.
  induction es as [| e es IH]; intros c timer acc c' timer' acc' Hr Hst Hrun.
  - cbn in Hrun. injection Hrun as <- _ <-. reflexivity.
  - cbn [map] in Hrun.
    pose proof (reachable_inv servers c timer Hr) as Hinv.
    unfold inv in Hinv. rewrite Hst in Hinv.
    destruct Hinv as (_ & (Htx & _) & Hk).
    cbn [run] in Hrun.
    destruct (dispatch servers RemoteWritable e timer c)
      as [[c1 fx | fx |] |] eqn:Hd; try discriminate;
      [| destruct es; discriminate].
    pose proof (estab_stays servers _ e timer c c1 fx Hst Hd) as Hst1.
    pose proof (reach_step servers c timer _ e c1 fx Hr Hd) as Hr1.
    cbn in Hd. destruct (w_remote_write c) eqn:Hw; [| discriminate].
    rewrite Hk in Hd. injection Hd as Hd.
    destruct (Htx eq_refl) as (Hoff & _).
    destruct (tx_drain_step e c c1 fx Hst Hw Hoff Hd) as (Hsplit & _ & Hfd).
    pose proof (IH c1 _ (acc ++ fx) c' timer' acc' Hr1 Hst1 Hrun) as HI.
    rewrite Hfd in HI. rewrite HI.
    rewrite sent_on_app, <- app_assoc, Hsplit. reflexivity.
Qed.

Lemma rx_drain_run servers es :
  forall c timer acc c' timer' acc',
    reachable servers c timer -> state c = ESTAB ->
    run servers (map (pair LocalWritable) es) c timer acc
    = Running c' timer' acc' ->
    sent_on (sock_local c) acc'
      ++ (if w_local_write c' then rx_pending c' else [])
    = sent_on (sock_local c) acc
        ++ (if w_local_write c then rx_pending c else []).
Proof.
  induction es as [| e es IH]; intros c timer acc c' timer' acc' Hr Hst Hrun.
  - cbn in Hrun. injection Hrun as <- _ <-. reflexivity.
  - cbn [map] in Hrun.
    pose proof (reachable_inv servers c timer Hr) as Hinv.
    unfold inv in Hinv. rewrite Hst in Hinv.
    destruct Hinv as (_ & (_ & Hrx) & _).
    cbn [run] in Hrun.
    destruct (dispatch servers LocalWritable e timer c)
      as [[c1 fx | fx |] |] eqn:Hd; try discriminate;
      [| destruct es; discriminate].
    pose proof (estab_stays servers _ e timer c c1 fx Hst Hd) as Hst1.
    pose proof (reach_step servers c timer _ e c1 fx Hr Hd) as Hr1.
    cbn in Hd. destruct (w_local_write c) eqn:Hw; [| discriminate].
    injection Hd as Hd.
    destruct (Hrx eq_refl) as (Hoff & _).
    destruct (rx_drain_step e c c1 fx Hst Hw Hoff Hd) as (Hsplit & _ & Hfd).
    pose proof (IH c1 _ (acc ++ fx) c' timer' acc' Hr1 Hst1 Hrun) as HI.
    rewrite Hfd in HI. rewrite HI.
    rewrite sent_on_app, <- app_assoc, Hsplit. reflexivity.
Qed.

End ClientPipeRuns.

(** X2.  The relay of the client loses, repeats and reorders nothing when
    [send] takes less than it is offered.  From any block the loop can hold
    in [ESTAB]: after a read from the application and whatever number of
    writable events on the server's socket that follow, the bytes put on
    that socket, followed by the bytes still pending while the writer is
    armed, are the ciphertext of the bytes read; and the same for a read
    from the server, decrypted and written to the application. *)
Theorem relay_short_writes_lose_nothing `{Collaborators} servers c timer :
  Client.reachable servers c timer -> Client.state c = Client.ESTAB ->
  (forall e0 d es c' timer' fx,
     recv_res e0 = RecvData d ->
     Client.run servers
       ((Client.LocalReadable, e0) :: map (pair Client.RemoteWritable) es)
       c timer []
     = Client.Running c' timer' fx ->
     sent_on (Client.sock_remote c) fx
       ++ (if Client.w_remote_write c' then Client.tx_pending c' else [])
     = fst (io_encrypt (Client.enc_evp c) (firstn (Z.to_nat BUF_SIZE) d)))
  /\ (forall e0 d es c' timer' fx,
        recv_res e0 = RecvData d ->
        Client.run servers
          ((Client.RemoteReadable, e0) :: map (pair Client.LocalWritable) es)
          c timer []
        = Client.Running c' timer' fx ->
        sent_on (Client.sock_local c) fx
          ++ (if Client.w_local_write c' then Client.rx_pending c' else [])
        = fst (io_decrypt (Client.enc_evp c)
                 (firstn (Z.to_nat BUF_SIZE) d))).
Proof.
  intros Hr Hst.
  pose proof (reachable_inv servers c timer Hr) as Hinv.
  unfold Client.inv in Hinv. rewrite Hst in Hinv.
  destruct Hinv as ((Hlr & Hrr) & _).
  split.
  - intros e0 d es c' timer' fx Hrecv Hrun.
    cbn [Client.run] in Hrun.
    destruct (Client.dispatch servers Client.LocalReadable e0 timer c)
      as [[c1 fx1 | fx1 |] |] eqn:Hd; try discriminate;
      [| destruct (map _ es); discriminate].
    pose proof (estab_stays servers _ e0 timer c c1 fx1 Hst Hd) as Hst1.
    pose proof (Client.reach_step servers c timer _ e0 c1 fx1 Hr Hd) as Hr1.
    cbn in Hd. destruct (Client.w_local_read c) eqn:Hw; [| discriminate].
    injection Hd as Hd.
    assert (Hrw : Client.w_remote_write c = false)
      by (destruct (Client.w_remote_write c); [discriminate | reflexivity]).
    destruct (tx_read_step servers e0 c c1 fx1 d Hst Hrw Hrecv Hd)
      as (Hsplit & _ & Hfd).
    pose proof (tx_drain_run servers es c1 _ ([] ++ fx1) c' timer' fx
                  Hr1 Hst1 Hrun) as Hdrain.
    rewrite Hfd in Hdrain. rewrite Hdrain. exact Hsplit.
  - intros e0 d es c' timer' fx Hrecv Hrun.
    cbn [Client.run] in Hrun.
    destruct (Client.dispatch servers Client.RemoteReadable e0 timer c)
      as [[c1 fx1 | fx1 |] |] eqn:Hd; try discriminate;
      [| destruct (map _ es); discriminate].
    pose proof (estab_stays servers _ e0 timer c c1 fx1 Hst Hd) as Hst1.
    pose proof (Client.reach_step servers c timer _ e0 c1 fx1 Hr Hd) as Hr1.
    cbn in Hd. destruct (Client.w_remote_read c) eqn:Hw; [| discriminate].
    injection Hd as Hd.
    assert (Hlw : Client.w_local_write c = false)
      by (destruct (Client.w_local_write c); [discriminate | reflexivity]).
    destruct (rx_read_step e0 c c1 fx1 d Hst Hlw Hrecv Hd)
      as (Hsplit & _ & Hfd).
    pose proof (rx_drain_run servers es c1 _ ([] ++ fx1) c' timer' fx
                  Hr1 Hst1 Hrun) as Hdrain.
    rewrite Hfd in Hdrain. rewrite Hdrain. exact Hsplit.
Qed.

(** X3.  The one-second timer and [CLOSE_WAIT] go together.  For every block
    the loop can hold, the timer is pending exactly when the block is in
    [CLOSE_WAIT]; such a block has no active watcher, so the only callback
    that can still run on it is [closewait_cb], which stops the timer,
    closes the local socket and releases the timer and the block. *)
Theorem linger_ends_by_timer `{Collaborators} servers c timer :
  Client.reachable servers c timer ->
  (timer = true <-> Client.state c = Client.CLOSE_WAIT)
  /\ (Client.state c = Client.CLOSE_WAIT ->
      Client.active c = 0%nat
      /\ forall ev e,
          Client.dispatch servers ev e timer c
          = match ev with
            | Client.TimerExpired =>
                Some (Client.Gone [TimerStop; Close (Client.sock_local c);
                                   FreeTimer; FreeConn])
            | _ => None
            end).
Proof.
  intro Hr.
  pose proof (reachable_linger servers c timer Hr) as Hl.
  split; [exact Hl |].
  intro Hst.
  pose proof (reachable_inv servers c timer Hr) as Hinv.
  unfold Client.inv in Hinv. rewrite Hst in Hinv.
  unfold Client.watchers in Hinv. injection Hinv as E1 E2 E3 E4.
  split.
  - unfold Client.active. rewrite E1, E2, E3, E4. reflexivity.
  - intros ev e. destruct ev; cbn; rewrite ?E1, ?E2, ?E3, ?E4;
      try reflexivity.
    destruct Hl as [_ Hl]. rewrite (Hl Hst).
    unfold Client.closewait_cb. rewrite Hst. reflexivity.
Qed.

(** X4.  Between two callbacks every block of the client waits on exactly
    one watcher during the handshake, on exactly two in the relay phase
    (one per pipe) and on none while it lingers.  A watcher is active only
    in states its callback handles, and the remote write watcher runs
    [connect_cb] in [CMD_RCVD] and [remote_write_cb] afterwards. *)
Theorem one_watcher_per_wait `{Collaborators} servers c timer :
  Client.reachable servers c timer ->
  Client.active c
  = match Client.state c with
    | Client.CLOSE_WAIT => 0%nat
    | Client.ESTAB => 2%nat
    | _ => 1%nat
    end
  /\ (Client.w_local_read c = true ->
      Client.state c = Client.CLOSED \/ Client.state c = Client.NEGO_SENT
      \/ Client.state c = Client.ESTAB)
  /\ (Client.w_local_write c = true ->
      Client.state c = Client.NEGO_RCVD \/ Client.state c = Client.NEGO_ERR
      \/ Client.state c = Client.CMD_ERR \/ Client.state c = Client.REQ_ERR
      \/ Client.state c = Client.REP_RCVD \/ Client.state c = Client.ESTAB)
  /\ (Client.w_remote_read c = true ->
      Client.state c = Client.REQ_SENT \/ Client.state c = Client.ESTAB)
  /\ (Client.w_remote_write c = true ->
      (Client.state c = Client.CMD_RCVD
       /\ Client.w_remote_write_cb c = Client.ConnectCb)
      \/ ((Client.state c = Client.CONNECTED
           \/ Client.state c = Client.ESTAB)
          /\ Client.w_remote_write_cb c = Client.RemoteWriteCb)).
Proof.
  intro Hr.
  pose proof (reachable_inv servers c timer Hr) as Hinv.
  unfold Client.inv, Client.watchers, Client.interlock in Hinv.
  unfold Client.active.
  destruct (Client.state c);
    repeat match goal with H : _ /\ _ |- _ => destruct H end;
    try match goal with
      | Hw : (_, _, _, _) = (_, _, _, _) |- _ =>
          injection Hw as E1 E2 E3 E4; rewrite E1, E2, E3, E4
      end;
    try match goal with
      | E1 : _ = negb ?rw, E2 : _ = negb ?lw |- _ =>
          rewrite E1, E2; destruct rw, lw
      end;
    repeat split; intros; try discriminate; auto 10.
Qed.

(** X5.  The end of the client's handshake.  A block that waits for the
    server's reply, on receiving four bytes that decrypt to the magic
    number, prepares the SOCKS5 reply [05 00 00 01 00 00 00 00 00 00]; once
    that reply is written whole the block is in [ESTAB] with both read
    watchers active and the cipher state advanced by the four bytes.  A
    read that does not return exactly four bytes closes both sockets and
    releases the block. *)
Theorem server_reply_establishes `{Collaborators} servers e1 e2 c :
  Client.wf c -> Client.state c = Client.REQ_SENT ->
  Client.watchers c = (false, false, true, false) ->
  (forall d room,
     recv_res e1 = RecvData d -> length d = 4%nat ->
     load_be32 (fst (io_decrypt (Client.enc_evp c) d)) 0 = MAGIC ->
     send_res e2 = SendRoom room -> 10 <= Z.of_N room ->
     exists c',
       Client.run servers
         [(Client.RemoteReadable, e1); (Client.LocalWritable, e2)] c false []
       = Client.Running c' false
           [Send (Client.sock_local c) (Client.socks_reply x00)]
       /\ Client.state c' = Client.ESTAB
       /\ Client.watchers c' = (true, false, true, false)
       /\ Client.enc_evp c' = snd (io_decrypt (Client.enc_evp c) d)
       /\ Client.sock_remote c' = Client.sock_remote c)
  /\ (fst (recv (recv_res e1) (Client.rx_buf c)) <> 4 ->
      Client.run servers [(Client.RemoteReadable, e1)] c false []
      = Client.Finished
          [Close (Client.sock_local c); Close (Client.sock_remote c);
           FreeConn]).
Proof.
  intros Hwf Hst Hw. unfold Client.watchers in Hw.
  injection Hw as E1 E2 E3 E4. split.
  - intros d room Hrecv Hd Hok Hsend Hroom.
    destruct (reply_accepted_step e1 c d Hwf Hst Hrecv Hd Hok)
      as (c1 & Hcb1 & Hst1 & Hn1 & Hbytes & Hw1 & Hk1 & Hl1 & Hr1 & Henc1).
    unfold Client.watchers in Hw1. injection Hw1 as F1 F2 F3 F4.
    destruct (reply_sent_step e2 c1 room (Client.socks_reply x00) Hst1)
      as (c2 & Hcb2 & Hst2 & Hw2 & Hk2 & Hl2 & Hr2 & Henc2).
    + rewrite Hn1. lia.
    + rewrite Hn1. exact Hbytes.
    + rewrite Hn1. reflexivity.
    + exact Hsend.
    + rewrite Hn1. exact Hroom.
    + exists c2.
      rewrite (run_step _ Client.RemoteReadable e1 _ c false [] c1 [])
        by (cbn; rewrite E3, Hcb1; reflexivity).
      rewrite (run_step _ Client.LocalWritable e2 _ c1 _ _ c2
                 [Send (Client.sock_local c1) (Client.socks_reply x00)])
        by (cbn; rewrite F2, Hcb2; reflexivity).
      rewrite Hl1, Hw2, F4, E4, Henc2, Henc1, Hr2, Hr1, Hst2.
      repeat split; reflexivity.
  - intro Hn. cbn [Client.run Client.dispatch]. rewrite E3.
    rewrite (reply_wrong_size e1 c Hst Hn). reflexivity.
Qed.

(** X6.  A failed connection to the iosocks server.  When [connect_cb] finds
    an error on the socket it closes the remote socket at once and prepares
    the SOCKS5 reply with code 0x05; once that reply is written whole and
    the timer is allocated, the block lingers for one second and the timer
    closes the local socket and releases the block. *)
Theorem connect_failure_answered `{Collaborators} servers e1 e2 e3 c room :
  Client.wf c -> Client.state c = Client.CMD_RCVD ->
  Client.w_remote_write c = true ->
  Client.w_remote_write_cb c = Client.ConnectCb ->
  so_error e1 <> 0 ->
  send_res e2 = SendRoom room -> 10 <= Z.of_N room ->
  mem_new_ok e2 = true ->
  Client.run servers
    [(Client.RemoteWritable, e1); (Client.LocalWritable, e2);
     (Client.TimerExpired, e3)] c false []
  = Client.Finished
      [Close (Client.sock_remote c);
       Send (Client.sock_local c) (Client.socks_reply x05);
       TimerStart LINGER_MS; TimerStop; Close (Client.sock_local c);
       FreeTimer; FreeConn].
Proof.
  intros Hwf Hst Hw Hk Herr Hsend Hroom Hmem.
  destruct (connect_failed_step e1 c Hwf Hst Herr)
    as (c1 & Hcb & Hst1 & Hn1 & Hbytes & Hlw1 & _ & Hsock).
  rewrite (run_step _ Client.RemoteWritable e1 _ c false [] c1
             [Close (Client.sock_remote c)])
    by (cbn; rewrite Hw, Hk, Hcb; reflexivity).
  destruct (reply_linger_close servers e2 e3 c1 room
              (Client.socks_reply x05) ([] ++ [Close (Client.sock_remote c)]))
    as [Hrun _]; try assumption.
  - right. left. exact Hst1.
  - rewrite Hn1. lia.
  - rewrite Hn1. exact Hbytes.
  - rewrite Hn1. reflexivity.
  - rewrite Hn1. exact Hroom.
  - rewrite Hsock in Hrun. exact Hrun.
Qed.

(** X7.  A handshake reply is written in one piece or not at all.  In every
    state in which [local_write_cb] sends a prepared handshake reply, a
    [send] that fails - with EAGAIN as with any other error - or that takes
    fewer bytes than the reply has, ends the connection in that callback:
    the local socket is closed and the block released, with no second
    attempt and no timer.  In [REP_RCVD], where the connection to the
    server stands, the remote socket is not closed on this path.  A request
    that the server's socket does not take whole in [CONNECTED] closes both
    sockets. *)
Theorem handshake_write_not_retried `{Collaborators} e c :
  0 < Client.tx_bytes c ->
  ((Client.state c = Client.NEGO_RCVD \/ Client.state c = Client.NEGO_ERR
    \/ Client.state c = Client.CMD_ERR \/ Client.state c = Client.REQ_ERR
    \/ Client.state c = Client.REP_RCVD) ->
   (forall again,
      send_res e = SendFail again ->
      Client.local_write_cb e c
      = Client.Gone [Close (Client.sock_local c); FreeConn])
   /\ (forall room,
         send_res e = SendRoom room -> Z.of_N room < Client.tx_bytes c ->
         Client.local_write_cb e c
         = Client.Gone
             [Send (Client.sock_local c)
                (firstn (N.to_nat room)
                   (sub (Client.tx_buf c) 0
                      (Z.to_nat (Client.tx_bytes c))));
              Close (Client.sock_local c); FreeConn]))
  /\ (Client.state c = Client.CONNECTED ->
      forall room,
        send_res e = SendRoom room -> Z.of_N room < Client.tx_bytes c ->
        Client.remote_write_cb e c
        = Client.Gone
            [Send (Client.sock_remote c)
               (firstn (N.to_nat room)
                  (sub (Client.tx_buf c) 0 (Z.to_nat (Client.tx_bytes c))));
             Close (Client.sock_local c); Close (Client.sock_remote c);
             FreeConn]).
Proof.
  intro Hpos. split.
  - intro Hst. split.
    + intros again Hsend.
      rewrite (handshake_short_write e c Hst)
        by (rewrite Hsend; unfold send; lia).
      rewrite Hsend. reflexivity.
    + intros room Hsend Hroom.
      assert (Hn : send (send_res e) (Client.tx_bytes c) = Z.of_N room)
        by (rewrite Hsend; unfold send; lia).
      rewrite (handshake_short_write e c Hst) by lia.
      rewrite Hn, sent_part. reflexivity.
  - intros Hst room Hsend Hroom.
    assert (Hn : send (send_res e) (Client.tx_bytes c) = Z.of_N room)
      by (rewrite Hsend; unfold send; lia).
    unfold Client.remote_write_cb. rewrite Hst. cbn. rewrite ?Hst. cbn.
    rewrite Hn, sent_part.
    destruct (Z.eqb_spec (Z.of_N room) (Client.tx_bytes c)); [lia |].
    reflexivity.
Qed.

Section ClientRelayEnd.
Context `{Collaborators}.
Import Client.

Lemma sent_nothing fd (region : list byte) n : n < 0 -> sent fd region n = [].
Proof.
  intro Hn. unfold sent. destruct (Z.ltb_spec n 0); [reflexivity | lia].
Qed.

Lemma recv_nothing r (buf : list byte) :
  fst (recv r buf) <= 0 <-> r = RecvFail \/ r = RecvData [].
Proof.
  destruct r as [| d]; unfold recv; cbn [fst].
  - split; [auto | lia].
  - split.
    + intro Hn. right. f_equal. destruct d as [| b d]; [reflexivity |].
      exfalso. rewrite length_firstn in Hn. unfold BUF_SIZE in Hn.
      cbn [length] in Hn. lia.
    + intros [Hf | Hd]; [discriminate |]. injection Hd as ->.
      rewrite firstn_nil. cbn [length]. lia.
Qed.

Lemma send_hard_error r len :
  0 <= len -> send r len < 0 -> errno_again r = false -> r = SendFail false.
Proof.
  intros Hlen Hneg Hag.
  destruct (send_negative r len Hlen Hneg) as [again ->].
  cbn in Hag. rewrite Hag. reflexivity.
Qed.

(** Each relay callback, when it releases the block. *)
Lemma relay_read_gone servers e c fx :
  state c = ESTAB -> local_read_cb servers e c = Gone fx ->
  fx = [Close (sock_local c); Close (sock_remote c); FreeConn]
  /\ (recv_res e = RecvFail \/ recv_res e = RecvData []
      \/ send_res e = SendFail false).
Proof.
  intros Hst Hcb. unfold local_read_cb in Hcb. rewrite Hst in Hcb.
  cbn in Hcb. rewrite ?Hst in Hcb. cbn in Hcb.
  pose proof (recv_nothing (recv_res e) (tx_buf c)) as Hrecv.
  pose proof (recv_le (recv_res e) (tx_buf c)) as Hle.
  destruct (recv (recv_res e) (tx_buf c)) as [n tx]. cbn [fst] in *.
  cbn in Hcb.
  destruct (Z.leb_spec n 0) as [Hn | Hn].
  - injection Hcb as <-. split; [reflexivity |].
    destruct Hrecv as [Hrecv _]. destruct (Hrecv Hn); auto.
  - destruct (encrypt_in_place _ _ _) as [tx' enc]. cbn in Hcb.
    destruct (Z.ltb_spec (send (send_res e) n) 0) as [Hneg |].
    + destruct (errno_again (send_res e)) eqn:Hag; [discriminate |].
      injection Hcb as <-. rewrite sent_nothing by exact Hneg.
      split; [reflexivity |]. right. right.
      apply (send_hard_error _ n); [lia | assumption ..].
    + destruct (send (send_res e) n <? n); discriminate.
Qed.

Lemma back_read_gone e c fx :
  state c = ESTAB -> remote_read_cb e c = Gone fx ->
  fx = [Close (sock_local c); Close (sock_remote c); FreeConn]
  /\ (recv_res e = RecvFail \/ recv_res e = RecvData []
      \/ send_res e = SendFail false).
Proof.
  intros Hst Hcb. unfold remote_read_cb in Hcb. rewrite Hst in Hcb.
  cbn in Hcb. rewrite ?Hst in Hcb. cbn in Hcb.
  pose proof (recv_nothing (recv_res e) (rx_buf c)) as Hrecv.
  destruct (recv (recv_res e) (rx_buf c)) as [n rx]. cbn [fst] in *.
  cbn in Hcb.
  destruct (Z.leb_spec n 0) as [Hn | Hn].
  - injection Hcb as <-. split; [reflexivity |].
    destruct Hrecv as [Hrecv _]. destruct (Hrecv Hn); auto.
  - destruct (decrypt_in_place _ _ _) as [rx' enc]. cbn in Hcb.
    destruct (Z.ltb_spec (send (send_res e) n) 0) as [Hneg |].
    + destruct (errno_again (send_res e)) eqn:Hag; [discriminate |].
      injection Hcb as <-. rewrite sent_nothing by exact Hneg.
      split; [reflexivity |]. right. right.
      apply (send_hard_error _ n); [lia | assumption ..].
    + destruct (send (send_res e) n <? n); discriminate.
Qed.

Lemma relay_drain_gone e c fx :
  state c = ESTAB -> remote_write_cb e c = Gone fx ->
  fx = [Close (sock_local c); Close (sock_remote c); FreeConn]
  /\ send_res e = SendFail false.
Proof.
  intros Hst Hcb. unfold remote_write_cb in Hcb. rewrite Hst in Hcb.
  cbn in Hcb. rewrite ?Hst in Hcb. cbn in Hcb.
  destruct (Z.ltb_spec 0 (tx_bytes c)) as [Hpos |]; [| discriminate].
  cbn in Hcb.
  destruct (Z.ltb_spec (send (send_res e) (tx_bytes c)) 0) as [Hneg |].
  - destruct (errno_again (send_res e)) eqn:Hag; [discriminate |].
    injection Hcb as <-. rewrite sent_nothing by exact Hneg.
    split; [reflexivity |].
    apply (send_hard_error _ (tx_bytes c)); [lia | assumption ..].
  - destruct (send (send_res e) (tx_bytes c) <? tx_bytes c); discriminate.
Qed.

Lemma back_drain_gone e c fx :
  state c = ESTAB -> local_write_cb e c = Gone fx ->
  fx = [Close (sock_local c); Close (sock_remote c); FreeConn]
  /\ send_res e = SendFail false.
Proof.
  intros Hst Hcb. unfold local_write_cb in Hcb. rewrite Hst in Hcb.
  cbn in Hcb. rewrite ?Hst in Hcb. cbn in Hcb.
  destruct (Z.ltb_spec 0 (rx_bytes c)) as [Hpos |]; [| discriminate].
  cbn in Hcb.
  destruct (Z.ltb_spec (send (send_res e) (rx_bytes c)) 0) as [Hneg |].
  - destruct (errno_again (send_res e)) eqn:Hag; [discriminate |].
    injection Hcb as <-. rewrite sent_nothing by exact Hneg.
    split; [reflexivity |].
    apply (send_hard_error _ (rx_bytes c)); [lia | assumption ..].
  - destruct (send (send_res e) (rx_bytes c) <? rx_bytes c); discriminate.
Qed.

(** End of file or a failed read on either socket. *)
Lemma relay_eof servers e c :
  state c = ESTAB -> (recv_res e = RecvFail \/ recv_res e = RecvData []) ->
  local_read_cb servers e c
  = Gone [Close (sock_local c); Close (sock_remote c); FreeConn]
  /\ remote_read_cb e c
     = Gone [Close (sock_local c); Close (sock_remote c); FreeConn].
Proof.
  intros Hst Hrecv.
  unfold local_read_cb, remote_read_cb. rewrite Hst. cbn. rewrite ?Hst. cbn.
  destruct Hrecv as [-> | ->]; split; reflexivity.
Qed.

End ClientRelayEnd.

(** X8.  How the relay phase of the client ends.  From a block the loop can
    hold in [ESTAB], a callback releases the block only when its [recv]
    fails or returns no byte, or when its [send] fails with an error other
    than EAGAIN; it then has sent nothing, and it closes both sockets and
    releases the block.  Conversely a failed or empty read on either
    socket always ends the connection so. *)
Theorem relay_ends_on_eof_or_error `{Collaborators} servers c timer :
  Client.reachable servers c timer -> Client.state c = Client.ESTAB ->
  (forall ev e fx,
     Client.dispatch servers ev e timer c = Some (Client.Gone fx) ->
     fx = [Close (Client.sock_local c); Close (Client.sock_remote c);
           FreeConn]
     /\ (((ev = Client.LocalReadable \/ ev = Client.RemoteReadable)
          /\ (recv_res e = RecvFail \/ recv_res e = RecvData []))
         \/ send_res e = SendFail false))
  /\ (forall e,
        recv_res e = RecvFail \/ recv_res e = RecvData [] ->
        (Client.w_local_read c = true ->
         Client.dispatch servers Client.LocalReadable e timer c
         = Some (Client.Gone [Close (Client.sock_local c);
                              Close (Client.sock_remote c); FreeConn]))
        /\ (Client.w_remote_read c = true ->
            Client.dispatch servers Client.RemoteReadable e timer c
            = Some (Client.Gone [Close (Client.sock_local c);
                                 Close (Client.sock_remote c); FreeConn]))).
Proof.
  intros Hr Hst.
  pose proof (reachable_inv servers c timer Hr) as Hinv.
  pose proof (reachable_linger servers c timer Hr) as Hl.
  unfold Client.inv in Hinv. rewrite Hst in Hinv.
  destruct Hinv as (_ & _ & Hk).
  split.
  - intros ev e fx Hd. destruct ev; cbn in Hd.
    + destruct (Client.w_local_read c); [| discriminate].
      injection Hd as Hd.
      destruct (relay_read_gone servers e c fx Hst Hd) as [-> Hwhy].
      split; [reflexivity |]. intuition.
    + destruct (Client.w_local_write c); [| discriminate].
      injection Hd as Hd.
      destruct (back_drain_gone e c fx Hst Hd) as [-> Hwhy].
      split; [reflexivity |]. right. exact Hwhy.
    + destruct (Client.w_remote_read c); [| discriminate].
      injection Hd as Hd.
      destruct (back_read_gone e c fx Hst Hd) as [-> Hwhy].
      split; [reflexivity |]. intuition.
    + destruct (Client.w_remote_write c); [| discriminate].
      rewrite Hk in Hd. injection Hd as Hd.
      destruct (relay_drain_gone e c fx Hst Hd) as [-> Hwhy].
      split; [reflexivity |]. right. exact Hwhy.
    + destruct timer; [| discriminate].
      destruct Hl as [Hl _]. rewrite (Hl eq_refl) in Hst. discriminate.
  - intros e Hrecv.
    destruct (relay_eof servers e c Hst Hrecv) as [H1 H2].
    split; intro Hw; cbn; rewrite Hw; [rewrite H1 | rewrite H2]; reflexivity.
Qed.

(** * The greeting, whatever it holds *)

Section GreetingScan.
Context `{Collaborators}.
Import Client.

(** Where the scan stops inside its range there is a zero byte. *)
Lemma scan_methods_stop buf left :
  forall i, (scan_methods buf i left < i + left)%nat ->
            peek buf (2 + scan_methods buf i left) = x00.
Proof.
  induction left as [| left IH]; intros i Hstop; cbn [scan_methods] in *;
    [lia |].
  destruct (byte_eqb (peek buf (2 + i)) x00) eqn:E.
  - apply Byte.byte_dec_bl in E. exact E.
  - apply IH. lia.
Qed.

(** The scan finds a method exactly when one of the announced positions
    holds 0x00. *)
Lemma scan_methods_finds buf n :
  (scan_methods buf 0 n < n)%nat
  <-> exists i, (i < n)%nat /\ peek buf (2 + i) = x00.
Proof.
  split.
  - intro Hstop. exists (scan_methods buf 0 n). split; [exact Hstop |].
    apply scan_methods_stop. lia.
  - intros (i & Hi & Hzero).
    pose proof (scan_methods_hit buf n 0 i ltac:(lia) Hzero). lia.
Qed.

Lemma nego_error_cases rx :
  nego_error rx
  = if (Z.to_nat (u8 (peek rx 1)) <=? scan_methods rx 0
                                        (Z.to_nat (u8 (peek rx 1))))%nat
    then 2
    else if byte_eqb (peek rx 0) x05 then 0 else 1.
Proof. reflexivity. Qed.

(** The read handler on any greeting. *)
Lemma greeting_step servers e c d :
  wf c -> state c = CLOSED -> recv_res e = RecvData d -> d <> [] ->
  exists c',
    local_read_cb servers e c = Live c' []
    /\ tx_bytes c' = 2 /\ w_local_write c' = true
    /\ sock_local c' = sock_local c
    /\ (state c', sub (tx_buf c') 0 2)
       = if nego_error (memcpy (bzero (rx_buf c) 257) 0
                          (firstn (Z.to_nat BUF_SIZE) d)) =? 0
         then (NEGO_RCVD, [x05; x00]) else (NEGO_ERR, [x05; xff]).
Proof.
  intros [Hrx Htx] Hst Hrecv Hd.
  unfold local_read_cb. rewrite Hst. cbn. rewrite ?Hst. cbn.
  rewrite Hrecv, recv_data. cbn.
  rewrite received_positive by exact Hd.
  destruct (nego_error _ =? 0).
  - eexists. split; [reflexivity |]. cbn.
    rewrite nego_reply_bytes by exact Htx. repeat split; reflexivity.
  - eexists. split; [reflexivity |]. cbn.
    rewrite nego_reject_bytes by exact Htx. repeat split; reflexivity.
Qed.

End GreetingScan.

(** X9.  Which greetings the client accepts.  For any greeting read in
    [CLOSED], with the positions the read did not fill counting as zero
    bytes: the reply [05 00] is prepared and the state is [NEGO_RCVD]
    exactly when the version byte is 0x05 and one of the first NMETHODS
    method positions holds 0x00; otherwise the reply is [05 ff] and the
    state [NEGO_ERR].  In particular NMETHODS = 0 is always refused. *)
Theorem greeting_accepted_iff `{Collaborators} servers e c d :
  Client.wf c -> Client.state c = Client.CLOSED ->
  recv_res e = RecvData d -> d <> [] ->
  exists c',
    Client.local_read_cb servers e c = Client.Live c' []
    /\ Client.tx_bytes c' = 2 /\ Client.w_local_write c' = true
    /\ ((peek d 0 = x05
         /\ exists i, (i < Z.to_nat (u8 (peek d 1)))%nat
                      /\ peek d (2 + i) = x00) ->
        Client.state c' = Client.NEGO_RCVD
        /\ sub (Client.tx_buf c') 0 2 = [x05; x00])
    /\ (~ (peek d 0 = x05
           /\ exists i, (i < Z.to_nat (u8 (peek d 1)))%nat
                        /\ peek d (2 + i) = x00) ->
        Client.state c' = Client.NEGO_ERR
        /\ sub (Client.tx_buf c') 0 2 = [x05; xff]).
Proof.
  intros Hwf Hst Hrecv Hd.
  destruct (greeting_step servers e c d Hwf Hst Hrecv Hd)
    as (c' & Hcb & Hn & Hw & _ & Hres).
  exists c'. split; [exact Hcb |]. split; [exact Hn |]. split; [exact Hw |].
  destruct Hwf as [Hrx _].
  set (rx := memcpy (bzero (Client.rx_buf c) 257) 0
               (firstn (Z.to_nat BUF_SIZE) d)) in *.
  pose proof (u8_range (peek d 1)) as Hrange.
  assert (Hpeek : forall j, (j < 257)%nat -> peek rx j = peek d j).
  { intros j Hj. unfold rx. apply peek_received;
      [exact Hrx | unfold BUF_SIZE; lia | exact Hj]. }
  assert (Hscan :
    (Client.scan_methods rx 0 (Z.to_nat (u8 (peek d 1)))
     < Z.to_nat (u8 (peek d 1)))%nat
    <-> exists i, (i < Z.to_nat (u8 (peek d 1)))%nat
                  /\ peek d (2 + i) = x00).
  { rewrite scan_methods_finds. split; intros (i & Hi & Hz); exists i;
      (split; [exact Hi |]); [rewrite <- Hpeek | rewrite Hpeek]; 
      first [exact Hz | lia]. }
  rewrite nego_error_cases, !Hpeek in Hres by lia.
  split.
  - intros [Hver Hm]. apply Hscan in Hm.
    destruct (Nat.leb_spec (Z.to_nat (u8 (peek d 1)))
                (Client.scan_methods rx 0 (Z.to_nat (u8 (peek d 1)))));
      [lia |].
    rewrite Hver, byte_eqb_refl in Hres. cbn in Hres.
    injection Hres as -> ->. split; reflexivity.
  - intro Hno.
    destruct (Nat.leb_spec (Z.to_nat (u8 (peek d 1)))
                (Client.scan_methods rx 0 (Z.to_nat (u8 (peek d 1)))))
      as [Hle | Hlt].
    + cbn in Hres. injection Hres as -> ->. split; reflexivity.
    + destruct (byte_eqb (peek d 0) x05) eqn:Ever.
      * exfalso. apply Hno. split.
        -- apply Byte.byte_dec_bl. exact Ever.
        -- apply Hscan. exact Hlt.
      * cbn in Hres. injection Hres as -> ->. split; reflexivity.
Qed.

(** The sample connections of this part are blocks the loop can hold. *)
Lemma sample_after_lingers evs c :
  Client.reachable Sample.servers c false ->
  Sample.lingers evs c = true ->
  Client.reachable Sample.servers (Sample.after evs c) true.
Proof.
  intros Hr Hs. unfold Sample.lingers, Sample.after in *.
  destruct (Client.run Sample.servers evs c false []) as [c' t fx | |] eqn:Hrun;
    try discriminate.
  subst t.
  exact (run_reachable Sample.servers evs c false [] c' true fx Hr Hrun).
Qed.

Lemma sample_settled_run evs c :
  Sample.settled evs c = true ->
  exists c' fx,
    Client.run Sample.servers evs c false [] = Client.Running c' false fx.
Proof.
  unfold Sample.settled. intro Hs.
  destruct (Client.run Sample.servers evs c false []) as [c' t fx | |];
    try discriminate.
  destruct t; [discriminate |]. exists c', fx. reflexivity.
Qed.

Lemma sample_negotiated_reachable :
  Client.reachable Sample.servers Sample.negotiated false.
Proof.
  apply sample_after_reachable; [| vm_compute; reflexivity].
  exact sample_accepted_reachable.
Qed.

Lemma sample_lingering_reachable :
  Client.reachable Sample.servers Sample.lingering true.
Proof.
  apply sample_after_lingers; [| vm_compute; reflexivity].
  exact sample_accepted_reachable.
Qed.

Lemma client_assertions_hold_witness :
  Client.dispatch Sample.servers Client.LocalWritable Sample.quiet false
    Sample.pending <> Some Client.Abort
  /\ Client.dispatch Sample.servers Client.TimerExpired Sample.quiet true
       Sample.lingering <> Some Client.Abort.
Proof.
  split.
  - apply (client_assertions_hold Sample.servers Sample.pending false
             Client.LocalWritable Sample.quiet sample_pending_reachable).
  - apply (client_assertions_hold Sample.servers Sample.lingering true
             Client.TimerExpired Sample.quiet sample_lingering_reachable).
Defined.

Lemma linger_ends_by_timer_witness :
  Client.state Sample.lingering = Client.CLOSE_WAIT
  /\ Client.active Sample.lingering = 0%nat
  /\ Client.dispatch Sample.servers Client.TimerExpired Sample.quiet true
       Sample.lingering
     = Some (Client.Gone [TimerStop; Close (Client.sock_local Sample.lingering);
                          FreeTimer; FreeConn])
  /\ Client.dispatch Sample.servers Client.LocalReadable Sample.quiet true
       Sample.lingering = None.
Proof.
  destruct (linger_ends_by_timer Sample.servers Sample.lingering true
              sample_lingering_reachable) as [[Hst _] Hends].
  specialize (Hst eq_refl). destruct (Hends Hst) as [Hact Hev].
  split; [exact Hst |]. split; [exact Hact |]. split.
  - exact (Hev Client.TimerExpired Sample.quiet).
  - exact (Hev Client.LocalReadable Sample.quiet).
Defined.

Lemma one_watcher_per_wait_witness :
  Client.active Sample.negotiated = 1%nat
  /\ Client.active Sample.pending = 2%nat
  /\ Client.active Sample.lingering = 0%nat.
Proof.
  destruct (one_watcher_per_wait Sample.servers Sample.negotiated false
              sample_negotiated_reachable) as [H1 _].
  destruct (one_watcher_per_wait Sample.servers Sample.pending false
              sample_pending_reachable) as [H2 _].
  destruct (one_watcher_per_wait Sample.servers Sample.lingering true
              sample_lingering_reachable) as [H3 _].
  replace (Client.state Sample.negotiated) with Client.NEGO_SENT in H1
    by (vm_compute; reflexivity).
  replace (Client.state Sample.pending) with Client.ESTAB in H2
    by (vm_compute; reflexivity).
  replace (Client.state Sample.lingering) with Client.CLOSE_WAIT in H3
    by (vm_compute; reflexivity).
  exact (conj H1 (conj H2 H3)).
Defined.

Lemma server_reply_establishes_witness :
  exists c',
    Client.run Sample.servers
      [(Client.RemoteReadable, Sample.io Sample.server_reply 65536);
       (Client.LocalWritable, Sample.quiet)] Sample.requested false []
    = Client.Running c' false
        [Send (Client.sock_local Sample.requested) (Client.socks_reply x00)]
    /\ Client.state c' = Client.ESTAB
    /\ Client.watchers c' = (true, false, true, false).
Proof.
  destruct (server_reply_establishes Sample.servers
              (Sample.io Sample.server_reply 65536) Sample.quiet
              Sample.requested) as [Hok _].
  - apply conj; vm_compute; reflexivity.
  - vm_compute; reflexivity.
  - vm_compute; reflexivity.
  - destruct (Hok Sample.server_reply 65536%N) as (c' & Hrun & Hst & Hw & _).
    + reflexivity.
    + vm_compute; reflexivity.
    + vm_compute; reflexivity.
    + reflexivity.
    + vm_compute; discriminate.
    + exists c'. exact (conj Hrun (conj Hst Hw)).
Defined.

Lemma connect_failure_answered_witness :
  Client.run Sample.servers
    [(Client.RemoteWritable, Sample.refused);
     (Client.LocalWritable, Sample.io [] 10);
     (Client.TimerExpired, Sample.quiet)] Sample.connecting false []
  = Client.Finished
      [Close (Client.sock_remote Sample.connecting);
       Send (Client.sock_local Sample.connecting) (Client.socks_reply x05);
       TimerStart LINGER_MS; TimerStop;
       Close (Client.sock_local Sample.connecting); FreeTimer; FreeConn].
Proof.
  apply (connect_failure_answered Sample.servers Sample.refused
           (Sample.io [] 10) Sample.quiet Sample.connecting 10%N).
  - apply conj; vm_compute; reflexivity.
  - vm_compute; reflexivity.
  - vm_compute; reflexivity.
  - vm_compute; reflexivity.
  - vm_compute; discriminate.
  - reflexivity.
  - vm_compute; discriminate.
  - reflexivity.
Defined.

Lemma handshake_write_not_retried_witness :
  Client.local_write_cb (Sample.io_fail [] true) Sample.greeted
  = Client.Gone [Close (Client.sock_local Sample.greeted); FreeConn]
  /\ Client.local_write_cb (Sample.io [] 1) Sample.greeted
     = Client.Gone
         [Send (Client.sock_local Sample.greeted)
            (firstn 1
               (sub (Client.tx_buf Sample.greeted) 0
                  (Z.to_nat (Client.tx_bytes Sample.greeted))));
          Close (Client.sock_local Sample.greeted); FreeConn].
Proof.
  destruct (handshake_write_not_retried (Sample.io_fail [] true)
              Sample.greeted) as [[Hfail _] _].
  - vm_compute; reflexivity.
  - left. vm_compute; reflexivity.
  - destruct (handshake_write_not_retried (Sample.io [] 1) Sample.greeted)
      as [[_ Hpart] _].
    + vm_compute; reflexivity.
    + left. vm_compute; reflexivity.
    + split.
      * apply (Hfail true). reflexivity.
      * apply (Hpart 1%N); [reflexivity | vm_compute; reflexivity].
Defined.

Lemma relay_ends_on_eof_or_error_witness :
  Client.dispatch Sample.servers Client.LocalReadable Sample.quiet false
    Sample.established
  = Some (Client.Gone [Close (Client.sock_local Sample.established);
                       Close (Client.sock_remote Sample.established);
                       FreeConn]).
Proof.
  destruct (relay_ends_on_eof_or_error Sample.servers Sample.established
              false sample_established_reachable) as [_ Heof].
  - vm_compute; reflexivity.
  - destruct (Heof Sample.quiet) as [Hl _].
    + right. reflexivity.
    + apply Hl. vm_compute; reflexivity.
Defined.

Lemma relay_short_writes_lose_nothing_witness :
  exists c' fx,
    Client.run Sample.servers
      ((Client.LocalReadable, Sample.io (Sample.chunk "a"%byte) 5000)
       :: map (pair Client.RemoteWritable)
            [Sample.io [] 1000; Sample.io_fail [] true; Sample.io [] 65536])
      Sample.established false []
    = Client.Running c' false fx
    /\ sent_on (Client.sock_remote Sample.established) fx
         ++ (if Client.w_remote_write c' then Client.tx_pending c' else [])
       = fst (io_encrypt (Collaborators := Standin.collaborators)
                (Client.enc_evp Sample.established)
                (firstn (Z.to_nat BUF_SIZE) (Sample.chunk "a"%byte))).
Proof.
  destruct (sample_settled_run
              ((Client.LocalReadable, Sample.io (Sample.chunk "a"%byte) 5000)
               :: map (pair Client.RemoteWritable)
                    [Sample.io [] 1000; Sample.io_fail [] true;
                     Sample.io [] 65536])
              Sample.established) as (c' & fx & Hrun).
  - vm_compute; reflexivity.
  - exists c', fx. split; [exact Hrun |].
    destruct (relay_short_writes_lose_nothing Sample.servers
                Sample.established false sample_established_reachable)
      as [Htx _].
    + vm_compute; reflexivity.
    + exact (Htx (Sample.io (Sample.chunk "a"%byte) 5000)
               (Sample.chunk "a"%byte)
               [Sample.io [] 1000; Sample.io_fail [] true;
                Sample.io [] 65536] c' false fx eq_refl Hrun).
Defined.

Lemma greeting_accepted_iff_witness :
  exists c',
    Client.local_read_cb Sample.servers (Sample.io [x05; x00] 0)
      Sample.accepted = Client.Live c' []
    /\ Client.state c' = Client.NEGO_ERR
    /\ sub (Client.tx_buf c') 0 2 = [x05; xff].
Proof.
  destruct (greeting_accepted_iff Sample.servers (Sample.io [x05; x00] 0)
              Sample.accepted [x05; x00])
    as (c' & Hcb & _ & _ & _ & Hno).
  - apply conj; vm_compute; reflexivity.
  - reflexivity.
  - reflexivity.
  - discriminate.
  - exists c'. split; [exact Hcb |]. apply Hno.
    intros [_ (i & Hi & _)]. vm_compute in Hi. lia.
Defined.

(** * The server between accept and release *)

Section ServerInvariant.
Context `{Collaborators}.
Import Server.

Lemma server_starts_timer_sent fd region n :
  starts_timer (sent fd region n) = false.
Proof. unfold sent. destruct (n <? 0); reflexivity. Qed.

Lemma server_starts_resolver_sent fd region n :
  starts_resolver (sent fd region n) = false.
Proof. unfold sent. destruct (n <? 0); reflexivity. Qed.

Lemma server_starts_resolver_linger fx :
  starts_resolver (fx ++ [TimerStart LINGER_MS]) = starts_resolver fx.
Proof.
  unfold starts_resolver. rewrite existsb_app. cbn. apply orb_false_r.
Qed.

Lemma server_starts_timer_linger fx :
  starts_timer (fx ++ [TimerStart LINGER_MS]) = true.
Proof.
  unfold starts_timer. rewrite existsb_app. cbn. apply orb_true_r.
Qed.

Ltac open_inv Hinv :=
  unfold inv, watchers, interlock, drain_bounds, pending_ok in Hinv;
  repeat match goal with H : _ /\ _ |- _ => destruct H end;
  repeat match goal with
    | Hw : (_, _, _, _) = (_, _, _, _) |- _ => injection Hw as ? ? ? ?
    end.

Ltac close_inv Hst :=
  unfold inv, watchers, interlock, drain_bounds, pending_ok; cbn;
  rewrite ?Hst, ?server_starts_timer_linger, ?server_starts_resolver_linger,
    ?server_starts_timer_sent, ?server_starts_resolver_sent;
  cbn.

Ltac settle :=
  repeat match goal with
    | E : ?f ?x = _ |- context [?f ?x] => rewrite E
    end;
  cbn [negb];
  repeat split; intros; subst; try assumption; try discriminate;
  try congruence; try lia;
  repeat match goal with
    | Hb : ?b = true -> _, Ht : ?b = true |- _ => specialize (Hb Ht)
    end;
  intuition (try congruence; try lia).

Lemma server_inv_accept fd idx blank c fx :
  accept_cb fd idx blank = Live c fx -> inv c false false.
Proof.
  unfold accept_cb. cbn.
  destruct (fd <? 0); [discriminate |].
  intro E. injection E as <- <-. unfold inv, watchers. cbn. auto.
Qed.

Lemma server_inv_local_read servers e c c' fx timer resolving :
  inv c timer resolving -> w_local_read c = true ->
  local_read_cb servers e c = Live c' fx ->
  inv c' (timer || starts_timer fx) (resolving || starts_resolver fx).
Proof.
  intros Hinv Hlr Hcb.
  unfold local_read_cb in Hcb.
  destruct (state c) eqn:Hst; cbn in Hcb; rewrite ?Hst in Hcb;
    try discriminate.
  - unfold inv in Hinv. rewrite Hst in Hinv. open_inv Hinv.
    destruct (recv (recv_res e) _) as [n rx]. cbn in Hcb.
    destruct (negb (n =? 512)); [discriminate |].
    destruct (request_key _ _ _ _) as [tx key]. cbn in Hcb.
    destruct (decrypt_in_place _ _ _) as [rx' enc]. cbn in Hcb.
    destruct (negb (_ =? MAGIC)); [discriminate |].
    destruct (negb (mem_new_ok e)); [discriminate |].
    destruct (negb (_ && _)); [discriminate |].
    destruct (negb (gai_ok e)); [discriminate |].
    injection Hcb as <- <-. close_inv Hst.
    rewrite orb_true_r. settle.
  - unfold inv in Hinv. rewrite Hst in Hinv. open_inv Hinv.
    pose proof (recv_le (recv_res e) (tx_buf c)) as Hle.
    destruct (recv (recv_res e) (tx_buf c)) as [n tx] eqn:Hrecv.
    cbn [fst] in Hle. cbn in Hcb.
    destruct (Z.leb_spec n 0) as [| Hpos]; [discriminate |].
    destruct (decrypt_in_place _ _ _) as [tx' enc]. cbn in Hcb.
    pose proof (send_range (send_res e) n ltac:(lia)) as Hsend.
    destruct (w_remote_write c) eqn:Hw;
      [rewrite Hlr in *; discriminate |].
    destruct (Z.ltb_spec (send (send_res e) n) 0).
    + destruct (errno_again (send_res e)); [| discriminate].
      injection Hcb as <- <-. close_inv Hst. settle.
    + destruct (Z.ltb_spec (send (send_res e) n) n).
      * injection Hcb as <- <-. close_inv Hst. settle.
      * injection Hcb as <- <-. close_inv Hst. rewrite ?Hlr, ?Hw. settle.
Qed.

Lemma server_inv_remote_read e c c' fx timer resolving :
  inv c timer resolving -> w_remote_read c = true ->
  remote_read_cb e c = Live c' fx ->
  inv c' (timer || starts_timer fx) (resolving || starts_resolver fx).
Proof.
  intros Hinv Hrr Hcb.
  unfold remote_read_cb in Hcb.
  destruct (state c) eqn:Hst; cbn in Hcb; rewrite ?Hst in Hcb;
    try discriminate.
  unfold inv in Hinv. rewrite Hst in Hinv. open_inv Hinv.
  pose proof (recv_le (recv_res e) (rx_buf c)) as Hle.
  destruct (recv (recv_res e) (rx_buf c)) as [n rx] eqn:Hrecv.
  cbn [fst] in Hle. cbn in Hcb.
  destruct (Z.leb_spec n 0) as [| Hpos]; [discriminate |].
  destruct (encrypt_in_place _ _ _) as [rx' enc]. cbn in Hcb.
  pose proof (send_range (send_res e) n ltac:(lia)) as Hsend.
  destruct (w_local_write c) eqn:Hw;
    [rewrite Hrr in *; discriminate |].
  destruct (Z.ltb_spec (send (send_res e) n) 0).
  - destruct (errno_again (send_res e)); [| discriminate].
    injection Hcb as <- <-. close_inv Hst. settle.
  - destruct (Z.ltb_spec (send (send_res e) n) n).
    + injection Hcb as <- <-. close_inv Hst. settle.
    + injection Hcb as <- <-. close_inv Hst. rewrite ?Hrr, ?Hw. settle.
Qed.

Lemma server_inv_local_write e c c' fx timer resolving :
  inv c timer resolving -> w_local_write c = true ->
  local_write_cb e c = Live c' fx ->
  inv c' (timer || starts_timer fx) (resolving || starts_resolver fx).
Proof.
  intros Hinv Hlw Hcb.
  unfold local_write_cb in Hcb.
  destruct (state c) eqn:Hst; cbn in Hcb; rewrite ?Hst in Hcb;
    try discriminate.
  - unfold inv in Hinv. rewrite Hst in Hinv. open_inv Hinv.
    destruct (negb _); [discriminate |].
    destruct (mem_new_ok e); [| discriminate].
    injection Hcb as <- <-. close_inv Hst. rewrite orb_true_r. settle.
  - unfold inv in Hinv. rewrite Hst in Hinv. open_inv Hinv.
    destruct (negb _); [discriminate |].
    injection Hcb as <- <-. close_inv Hst. settle.
  - unfold inv in Hinv. rewrite Hst in Hinv. open_inv Hinv.
    destruct (Z.ltb_spec 0 (rx_bytes c)) as [Hpos |]; [| discriminate].
    cbn in Hcb.
    pose proof (send_range (send_res e) (rx_bytes c) ltac:(lia)) as Hsend.
    destruct (Z.ltb_spec (send (send_res e) (rx_bytes c)) 0).
    + destruct (errno_again (send_res e)); [| discriminate].
      injection Hcb as <- <-. close_inv Hst. settle.
    + destruct (Z.ltb_spec (send (send_res e) (rx_bytes c)) (rx_bytes c)).
      * injection Hcb as <- <-. close_inv Hst. settle.
      * injection Hcb as <- <-. close_inv Hst. settle.
Qed.

Lemma server_inv_remote_write e c c' fx timer resolving :
  inv c timer resolving -> w_remote_write c = true ->
  w_remote_write_cb c = RemoteWriteCb ->
  remote_write_cb e c = Live c' fx ->
  inv c' (timer || starts_timer fx) (resolving || starts_resolver fx).
Proof.
  intros Hinv Hrw Hk Hcb.
  unfold remote_write_cb in Hcb.
  destruct (state c) eqn:Hst; cbn in Hcb; rewrite ?Hst in Hcb;
    try discriminate.
  unfold inv in Hinv. rewrite Hst in Hinv. open_inv Hinv.
  destruct (Z.ltb_spec 0 (tx_bytes c)) as [Hpos |]; [| discriminate].
  cbn in Hcb.
  pose proof (send_range (send_res e) (tx_bytes c) ltac:(lia)) as Hsend.
  destruct (Z.ltb_spec (send (send_res e) (tx_bytes c)) 0).
  - destruct (errno_again (send_res e)); [| discriminate].
    injection Hcb as <- <-. close_inv Hst. settle.
  - destruct (Z.ltb_spec (send (send_res e) (tx_bytes c)) (tx_bytes c)).
    + injection Hcb as <- <-. close_inv Hst. settle.
    + injection Hcb as <- <-. close_inv Hst. settle.
Qed.

Lemma server_inv_connect e c c' fx timer resolving :
  inv c timer resolving -> connect_cb e c = Live c' fx ->
  inv c' (timer || starts_timer fx) (resolving || starts_resolver fx).
Proof.
  intros Hinv Hcb.
  unfold connect_cb in Hcb.
  destruct (state c) eqn:Hst; cbn in Hcb; try discriminate.
  unfold inv in Hinv. rewrite Hst in Hinv. open_inv Hinv.
  destruct (so_error e =? 0).
  - unfold seal_reply in Hcb. cbn in Hcb.
    destruct (encrypt_in_place _ _ _) as [tx enc].
    injection Hcb as <- <-. close_inv Hst. settle.
  - destruct (tl (res (gai c))) as [| a rest]; cbn in Hcb.
    + unfold seal_reply in Hcb. cbn in Hcb.
      destruct (encrypt_in_place _ _ _) as [tx enc].
      injection Hcb as <- <-. close_inv Hst. settle.
    + destruct (socket_res e <? 0); [discriminate |].
      injection Hcb as <- <-. close_inv Hst. settle.
Qed.

Lemma server_inv_resolv e c c' fx timer :
  inv c timer true -> resolv_cb e c = Live c' fx ->
  inv c' (timer || starts_timer fx) false.
Proof.
  intros Hinv Hcb.
  unfold resolv_cb in Hcb.
  assert (Hst : state c = CLOSED).
  { unfold inv in Hinv. destruct (state c); try reflexivity;
      repeat match goal with H : _ /\ _ |- _ => destruct H end;
      discriminate. }
  unfold inv in Hinv. rewrite Hst in Hinv. open_inv Hinv.
  destruct (negb (gai_ok e)).
  - unfold seal_reply in Hcb. cbn in Hcb.
    destruct (encrypt_in_place _ _ _) as [tx enc].
    injection Hcb as <- <-. close_inv Hst. settle.
  - cbn in Hcb. destruct (socket_res e <? 0); [discriminate |].
    injection Hcb as <- <-. close_inv Hst. settle.
Qed.

(** Every block the loop holds satisfies [inv]. *)
Lemma server_reachable_inv servers c timer resolving :
  reachable servers c timer resolving -> inv c timer resolving.
Proof.
  induction 1
    as [fd idx blank c fx Hacc | c timer resolving ev e c' fx Hreach IH Hd].
  - exact (server_inv_accept fd idx blank c fx Hacc).
  - destruct ev; cbn in Hd.
    + destruct (w_local_read c) eqn:Hw; [| discriminate].
      injection Hd as Hd.
      exact (server_inv_local_read servers e c c' fx _ _ IH Hw Hd).
    + destruct (w_local_write c) eqn:Hw; [| discriminate].
      injection Hd as Hd.
      exact (server_inv_local_write e c c' fx _ _ IH Hw Hd).
    + destruct (w_remote_read c) eqn:Hw; [| discriminate].
      injection Hd as Hd.
      exact (server_inv_remote_read e c c' fx _ _ IH Hw Hd).
    + destruct (w_remote_write c) eqn:Hw; [| discriminate].
      destruct (w_remote_write_cb c) eqn:Hk; [discriminate | |];
        injection Hd as Hd.
      * exact (server_inv_connect e c c' fx _ _ IH Hd).
      * exact (server_inv_remote_write e c c' fx _ _ IH Hw Hk Hd).
    + destruct resolving; [| discriminate]. injection Hd as Hd.
      exact (server_inv_resolv e c c' fx _ IH Hd).
    + destruct timer; [| discriminate].
      injection Hd as Hd. unfold closewait_cb in Hd.
      destruct (state c); discriminate.
Qed.

End ServerInvariant.

Section ServerRuns.
Context `{Collaborators}.
Import Server.

(** In the relay phase a callback that returns leaves the block in the
    relay phase. *)
Lemma server_estab_stays servers ev e c c' fx :
  state c = ESTAB ->
  dispatch servers ev e false false c = Some (Live c' fx) ->
  state c' = ESTAB.
Proof.
  intros Hst Hd. destruct ev; cbn in Hd; try discriminate.
  - destruct (w_local_read c); [| discriminate]. injection Hd as Hd.
    unfold local_read_cb in Hd. rewrite Hst in Hd. cbn in Hd.
    rewrite ?Hst in Hd. cbn in Hd.
    destruct (recv _ _) as [n tx]. cbn in Hd.
    destruct (n <=? 0); [discriminate |].
    destruct (decrypt_in_place _ _ _) as [tx' enc]. cbn in Hd.
    destruct (send _ _ <? 0);
      [destruct (errno_again _); [| discriminate] |
       destruct (send _ _ <? n)];
      injection Hd as <- <-; cbn; exact Hst.
  - destruct (w_local_write c); [| discriminate]. injection Hd as Hd.
    unfold local_write_cb in Hd. rewrite Hst in Hd. cbn in Hd.
    rewrite ?Hst in Hd. cbn in Hd.
    destruct (negb _); [discriminate |]. cbn in Hd.
    destruct (send _ _ <? 0);
      [destruct (errno_again _); [| discriminate] |
       destruct (send _ _ <? _)];
      injection Hd as <- <-; cbn; exact Hst.
  - destruct (w_remote_read c); [| discriminate]. injection Hd as Hd.
    unfold remote_read_cb in Hd. rewrite Hst in Hd. cbn in Hd.
    destruct (recv _ _) as [n rx]. cbn in Hd.
    destruct (n <=? 0); [discriminate |].
    destruct (encrypt_in_place _ _ _) as [rx' enc]. cbn in Hd.
    destruct (send _ _ <? 0);
      [destruct (errno_again _); [| discriminate] |
       destruct (send _ _ <? n)];
      injection Hd as <- <-; cbn; exact Hst.
  - destruct (w_remote_write c); [| discriminate].
    destruct (w_remote_write_cb c); [discriminate | |]; injection Hd as Hd.
    + unfold connect_cb in Hd. rewrite Hst in Hd. discriminate.
    + unfold remote_write_cb in Hd. rewrite Hst in Hd. cbn in Hd.
      destruct (negb _); [discriminate |]. cbn in Hd.
      destruct (send _ _ <? 0);
        [destruct (errno_again _); [| discriminate] |
         destruct (send _ _ <? _)];
        injection Hd as <- <-; cbn; exact Hst.
Qed.

Lemma server_run_reachable servers evs :
  forall c timer resolving acc c' timer' resolving' acc',
    reachable servers c timer resolving ->
    run servers evs c timer resolving acc
    = Running c' timer' resolving' acc' ->
    reachable servers c' timer' resolving'.
Proof.
  induction evs as [| [ev e] rest IH];
    intros c timer resolving acc c' timer' resolving' acc' Hr Hrun.
  - cbn in Hrun. injection Hrun as <- <- <- _. exact Hr.
  - cbn [run] in Hrun.
    destruct (dispatch servers ev e timer resolving c)
      as [[c1 fx | fx | |] |] eqn:Hd; try discriminate.
    + refine (IH c1 _ _ (acc ++ fx) c' timer' resolving' acc' _ Hrun).
      exact (reach_step servers c timer resolving ev e c1 fx Hr Hd).
    + destruct rest; discriminate.
Qed.

End ServerRuns.

(** The invariant excludes the state of the server's block. *)
Ltac server_wrong_state Hinv :=
  exfalso; unfold Server.watchers in Hinv;
  repeat match goal with H : _ /\ _ |- _ => destruct H end;
  subst; cbn [negb] in *; congruence.

(** X10.  The relay of the server keeps the interlock and the bounds of the
    client's.  Every block the server's loop can hold in [ESTAB] has, on
    each pipe, exactly one of the source's read watcher and the sink's
    write watcher active; while a writer is armed its offset is not
    negative, its byte count is positive and their sum is at most 8192; no
    timer and no resolver signal is pending; and every callback that
    returns leaves the block in [ESTAB] with the same properties. *)
Theorem server_relay_interlock `{Collaborators} servers c timer resolving :
  Server.reachable servers c timer resolving ->
  Server.state c = Server.ESTAB ->
  (Server.w_local_read c = negb (Server.w_remote_write c)
   /\ Server.w_remote_read c = negb (Server.w_local_write c))
  /\ (Server.w_remote_write c = true ->
      0 <= Server.tx_offset c /\ 0 < Server.tx_bytes c
      /\ Server.tx_bytes c + Server.tx_offset c <= BUF_SIZE)
  /\ (Server.w_local_write c = true ->
      0 <= Server.rx_offset c /\ 0 < Server.rx_bytes c
      /\ Server.rx_bytes c + Server.rx_offset c <= BUF_SIZE)
  /\ timer = false /\ resolving = false
  /\ (forall ev e c' fx,
        Server.dispatch servers ev e timer resolving c
        = Some (Server.Live c' fx) ->
        Server.state c' = Server.ESTAB
        /\ Server.w_local_read c' = negb (Server.w_remote_write c')
        /\ Server.w_remote_read c' = negb (Server.w_local_write c')
        /\ (Server.w_remote_write c' = true ->
            0 <= Server.tx_offset c' /\ 0 < Server.tx_bytes c'
            /\ Server.tx_bytes c' + Server.tx_offset c' <= BUF_SIZE)
        /\ (Server.w_local_write c' = true ->
            0 <= Server.rx_offset c' /\ 0 < Server.rx_bytes c'
            /\ Server.rx_bytes c' + Server.rx_offset c' <= BUF_SIZE)).
Proof.
  intros Hr Hst.
  pose proof (server_reachable_inv servers c timer resolving Hr) as Hinv.
  unfold Server.inv in Hinv. rewrite Hst in Hinv.
  destruct Hinv as (Hlock & (Htx & Hrx) & Hk & -> & ->).
  split; [exact Hlock |]. split; [exact Htx |]. split; [exact Hrx |].
  split; [reflexivity |]. split; [reflexivity |].
  intros ev e c' fx Hd.
  pose proof (server_estab_stays servers ev e c c' fx Hst Hd) as Hst'.
  pose proof (server_reachable_inv servers c' _ _
                (Server.reach_step servers c false false ev e c' fx Hr Hd))
    as Hinv'.
  unfold Server.inv in Hinv'. rewrite Hst' in Hinv'.
  destruct Hinv' as (Hlock' & (Htx' & Hrx') & _).
  destruct Hlock' as [L1 L2].
  repeat split; try assumption; try (apply Htx'; assumption);
    apply Hrx'; assumption.
Qed.

(** X11.  No assertion of the server fails.  For every block the server's
    loop can hold and every event it can deliver to it - a callback of an
    active watcher, the resolver's signal while a resolution is pending,
    the timer once started - the callback meets the state it asserts or
    its [switch] handles, and the drain callbacks find a positive byte
    count.  The only outcome other than a return or a release of the block
    is the copy of an over-long port string in [local_read_cb] in
    [CLOSED]. *)
Theorem server_assertions_hold `{Collaborators}
  servers c timer resolving ev e :
  Server.reachable servers c timer resolving ->
  Server.dispatch servers ev e timer resolving c <> Some Server.Abort
  /\ (Server.dispatch servers ev e timer resolving c = Some Server.Overrun ->
      ev = Server.LocalReadable /\ Server.state c = Server.CLOSED).
Proof.
  intro Hr.
  pose proof (server_reachable_inv servers c timer resolving Hr) as Hinv.
  unfold Server.inv in Hinv.
  destruct ev; cbn.
  - destruct (Server.w_local_read c) eqn:Hw;
      [| split; [discriminate | intro Hd; discriminate Hd]].
    unfold Server.local_read_cb.
    destruct (Server.state c) eqn:Hst; cbn; rewrite ?Hst;
      try server_wrong_state Hinv.
    + split; [| intros _; split; reflexivity].
      destruct (recv (recv_res e) _) as [n rx]. cbn.
      destruct (negb (n =? 512)); [discriminate |].
      destruct (Server.request_key _ _ _ _) as [tx key]. cbn.
      destruct (decrypt_in_place _ _ _) as [rx' enc]. cbn.
      destruct (negb (_ =? MAGIC)); [discriminate |].
      destruct (negb (mem_new_ok e)); [discriminate |].
      destruct (negb (_ && _)); [discriminate |].
      destruct (negb (gai_ok e)); discriminate.
    + destruct (recv (recv_res e) (Server.tx_buf c)) as [n tx]. cbn.
      destruct (n <=? 0); [split; [discriminate | intro Hd; discriminate Hd] |].
      destruct (decrypt_in_place _ _ _) as [tx' enc]. cbn.
      destruct (send _ _ <? 0);
        [destruct (errno_again _) | destruct (send _ _ <? n)];
        (split; [discriminate | intro Hd; discriminate Hd]).
  - destruct (Server.w_local_write c) eqn:Hw;
      [| split; [discriminate | intro Hd; discriminate Hd]].
    unfold Server.local_write_cb.
    destruct (Server.state c) eqn:Hst; cbn; rewrite ?Hst;
      try server_wrong_state Hinv.
    1-2: destruct (negb _);
      [split; [discriminate | intro Hd; discriminate Hd] |].
    1-2: try destruct (mem_new_ok e);
      (split; [discriminate | intro Hd; discriminate Hd]).
    destruct Hinv as (_ & (_ & Hrx) & _).
    destruct (Hrx Hw) as (_ & Hpos & _).
    destruct (Z.ltb_spec 0 (Server.rx_bytes c)); [| lia]. cbn.
    destruct (send _ _ <? 0);
      [destruct (errno_again _) | destruct (send _ _ <? _)];
      (split; [discriminate | intro Hd; discriminate Hd]).
  - destruct (Server.w_remote_read c) eqn:Hw;
      [| split; [discriminate | intro Hd; discriminate Hd]].
    unfold Server.remote_read_cb.
    destruct (Server.state c) eqn:Hst; cbn;
      try server_wrong_state Hinv.
    destruct (recv (recv_res e) (Server.rx_buf c)) as [n rx]. cbn.
    destruct (n <=? 0); [split; [discriminate | intro Hd; discriminate Hd] |].
    destruct (encrypt_in_place _ _ _) as [rx' enc]. cbn.
    destruct (send _ _ <? 0);
      [destruct (errno_again _) | destruct (send _ _ <? n)];
      (split; [discriminate | intro Hd; discriminate Hd]).
  - destruct (Server.w_remote_write c) eqn:Hw;
      [| split; [discriminate | intro Hd; discriminate Hd]].
    destruct (Server.w_remote_write_cb c) eqn:Hk;
      [split; [discriminate | intro Hd; discriminate Hd] | |].
    + unfold Server.connect_cb.
      destruct (Server.state c) eqn:Hst; cbn;
        try server_wrong_state Hinv.
      destruct (so_error e =? 0);
        [split; [discriminate | intro Hd; discriminate Hd] |].
      destruct (tl (Server.res (Server.gai c))); cbn;
        [split; [discriminate | intro Hd; discriminate Hd] |].
      destruct (socket_res e <? 0);
        (split; [discriminate | intro Hd; discriminate Hd]).
    + unfold Server.remote_write_cb.
      destruct (Server.state c) eqn:Hst; cbn;
        try server_wrong_state Hinv.
      destruct Hinv as (_ & (Htx & _) & _).
      destruct (Htx Hw) as (_ & Hpos & _).
      destruct (Z.ltb_spec 0 (Server.tx_bytes c)); [| lia]. cbn.
      destruct (send _ _ <? 0);
        [destruct (errno_again _) | destruct (send _ _ <? _)];
        (split; [discriminate | intro Hd; discriminate Hd]).
  - destruct resolving;
      [| split; [discriminate | intro Hd; discriminate Hd]].
    unfold Server.resolv_cb.
    destruct (negb (gai_ok e)); cbn;
      [split; [discriminate | intro Hd; discriminate Hd] |].
    destruct (socket_res e <? 0);
      (split; [discriminate | intro Hd; discriminate Hd]).
  - destruct timer;
      [| split; [discriminate | intro Hd; discriminate Hd]].
    unfold Server.closewait_cb.
    destruct (Server.state c) eqn:Hst;
      try server_wrong_state Hinv.
    split; [discriminate | intro Hd; discriminate Hd].
Qed.

(** * The server's connection to the destination *)

Section ServerConnect.
Context `{Collaborators}.
Import Server.

(** [io_encrypt (tx_buf, 4, ...)] on a word just stored at the start of
    [tx_buf]. *)
Lemma seal_word enc buf (w : list byte) :
  length w = 4%nat ->
  encrypt_in_place enc (memcpy buf 0 w) 4
  = (memcpy (memcpy buf 0 w) 0 (fst (io_encrypt enc w)),
     snd (io_encrypt enc w)).
Proof. intro Hw. rewrite <- Hw. apply encrypt_received. Qed.

Lemma sealed_word enc buf (w : list byte) :
  length w = 4%nat ->
  sub (memcpy (memcpy buf 0 w) 0 (fst (io_encrypt enc w))) 0 4
  = fst (io_encrypt enc w).
Proof.
  intro Hw.
  pose proof (io_encrypt_length enc w) as Hl. rewrite Hw in Hl.
  pose proof (sub_memcpy_same (memcpy buf 0 w) 0 (fst (io_encrypt enc w))
                ltac:(lia)) as E.
  rewrite Hl in E. exact E.
Qed.

(** [connect_cb] once the connection to the destination stands. *)
Lemma server_connect_ok_step e c :
  state c = REQ_RCVD -> so_error e = 0 ->
  exists c',
    connect_cb e c = Live c' [FreeGai]
    /\ state c' = CONNECTED /\ tx_bytes c' = 4
    /\ sub (tx_buf c') 0 4 = fst (io_encrypt (enc_evp c) (be32 MAGIC))
    /\ enc_evp c' = snd (io_encrypt (enc_evp c) (be32 MAGIC))
    /\ w_local_write c' = true
    /\ sock_local c' = sock_local c /\ sock_remote c' = sock_remote c.
Proof.
  intros Hst Herr. unfold connect_cb. rewrite Hst, Herr. cbn.
  unfold seal_reply. cbn.
  rewrite (seal_word _ _ (be32 MAGIC)) by reflexivity. cbn.
  eexists. split; [reflexivity |]. cbn.
  rewrite (sealed_word _ _ (be32 MAGIC)) by reflexivity.
  repeat split; reflexivity.
Qed.

(** [connect_cb] after a failed attempt, with a candidate left. *)
Lemma server_connect_next_step e c a0 a rest :
  state c = REQ_RCVD -> so_error e <> 0 ->
  res (gai c) = a0 :: a :: rest -> 0 <= socket_res e ->
  exists c',
    connect_cb e c
    = Live c' [Close (sock_remote c); Connect (socket_res e)]
    /\ state c' = REQ_RCVD /\ res (gai c') = a :: rest
    /\ sock_remote c' = socket_res e
    /\ w_remote_write c' = true /\ w_remote_write_cb c' = ConnectCb
    /\ sock_local c' = sock_local c /\ enc_evp c' = enc_evp c
    /\ tx_buf c' = tx_buf c /\ rx_buf c' = rx_buf c.
Proof.
  intros Hst Herr Hres Hsock. unfold connect_cb. rewrite Hst.
  destruct (Z.eqb_spec (so_error e) 0) as [| _]; [contradiction |]. cbn.
  rewrite Hres. cbn.
  destruct (Z.ltb_spec (socket_res e) 0); [lia |].
  eexists. split; [reflexivity |]. cbn. rewrite ?Hst.
  repeat split; reflexivity.
Qed.

(** [connect_cb] after the last candidate failed. *)
Lemma server_connect_last_step e c :
  state c = REQ_RCVD -> so_error e <> 0 -> tl (res (gai c)) = [] ->
  exists c',
    connect_cb e c
    = Live c' [Close (sock_remote c); Close (sock_remote c); FreeGai]
    /\ state c' = REQ_ERR /\ tx_bytes c' = 4
    /\ sub (tx_buf c') 0 4
       = fst (io_encrypt (enc_evp c) [x00; x00; x00; x00])
    /\ w_local_write c' = true
    /\ sock_local c' = sock_local c.
Proof.
  intros Hst Herr Hres. unfold connect_cb. rewrite Hst.
  destruct (Z.eqb_spec (so_error e) 0) as [| _]; [contradiction |]. cbn.
  rewrite Hres. cbn.
  unfold seal_reply. cbn.
  change (be32 0) with [x00; x00; x00; x00].
  rewrite (seal_word _ _ [x00; x00; x00; x00]) by reflexivity. cbn.
  eexists. split; [reflexivity |]. cbn.
  rewrite (sealed_word _ _ [x00; x00; x00; x00]) by reflexivity.
  repeat split; reflexivity.
Qed.

(** The four-byte reply of a connected block goes out whole: the relay
    phase begins. *)
Lemma server_reply_sent_step e c room reply :
  state c = CONNECTED -> tx_bytes c = 4 -> sub (tx_buf c) 0 4 = reply ->
  length reply = 4%nat ->
  send_res e = SendRoom room -> 4 <= Z.of_N room ->
  exists c',
    local_write_cb e c = Live c' [Send (sock_local c) reply]
    /\ state c' = ESTAB
    /\ watchers c' = (true, false, true, false)
    /\ w_remote_write_cb c' = RemoteWriteCb
    /\ enc_evp c' = enc_evp c
    /\ sock_local c' = sock_local c /\ sock_remote c' = sock_remote c.
Proof.
  intros Hst Hn Hreply Hlen Hsend Hroom.
  unfold local_write_cb. rewrite Hst. cbn. rewrite ?Hst, Hn. cbn.
  rewrite Hsend, send_all by lia. cbn.
  change (Pos.to_nat 4) with 4%nat.
  rewrite Hreply, sent_all by first [exact Hlen | lia].
  eexists. split; [reflexivity |]. cbn. repeat split; reflexivity.
Qed.

(** A four-byte reply that [send] does not take whole. *)
Lemma server_reply_short_write e c :
  (state c = REQ_ERR \/ state c = CONNECTED) ->
  send (send_res e) (tx_bytes c) <> tx_bytes c ->
  local_write_cb e c
  = Gone (sent (sock_local c) (sub (tx_buf c) 0 (Z.to_nat (tx_bytes c)))
            (send (send_res e) (tx_bytes c))
          ++ [Close (sock_local c); FreeGai; FreeConn]).
Proof.
  intros Hst Hshort. unfold local_write_cb.
  destruct Hst as [Hst | Hst];
    rewrite Hst; cbn; rewrite ?Hst; cbn;
    (destruct (Z.eqb_spec (send (send_res e) (tx_bytes c)) (tx_bytes c))
      as [| _]; [contradiction |]); reflexivity.
Qed.

(** The run of [connect_cb] over the candidates when every attempt
    fails. *)
Lemma server_retry_run servers es :
  forall c elast rest acc,
    state c = REQ_RCVD -> w_remote_write c = true ->
    w_remote_write_cb c = ConnectCb ->
    length (res (gai c)) = S (length es) ->
    Forall (fun e => so_error e <> 0 /\ 0 <= socket_res e) es ->
    so_error elast <> 0 ->
    exists c',
      run servers
        (map (pair RemoteWritable) (es ++ [elast]) ++ rest) c false false acc
      = run servers rest c' false false
          (acc ++ retry_trace (sock_remote c) es)
      /\ state c' = REQ_ERR /\ tx_bytes c' = 4
      /\ w_local_write c' = true
      /\ sock_local c' = sock_local c
      /\ sub (tx_buf c') 0 4
         = fst (io_encrypt (enc_evp c) [x00; x00; x00; x00]).
Proof.
  induction es as [| e es IH];
    intros c elast rest acc Hst Hw Hk Hlen Hall Hlast.
  - destruct (server_connect_last_step elast c Hst Hlast)
      as (c' & Hcb & Hst' & Hn & Hbytes & Hlw & Hsock).
    { destruct (res (gai c)) as [| a0 [| a r]]; cbn in Hlen |- *;
        first [reflexivity | discriminate]. }
    exists c'. cbn [app map retry_trace].
    rewrite (server_run_step _ RemoteWritable elast _ c false false acc c'
               [Close (sock_remote c); Close (sock_remote c); FreeGai])
      by (cbn; rewrite Hw, Hk, Hcb; reflexivity).
    cbn [orb starts_timer starts_resolver existsb].
    repeat split; assumption.
  - inversion Hall as [| e' es' [Herr Hsock] Hall' ]; subst.
    destruct (res (gai c)) as [| a0 [| a r]] eqn:Hres; cbn in Hlen;
      try discriminate.
    destruct (server_connect_next_step e c a0 a r Hst Herr Hres Hsock)
      as (c1 & Hcb & Hst1 & Hres1 & Hfd1 & Hw1 & Hk1 & Hl1 & Henc1 & _).
    destruct (IH c1 elast rest
                (acc ++ [Close (sock_remote c); Connect (socket_res e)])
                Hst1 Hw1 Hk1)
      as (c' & Hrun & Hst' & Hn & Hlw & Hsock' & Hbytes);
      [rewrite Hres1; cbn; lia | exact Hall' | exact Hlast |].
    exists c'. cbn [app map retry_trace].
    rewrite (server_run_step _ RemoteWritable e _ c false false acc c1
               [Close (sock_remote c); Connect (socket_res e)])
      by (cbn; rewrite Hw, Hk, Hcb; reflexivity).
    cbn [orb starts_timer starts_resolver existsb].
    rewrite Hrun, Hfd1, <- app_assoc. cbn [app].
    rewrite Henc1 in Hbytes.
    repeat split; try assumption; congruence.
Qed.

End ServerConnect.

(** X12.  The server's reply to a connection that stands.  When [connect_cb]
    finds no error on the socket it releases the resolution block and
    prepares the four bytes of the magic number, encrypted; once they are
    written whole to the client the block is in [ESTAB] with both read
    watchers active and [remote_write_cb] installed on the remote write
    watcher. *)
Theorem destination_connected `{Collaborators} servers e1 e2 c room :
  Server.state c = Server.REQ_RCVD ->
  Server.w_remote_write c = true ->
  Server.w_remote_write_cb c = Server.ConnectCb ->
  so_error e1 = 0 ->
  send_res e2 = SendRoom room -> 4 <= Z.of_N room ->
  exists c',
    Server.run servers
      [(Server.RemoteWritable, e1); (Server.LocalWritable, e2)]
      c false false []
    = Server.Running c' false false
        [FreeGai;
         Send (Server.sock_local c)
           (fst (io_encrypt (Server.enc_evp c) [x52; x6f; x6e; x61]))]
    /\ Server.state c' = Server.ESTAB
    /\ Server.watchers c' = (true, false, true, false)
    /\ Server.w_remote_write_cb c' = Server.RemoteWriteCb
    /\ Server.enc_evp c'
       = snd (io_encrypt (Server.enc_evp c) [x52; x6f; x6e; x61])
    /\ Server.sock_remote c' = Server.sock_remote c.
Proof.
  intros Hst Hw Hk Herr Hsend Hroom.
  destruct (server_connect_ok_step e1 c Hst Herr)
    as (c1 & Hcb1 & Hst1 & Hn1 & Hbytes & Henc1 & Hlw1 & Hl1 & Hr1).
  rewrite be32_magic in Hbytes, Henc1.
  destruct (server_reply_sent_step e2 c1 room _ Hst1 Hn1 Hbytes
              (io_encrypt_length _ _) Hsend Hroom)
    as (c2 & Hcb2 & Hst2 & Hw2 & Hk2 & Henc2 & Hl2 & Hr2).
  exists c2.
  rewrite (server_run_step _ Server.RemoteWritable e1 _ c false false []
             c1 [FreeGai]) by (cbn; rewrite Hw, Hk, Hcb1; reflexivity).
  rewrite (server_run_step _ Server.LocalWritable e2 _ c1 _ _ _ c2
             [Send (Server.sock_local c1)
                (fst (io_encrypt (Server.enc_evp c) [x52; x6f; x6e; x61]))])
    by (cbn; rewrite Hlw1, Hcb2; reflexivity).
  rewrite Hl1, Henc2, Henc1, Hr2, Hr1.
  repeat split; assumption.
Qed.

(** X13.  The server tries every address the resolver returned.  From a
    block whose connection attempt is in progress, with [n] more
    candidates after the current one: [n + 1] connection failures in a row
    close each failed socket and connect a new one to the next candidate,
    [n] times; the last failure closes its socket twice, releases the
    resolution block and prepares four encrypted zero bytes.  Once these
    are written whole and the timer is allocated, the block lingers for one
    second and the timer closes the local socket and releases the block. *)
Theorem every_candidate_tried `{Collaborators}
  servers es elast e2 e3 c room :
  Server.state c = Server.REQ_RCVD ->
  Server.w_remote_write c = true ->
  Server.w_remote_write_cb c = Server.ConnectCb ->
  length (Server.res (Server.gai c)) = S (length es) ->
  Forall (fun e => so_error e <> 0 /\ 0 <= socket_res e) es ->
  so_error elast <> 0 ->
  send_res e2 = SendRoom room -> 4 <= Z.of_N room -> mem_new_ok e2 = true ->
  Server.run servers
    (map (pair Server.RemoteWritable) (es ++ [elast])
     ++ [(Server.LocalWritable, e2); (Server.TimerExpired, e3)])
    c false false []
  = Server.Finished
      (Server.retry_trace (Server.sock_remote c) es
       ++ [Send (Server.sock_local c)
             (fst (io_encrypt (Server.enc_evp c) [x00; x00; x00; x00]));
           TimerStart LINGER_MS; TimerStop; Close (Server.sock_local c);
           FreeTimer; FreeConn]).
Proof.
  intros Hst Hw Hk Hlen Hall Hlast Hsend Hroom Hmem.
  destruct (server_retry_run servers es c elast
              [(Server.LocalWritable, e2); (Server.TimerExpired, e3)] []
              Hst Hw Hk Hlen Hall Hlast)
    as (c' & Hrun & Hst' & Hn & Hlw & Hsock & Hbytes).
  rewrite Hrun.
  rewrite (server_reply_linger_close servers e2 e3 c' _ room false _
             Hst' Hlw Hn Hbytes (io_encrypt_length _ _) Hsend Hroom Hmem).
  rewrite Hsock. reflexivity.
Qed.

(** X14.  The resolution block is handed to [mem_delete] a second time when
    the four-byte reply cannot be delivered.  [resolv_cb] (on a failed
    resolution) and [connect_cb] (on success, or after the last candidate)
    call [mem_delete (conn->gai)] before the reply is written; when [send]
    then fails or takes fewer than four bytes, or the timer cannot be
    allocated, [local_write_cb] calls it on the same pointer again before
    it releases the connection.  After a successful connection this path
    also leaves the remote socket open. *)
Theorem resolution_block_released_twice `{Collaborators} servers e1 e2 c :
  (gai_ok e1 = false ->
   (forall again,
      send_res e2 = SendFail again ->
      Server.run servers
        [(Server.Resolved, e1); (Server.LocalWritable, e2)] c false true []
      = Server.Finished
          [FreeGai; Close (Server.sock_local c); FreeGai; FreeConn])
   /\ (forall room,
         send_res e2 = SendRoom room -> 4 <= Z.of_N room ->
         mem_new_ok e2 = false ->
         Server.run servers
           [(Server.Resolved, e1); (Server.LocalWritable, e2)]
           c false true []
         = Server.Finished
             [FreeGai;
              Send (Server.sock_local c)
                (fst (io_encrypt (Server.enc_evp c) [x00; x00; x00; x00]));
              Close (Server.sock_local c); FreeGai; FreeConn]))
  /\ (Server.state c = Server.REQ_RCVD ->
      Server.w_remote_write c = true ->
      Server.w_remote_write_cb c = Server.ConnectCb ->
      so_error e1 = 0 ->
      forall again,
        send_res e2 = SendFail again ->
        Server.run servers
          [(Server.RemoteWritable, e1); (Server.LocalWritable, e2)]
          c false false []
        = Server.Finished
            [FreeGai; Close (Server.sock_local c); FreeGai; FreeConn]).
Proof.
  split.
  - intro Hgai.
    assert (Hstep : exists c1,
               Server.resolv_cb e1 c = Server.Live c1 [FreeGai]
               /\ Server.state c1 = Server.REQ_ERR
               /\ Server.tx_bytes c1 = 4
               /\ sub (Server.tx_buf c1) 0 4
                  = fst (io_encrypt (Server.enc_evp c) [x00; x00; x00; x00])
               /\ Server.w_local_write c1 = true
               /\ Server.sock_local c1 = Server.sock_local c).
    { unfold Server.resolv_cb. rewrite Hgai. cbn.
      unfold Server.seal_reply. cbn.
      change (bzero (Server.tx_buf c) 4)
        with (memcpy (Server.tx_buf c) 0 [x00; x00; x00; x00]).
      rewrite (seal_word _ _ [x00; x00; x00; x00]) by reflexivity. cbn.
      eexists. split; [reflexivity |]. cbn.
      rewrite (sealed_word _ _ [x00; x00; x00; x00]) by reflexivity.
      repeat split; reflexivity. }
    destruct Hstep as (c1 & Hcb & Hst1 & Hn1 & Hbytes & Hlw1 & Hsock).
    assert (Hrun1 : forall rest,
               Server.run servers ((Server.Resolved, e1) :: rest)
                 c false true []
               = Server.run servers rest c1 false false [FreeGai]).
    { intro rest.
      rewrite (server_run_step _ Server.Resolved e1 _ c false true [] c1
                 [FreeGai]) by (cbn; rewrite Hcb; reflexivity).
      reflexivity. }
    split.
    + intros again Hsend. rewrite Hrun1.
      cbn [Server.run Server.dispatch]. rewrite Hlw1.
      rewrite (server_reply_short_write e2 c1 (or_introl Hst1))
        by (rewrite Hsend, Hn1; unfold send; lia).
      rewrite Hsend, Hn1, Hsock. reflexivity.
    + intros room Hsend Hroom Hmem. rewrite Hrun1.
      cbn [Server.run Server.dispatch]. rewrite Hlw1.
      unfold Server.local_write_cb. rewrite Hst1. cbn.
      rewrite ?Hst1, Hn1. cbn.
      rewrite Hsend, send_all by lia. cbn.
      change (Pos.to_nat 4) with 4%nat.
      rewrite Hmem, Hbytes.
      rewrite sent_all by first [apply io_encrypt_length | lia].
      cbn. rewrite Hsock. reflexivity.
  - intros Hst Hw Hk Herr again Hsend.
    destruct (server_connect_ok_step e1 c Hst Herr)
      as (c1 & Hcb1 & Hst1 & Hn1 & Hbytes & Henc1 & Hlw1 & Hl1 & Hr1).
    rewrite (server_run_step _ Server.RemoteWritable e1 _ c false false []
               c1 [FreeGai]) by (cbn; rewrite Hw, Hk, Hcb1; reflexivity).
    cbn [Server.run Server.dispatch]. rewrite Hlw1.
    rewrite (server_reply_short_write e2 c1 (or_intror Hst1))
      by (rewrite Hsend, Hn1; unfold send; lia).
    rewrite Hsend, Hn1, Hl1. reflexivity.
Qed.

(** * What the relay of the server puts on the wire *)

Section ServerPipes.
Context `{Collaborators}.
Import Server.







End ServerPipes.


(** The sample blocks of the server are blocks its loop can hold. *)
Lemma sample_server_settled_run evs c :
  Sample.server_settled evs c = true ->
  exists c' fx,
    Server.run Sample.servers evs c false false []
    = Server.Running c' false false fx.
Proof.
  unfold Sample.server_settled. intro Hs.
  destruct (Server.run Sample.servers evs c false false [])
    as [c' t r fx | |]; try discriminate.
  destruct t; [discriminate |]. destruct r; [discriminate |].
  exists c', fx. reflexivity.
Qed.

Lemma sample_server_after_reachable evs c :
  Server.reachable Sample.servers c false false ->
  Sample.server_settled evs c = true ->
  Server.reachable Sample.servers (Sample.server_after evs c) false false.
Proof.
  intros Hr Hs.
  destruct (sample_server_settled_run evs c Hs) as (c' & fx & Hrun).
  unfold Sample.server_after. rewrite Hrun.
  exact (server_run_reachable Sample.servers evs c false false []
           c' false false fx Hr Hrun).
Qed.

Lemma sample_server_accepted_reachable :
  Server.reachable Sample.servers Sample.server_accepted false false.
Proof.
  apply (Server.reach_accept Sample.servers 6 1 Sample.server_blank _ []).
  reflexivity.
Qed.

Lemma sample_server_connecting_reachable :
  Server.reachable Sample.servers Sample.server_connecting false false.
Proof.
  apply sample_server_after_reachable; [| vm_compute; reflexivity].
  exact sample_server_accepted_reachable.
Qed.

Lemma sample_server_established_reachable :
  Server.reachable Sample.servers Sample.server_established false false.
Proof.
  apply sample_server_after_reachable; [| vm_compute; reflexivity].
  exact sample_server_connecting_reachable.
Qed.

Lemma sample_server_pending_reachable :
  Server.reachable Sample.servers Sample.server_pending false false.
Proof.
  apply sample_server_after_reachable; [| vm_compute; reflexivity].
  exact sample_server_established_reachable.
Qed.

Lemma server_relay_interlock_witness :
  Server.w_local_read Sample.server_pending = false
  /\ Server.w_remote_write Sample.server_pending = true
  /\ 0 <= Server.tx_offset Sample.server_pending
  /\ 0 < Server.tx_bytes Sample.server_pending
  /\ Server.tx_bytes Sample.server_pending
     + Server.tx_offset Sample.server_pending <= BUF_SIZE.
Proof.
  destruct (server_relay_interlock Sample.servers Sample.server_pending
              false false sample_server_pending_reachable)
    as ((Hl & _) & Htx & _).
  - vm_compute; reflexivity.
  - assert (Hw : Server.w_remote_write Sample.server_pending = true)
      by (vm_compute; reflexivity).
    rewrite Hw in Hl. exact (conj Hl (conj Hw (Htx Hw))).
Defined.

Lemma server_assertions_hold_witness :
  Server.dispatch Sample.servers Server.RemoteWritable Sample.quiet
    false false Sample.server_pending <> Some Server.Abort
  /\ Server.dispatch Sample.servers Server.RemoteWritable Sample.refused
       false false Sample.server_connecting <> Some Server.Abort.
Proof.
  split.
  - apply (server_assertions_hold Sample.servers Sample.server_pending
             false false Server.RemoteWritable Sample.quiet
             sample_server_pending_reachable).
  - apply (server_assertions_hold Sample.servers Sample.server_connecting
             false false Server.RemoteWritable Sample.refused
             sample_server_connecting_reachable).
Defined.

Lemma destination_connected_witness :
  exists c',
    Server.run Sample.servers
      [(Server.RemoteWritable, Sample.quiet);
       (Server.LocalWritable, Sample.quiet)]
      Sample.server_connecting false false []
    = Server.Running c' false false
        [FreeGai;
         Send (Server.sock_local Sample.server_connecting)
           (fst (io_encrypt (Collaborators := Standin.collaborators)
                   (Server.enc_evp Sample.server_connecting)
                   [x52; x6f; x6e; x61]))]
    /\ Server.state c' = Server.ESTAB
    /\ Server.watchers c' = (true, false, true, false).
Proof.
  destruct (destination_connected Sample.servers Sample.quiet Sample.quiet
              Sample.server_connecting 65536%N)
    as (c' & Hrun & Hst & Hw & _).
  - vm_compute; reflexivity.
  - vm_compute; reflexivity.
  - vm_compute; reflexivity.
  - reflexivity.
  - reflexivity.
  - vm_compute; discriminate.
  - exists c'. exact (conj Hrun (conj Hst Hw)).
Defined.

Lemma every_candidate_tried_witness :
  Server.run Sample.servers
    (map (pair Server.RemoteWritable) ([Sample.refused] ++ [Sample.refused])
     ++ [(Server.LocalWritable, Sample.io [] 10);
         (Server.TimerExpired, Sample.quiet)])
    Sample.server_connecting false false []
  = Server.Finished
      (Server.retry_trace (Server.sock_remote Sample.server_connecting)
         [Sample.refused]
       ++ [Send (Server.sock_local Sample.server_connecting)
             (fst (io_encrypt (Collaborators := Standin.collaborators)
                     (Server.enc_evp Sample.server_connecting)
                     [x00; x00; x00; x00]));
           TimerStart LINGER_MS; TimerStop;
           Close (Server.sock_local Sample.server_connecting);
           FreeTimer; FreeConn]).
Proof.
  apply (every_candidate_tried Sample.servers [Sample.refused] Sample.refused
           (Sample.io [] 10) Sample.quiet Sample.server_connecting 10%N).
  - vm_compute; reflexivity.
  - vm_compute; reflexivity.
  - vm_compute; reflexivity.
  - vm_compute; reflexivity.
  - constructor; [| constructor].
    split; [vm_compute; discriminate | vm_compute; discriminate].
  - vm_compute; discriminate.
  - reflexivity.
  - vm_compute; discriminate.
  - reflexivity.
Defined.

Lemma resolution_block_released_twice_witness :
  Server.run Sample.servers
    [(Server.Resolved, Sample.dns_failure);
     (Server.LocalWritable, Sample.dns_failure)]
    Sample.server_resolving false true []
  = Server.Finished
      [FreeGai; Close (Server.sock_local Sample.server_resolving);
       FreeGai; FreeConn]
  /\ Server.run Sample.servers
       [(Server.RemoteWritable, Sample.quiet);
        (Server.LocalWritable, Sample.io_fail [] true)]
       Sample.server_connecting false false []
     = Server.Finished
         [FreeGai; Close (Server.sock_local Sample.server_connecting);
          FreeGai; FreeConn].
Proof.
  split.
  - destruct (resolution_block_released_twice Sample.servers
                Sample.dns_failure Sample.dns_failure
                Sample.server_resolving) as [Hdns _].
    destruct (Hdns eq_refl) as [Hfail _].
    exact (Hfail false eq_refl).
  - destruct (resolution_block_released_twice Sample.servers
                Sample.quiet (Sample.io_fail [] true)
                Sample.server_connecting) as [_ Hconn].
    apply (Hconn ltac:(vm_compute; reflexivity)
             ltac:(vm_compute; reflexivity) ltac:(vm_compute; reflexivity)
             eq_refl true eq_refl).
Defined.


(** * The command line *)

Section CommandLine.
Import Main.

Lemma takes_value_cases o :
  takes_value o = true ->
  o = "-c"%string \/ o = "-s"%string \/ o = "-p"%string
  \/ o = "-b"%string \/ o = "-l"%string \/ o = "-k"%string.
Proof.
  unfold takes_value. cbn. rewrite !orb_true_iff, !String.eqb_eq.
  intuition (try discriminate; auto).
Qed.

Lemma last_value_cons o p pairs init :
  last_value o (p :: pairs) init
  = last_value o pairs (if String.eqb (fst p) o then Some (snd p) else init).
Proof. reflexivity. Qed.

Lemma last_value_absent o pairs init :
  (forall p, In p pairs -> String.eqb (fst p) o = false) ->
  last_value o pairs init = init.
Proof.
  revert init. induction pairs as [| p pairs IH]; intros init Hno;
    [reflexivity |].
  rewrite last_value_cons, (Hno p (or_introl eq_refl)).
  apply IH. intros q Hq. apply Hno. right. exact Hq.
Qed.

Lemma names_server_false pairs :
  names_server pairs = false ->
  forall o, o = "-s"%string \/ o = "-p"%string \/ o = "-k"%string ->
  forall p, In p pairs -> String.eqb (fst p) o = false.
Proof.
  unfold names_server. intros Hno o Ho p Hp.
  destruct (String.eqb (fst p) o) eqn:E; [| reflexivity].
  apply String.eqb_eq in E.
  assert (Hex : existsb
                  (fun p => String.eqb (fst p) "-s"%string
                            || String.eqb (fst p) "-p"%string
                            || String.eqb (fst p) "-k"%string) pairs = true).
  { apply existsb_exists. exists p. split; [exact Hp |].
    rewrite E. destruct Ho as [-> | [-> | ->]]; reflexivity. }
  congruence.
Qed.

(** The loop over [argv] on options with their values. *)
Lemma parse_args_options pairs :
  forall cf conf_file tail,
    Forall (fun p => takes_value (fst p) = true) pairs ->
    parse_args (words pairs ++ tail) cf conf_file
    = parse_args tail (after_options pairs cf)
        (last_value "-c"%string pairs conf_file).
Proof.
  induction pairs as [| [o v] pairs IH]; intros cf conf_file tail Hall.
  - cbn. destruct cf as [n s [la lp]]. reflexivity.
  - inversion Hall as [| p ps Ho Hrest]; subst. cbn [fst] in Ho.
    change (words ((o, v) :: pairs) ++ tail)
      with (o :: v :: (words pairs ++ tail)).
    destruct (takes_value_cases o Ho) as [-> | [-> | [-> | [-> | [-> | ->]]]]];
      cbn [parse_args String.eqb Ascii.eqb Bool.eqb orb];
      rewrite (IH _ _ tail Hrest); rewrite last_value_cons; cbn [fst snd];
      f_equal; unfold after_options, names_server;
      cbn [existsb fst snd String.eqb Ascii.eqb Bool.eqb orb set_server0
           set_address set_port set_key set_local server_num server local
           local_address local_port hd tl address port key];
      rewrite ?last_value_cons;
      cbn [fst snd String.eqb Ascii.eqb Bool.eqb];
      fold (names_server pairs);
      destruct (names_server pairs) eqn:Hn; try reflexivity;
      rewrite ?(last_value_absent "-s"%string pairs)
        by (apply names_server_false; auto);
      rewrite ?(last_value_absent "-p"%string pairs)
        by (apply names_server_false; auto);
      rewrite ?(last_value_absent "-k"%string pairs)
        by (apply names_server_false; auto);
      try reflexivity.
Qed.

End CommandLine.

(** X16.  The options of the command line, in both programs.  On a command
    line made of options that take a value, each followed by its value,
    the loop of [main] ends without a message, and what it leaves is
    decided by the last occurrence of each option: [-c] names the
    configuration file, [-b] and [-l] the local address and port, [-s], [-p]
    and [-k] the address, port and key of the first server, and any of these
    three sets the number of servers to 1.  A value is taken as it is, also
    when it reads like an option. *)
Theorem options_last_value_wins pairs cf conf_file :
  Forall (fun p => Main.takes_value (fst p) = true) pairs ->
  Main.parse_args (Main.words pairs) cf conf_file
  = Main.Continue
      (Main.after_options pairs cf,
       Main.last_value "-c"%string pairs conf_file).
Proof.
  intro Hall.
  pose proof (parse_args_options pairs cf conf_file [] Hall) as E.
  rewrite app_nil_r in E. rewrite E. reflexivity.
Qed.

Lemma options_last_value_wins_witness :
  Main.parse_args
    ["-s"%string; "a.example"%string; "-k"%string; "-h"%string;
     "-l"%string; "1081"%string; "-s"%string; "b.example"%string]
    Main.zero_conf None
  = Main.Continue
      ({| Main.server_num := 1;
          Main.server :=
            [{| Main.address := Some "b.example"%string;
                Main.port := None;
                Main.key := Some "-h"%string |}];
          Main.local :=
            {| Main.local_address := None;
               Main.local_port := Some "1081"%string |} |},
       None).
Proof.
  apply (options_last_value_wins
           [("-s"%string, "a.example"%string); ("-k"%string, "-h"%string);
            ("-l"%string, "1081"%string); ("-s"%string, "b.example"%string)]
           Main.zero_conf None).
  repeat constructor.
Defined.

(** X17.  How the loop over the command line ends early.  After any number
    of options with their values: [-h] or [--help] prints the usage and
    returns 0, whatever follows; an option that takes a value and is the
    last word returns 1 with "Invalid option"; so does any other word,
    whatever follows. *)
Theorem command_line_rejected pairs a rest cf conf_file :
  Forall (fun p => Main.takes_value (fst p) = true) pairs ->
  Main.parse_args (Main.words pairs ++ "-h"%string :: rest) cf conf_file
  = Main.Return 0 Main.Usage
  /\ Main.parse_args (Main.words pairs ++ "--help"%string :: rest)
       cf conf_file
     = Main.Return 0 Main.Usage
  /\ (Main.takes_value a = true ->
      Main.parse_args (Main.words pairs ++ [a]) cf conf_file
      = Main.Return 1 (Main.InvalidOption a))
  /\ (Main.takes_value a = false ->
      a <> "-h"%string -> a <> "--help"%string ->
      Main.parse_args (Main.words pairs ++ a :: rest) cf conf_file
      = Main.Return 1 (Main.InvalidOption a)).
Proof.
  intro Hall. rewrite !(parse_args_options pairs) by exact Hall.
  split; [reflexivity |]. split; [reflexivity |]. split.
  - intro Ha.
    destruct (takes_value_cases a Ha)
      as [-> | [-> | [-> | [-> | [-> | ->]]]]]; reflexivity.
  - intros Ha Hh Hhelp. unfold Main.takes_value in Ha. cbn in Ha.
    rewrite !orb_false_iff in Ha.
    destruct Ha as (Hc & Hs & Hp & Hb & Hl & Hk & _).
    apply String.eqb_neq in Hh, Hhelp.
    cbn [Main.parse_args]. rewrite Hh, Hhelp, Hc, Hs, Hp, Hb, Hl, Hk.
    reflexivity.
Qed.

Lemma command_line_rejected_witness :
  Main.parse_args
    ["-k"%string; "secret"%string; "-h"%string; "-x"%string]
    Main.zero_conf None = Main.Return 0 Main.Usage
  /\ Main.parse_args ["-k"%string; "secret"%string; "-p"%string]
       Main.zero_conf None
     = Main.Return 1 (Main.InvalidOption "-p"%string)
  /\ Main.parse_args
       ["-k"%string; "secret"%string; "-v"%string; "-h"%string]
       Main.zero_conf None
     = Main.Return 1 (Main.InvalidOption "-v"%string).
Proof.
  assert (Hall : Forall (fun p => Main.takes_value (fst p) = true)
                   [("-k"%string, "secret"%string)])
    by (repeat constructor).
  split; [| split].
  - exact (proj1 (command_line_rejected _ "-p"%string ["-x"%string]
                    Main.zero_conf None Hall)).
  - exact (proj1 (proj2 (proj2 (command_line_rejected _ "-p"%string []
                                  Main.zero_conf None Hall))) eq_refl).
  - refine (proj2 (proj2 (proj2 (command_line_rejected _ "-v"%string
                                   ["-h"%string] Main.zero_conf None Hall)))
              eq_refl _ _); discriminate.
Defined.

(** X18.  Without a key nothing is started.  On a command line of options
    with their values that names no configuration file, [main] goes on to
    set up the servers only when [-k] is given; otherwise it prints the
    usage and returns 1, also when [-s] or [-p] is given.  With a key there
    is one server, whose address and port default to 0.0.0.0 and 1205, and
    the local address and port default to 127.0.0.1 and 1080. *)
Theorem started_only_with_a_key read_conf pairs :
  Forall (fun p => Main.takes_value (fst p) = true) pairs ->
  Main.last_value "-c"%string pairs None = None ->
  match Main.last_value "-k"%string pairs None with
  | None =>
      Main.configure read_conf (Main.words pairs)
      = Main.Return 1 Main.Usage
  | Some k =>
      Main.configure read_conf (Main.words pairs)
      = Main.Continue
          {| Main.server_num := 1;
             Main.server :=
               [{| Main.address :=
                     Main.default "0.0.0.0"%string
                       (Main.last_value "-s"%string pairs None);
                   Main.port :=
                     Main.default "1205"%string
                       (Main.last_value "-p"%string pairs None);
                   Main.key := Some k |}];
             Main.local :=
               {| Main.local_address :=
                    Main.default "127.0.0.1"%string
                      (Main.last_value "-b"%string pairs None);
                  Main.local_port :=
                    Main.default "1080"%string
                      (Main.last_value "-l"%string pairs None) |} |}
  end.
Proof.
  intros Hall Hc. unfold Main.configure.
  pose proof (parse_args_options pairs Main.zero_conf None [] Hall) as E.
  rewrite app_nil_r in E. rewrite E. cbn [Main.parse_args]. rewrite Hc.
  unfold Main.after_options. cbn [Main.server_num Main.server Main.local
    Main.zero_conf Main.local_address Main.local_port hd tl
    Main.null_endpoint Main.address Main.port Main.key].
  destruct (Main.names_server pairs) eqn:Hn.
  - cbn. destruct (Main.last_value "-k"%string pairs None); reflexivity.
  - rewrite (last_value_absent "-k"%string pairs)
      by (apply names_server_false; auto).
    reflexivity.
Qed.

Lemma started_only_with_a_key_witness :
  Main.configure (fun _ _ => None)
    ["-s"%string; "a.example"%string; "-p"%string; "443"%string]
  = Main.Return 1 Main.Usage
  /\ Main.configure (fun _ _ => None) ["-k"%string; "secret"%string]
     = Main.Continue
         {| Main.server_num := 1;
            Main.server :=
              [{| Main.address := Some "0.0.0.0"%string;
                  Main.port := Some "1205"%string;
                  Main.key := Some "secret"%string |}];
            Main.local :=
              {| Main.local_address := Some "127.0.0.1"%string;
                 Main.local_port := Some "1080"%string |} |}.
Proof.
  split.
  - apply (started_only_with_a_key (fun _ _ => None)
             [("-s"%string, "a.example"%string);
              ("-p"%string, "443"%string)]);
      [repeat constructor | reflexivity].
  - apply (started_only_with_a_key (fun _ _ => None)
             [("-k"%string, "secret"%string)]);
      [repeat constructor | reflexivity].
Defined.
